(** * GSPlayblast: the capture-and-encode engine of [GeterosisPlayblast]

    A shallow embedding of the class [GeterosisPlayblast] of
    [src/GSPlayblast.py] (the settings accessors, [execute], the encoder
    driver and the temporary-directory clean-up), followed by the
    properties of the engine.

    Python values are kept dynamically typed ([PyVal]); numbers follow
    Python 3 (unbounded [int], binary64 [float]).  The host application
    (Maya's [cmds]/[mel], the file system, Qt) is a record of scene data
    [Host]; the calls whose effect is decided outside the repository (the
    capture primitive, the encoder process, [QDir], [os.path], [float()])
    are the fields of [Prims].  Methods are state transformers on [World]
    that either return a value or raise. *)

From Stdlib Require Import ZArith String Ascii List Bool Lia.
From Stdlib Require Import Floats.PrimFloat Floats.SpecFloat Floats.FloatOps.
From stdpp Require Import gmap strings list fin_maps pretty.

#[local] Set Warnings "-register-all".

Local Open Scope Z_scope.
Local Open Scope string_scope.

(** ** Python values *)


Inductive PyVal : Type :=
| PNone
| PBool (b : bool)
| PInt (z : Z)
| PFloat (f : float)
| PStr (s : string)
| PTuple (l : list PyVal)
| PList (l : list PyVal).

(** Exceptions.  A [RuntimeError] carries its message; where the code
    formats into it a value that need not be a string (the preset given
    to [PresetToResolution] or [PresetToFrameRange]), the message is
    kept as the format string: every handler of these is a bare
    [except], which does not read it. *)
Inductive PyExn : Type :=
| RuntimeError (msg : string)
| IndexError
| TypeError
| ValueError
| KeyError
| ZeroDivisionError
| OverflowError.

Inductive Res (A : Type) : Type :=
| Val (a : A)
| Raise (e : PyExn).

Arguments Val {A} a.
Arguments Raise {A} e.

(** [bool(v)]: the truth value Python gives a value in [if v:]. *)
Definition py_truthy (v : PyVal) : bool :=
  match v with
  | PNone => false
  | PBool b => b
  | PInt z => negb (z =? 0)%Z
  | PFloat f => negb (PrimFloat.eqb f 0%float)
  | PStr s => negb (String.eqb s "")
  | PTuple l | PList l => match l with [] => false | _ => true end
  end.

(** [v == s] for a string literal [s]. *)
Definition py_eq_str (v : PyVal) (s : string) : bool :=
  match v with
  | PStr t => String.eqb t s
  | _ => false
  end.

(** [hash(v)] succeeds: lists are unhashable, tuples hash their items. *)
Fixpoint py_hashable (v : PyVal) : bool :=
  match v with
  | PList _ => false
  | PTuple l => forallb py_hashable l
  | _ => true
  end.

(** [v in d.keys()] for a dict with string keys. *)
Definition py_in_keys (v : PyVal) (keys : list string) : Res bool :=
  if py_hashable v
  then Val (existsb (py_eq_str v) keys)
  else Raise TypeError.

(** [v in l] for a list [l] of string literals. *)
Definition py_in_strs (v : PyVal) (l : list string) : bool :=
  existsb (py_eq_str v) l.

(** [type(v) in [list, tuple]] *)
Definition py_is_seq (v : PyVal) : bool :=
  match v with
  | PTuple _ | PList _ => true
  | _ => false
  end.

(** [isinstance(v, int)]; [bool] is a subclass of [int]. *)
Definition py_isinstance_int (v : PyVal) : bool :=
  match v with
  | PInt _ | PBool _ => true
  | _ => false
  end.

Fixpoint string_nth (s : string) (i : nat) : option ascii :=
  match s, i with
  | EmptyString, _ => None
  | String c _, O => Some c
  | String _ s', S i' => string_nth s' i'
  end.

(** [v[i]] for a literal index [i >= 0]. *)
Definition py_getitem (v : PyVal) (i : nat) : Res PyVal :=
  match v with
  | PTuple l | PList l =>
      match l !! i with
      | Some x => Val x
      | None => Raise IndexError
      end
  | PStr s =>
      match string_nth s i with
      | Some c => Val (PStr (String c EmptyString))
      | None => Raise IndexError
      end
  | _ => Raise TypeError
  end.

(** ** Numbers: [int] and binary64 [float] *)

(** [float(z)] for an [int]: round to nearest even; too large raises. *)
Definition float_of_Z (z : Z) : Res float :=
  let f := SF2Prim (binary_normalize prec emax z 0 false) in
  if PrimFloat.is_infinity f then Raise OverflowError else Val f.

(** [int(f)] for a [float]: truncation towards zero. *)
Definition py_int_of_float (f : float) : Res Z :=
  match Prim2SF f with
  | S754_zero _ => Val 0
  | S754_infinity _ => Raise OverflowError
  | S754_nan => Raise ValueError
  | S754_finite s m e =>
      let mag := if (0 <=? e)%Z then (Z.pos m * 2 ^ e)%Z else (Z.pos m / 2 ^ (- e))%Z in
      Val (if s then (- mag)%Z else mag)
  end.

(** The operand of an arithmetic operator as a number. *)
Inductive PyNum : Type :=
| NInt (z : Z)
| NFloat (f : float).

Definition py_num (v : PyVal) : Res PyNum :=
  match v with
  | PBool b => Val (NInt (Z.b2z b))
  | PInt z => Val (NInt z)
  | PFloat f => Val (NFloat f)
  | _ => Raise TypeError
  end.

Definition num_to_float (n : PyNum) : Res float :=
  match n with
  | NInt z => float_of_Z z
  | NFloat f => Val f
  end.

(** [v <= 0] *)
Definition py_le_zero (v : PyVal) : Res bool :=
  match py_num v with
  | Val (NInt z) => Val (z <=? 0)%Z
  | Val (NFloat f) => Val (PrimFloat.leb f 0%float)
  | Raise e => Raise e
  end.

(** [v > 0] *)
Definition py_gt_zero (v : PyVal) : Res bool :=
  match py_num v with
  | Val (NInt z) => Val (0 <? z)%Z
  | Val (NFloat f) => Val (PrimFloat.ltb 0%float f)
  | Raise e => Raise e
  end.

(** [v <= 100] *)
Definition py_le_100 (v : PyVal) : Res bool :=
  match py_num v with
  | Val (NInt z) => Val (z <=? 100)%Z
  | Val (NFloat f) => Val (PrimFloat.leb f 100%float)
  | Raise e => Raise e
  end.

(** [a - b] *)
Definition py_sub (a b : PyVal) : Res PyNum :=
  match py_num a, py_num b with
  | Val (NInt x), Val (NInt y) => Val (NInt (x - y))
  | Val x, Val y =>
      match num_to_float x, num_to_float y with
      | Val fx, Val fy => Val (NFloat (PrimFloat.sub fx fy))
      | Raise e, _ => Raise e
      | _, Raise e => Raise e
      end
  | Raise e, _ => Raise e
  | _, Raise e => Raise e
  end.

(** [n / f] for a [float] divisor; a zero divisor raises. *)
Definition py_truediv (n : PyNum) (f : float) : Res float :=
  match num_to_float n with
  | Val fn =>
      if PrimFloat.eqb f 0%float then Raise ZeroDivisionError
      else Val (PrimFloat.div fn f)
  | Raise e => Raise e
  end.

(** ** Strings *)

Definition dquote : string := String (ascii_of_nat 34) EmptyString.

(** [sub in s] *)
Fixpoint str_contains (sub s : string) : bool :=
  String.prefix sub s ||
  match s with
  | EmptyString => false
  | String _ s' => str_contains sub s'
  end.

Fixpoint str_drop (n : nat) (s : string) : string :=
  match n, s with
  | O, _ => s
  | S n', String _ s' => str_drop n' s'
  | S _, EmptyString => EmptyString
  end.

(** [s.replace(old, new)] for a non-empty [old]: left to right, without
    overlap.  [fuel] bounds the scan by the length of [s]. *)
Fixpoint str_replace_fuel (fuel : nat) (old new s : string) : string :=
  match fuel with
  | O => s
  | S fuel' =>
      match s with
      | EmptyString => EmptyString
      | String c s' =>
          if String.prefix old s
          then new +:+ str_replace_fuel fuel' old new (str_drop (String.length old) s)
          else String c (str_replace_fuel fuel' old new s')
      end
  end.

Definition str_replace (old new s : string) : string :=
  str_replace_fuel (S (String.length s)) old new s.

(** [s.endswith(suffix)] *)
Definition str_endswith (s suffix : string) : bool :=
  let n := String.length s in
  let k := String.length suffix in
  (k <=? n)%nat && String.eqb (str_drop (n - k) s) suffix.

(** [s[0:-3]] *)
Definition str_drop_last3 (s : string) : string :=
  String.substring 0 (String.length s - 3) s.

(** ** The host application and the object *)

(** The Maya scene, viewport and file system as the engine sees them. *)
Record Host : Type := mkHost {
  (** [cmds.listCameras()] *)
  h_cameras : list string;
  (** [cmds.getPanel(withFocus=True)] *)
  h_focus : string;
  (** the model panels, each with the camera it looks through; a model
      panel's editor carries the panel's name *)
  h_panels : gmap string string;
  (** the flags of each model editor *)
  h_editors : gmap string (gmap string PyVal);
  (** node attributes addressed by name, as in [cmds.getAttr("node.attr")] *)
  h_attrs : gmap string PyVal;
  (** [defaultResolution.width], [defaultResolution.height] *)
  h_resolution : Z * Z;
  (** [defaultRenderGlobals.startFrame], [.endFrame] *)
  h_renderRange : float * float;
  (** [playbackOptions]: [minTime], [maxTime] *)
  h_playbackRange : float * float;
  (** [playbackOptions]: [animationStartTime], [animationEndTime] *)
  h_animationRange : float * float;
  (** [cmds.currentUnit(q=True, time=True)] *)
  h_timeUnit : string;
  (** [timeControl -q -sound $gPlayBackSlider] *)
  h_sound : string;
  (** [cmds.optionVar] *)
  h_optionVars : gmap string string;
  (** [cmds.workspace(q=True, rootDirectory=True)] *)
  h_project : string;
  (** [cmds.file(q=True, sceneName=True, shortName=True)] *)
  h_sceneName : string;
  (** the paths that exist, each with whether it is a directory *)
  h_fs : gmap string bool
}.

Definition with_panels (f : gmap string string -> gmap string string) (h : Host) : Host :=
  mkHost (h_cameras h) (h_focus h) (f (h_panels h)) (h_editors h) (h_attrs h)
         (h_resolution h) (h_renderRange h) (h_playbackRange h) (h_animationRange h)
         (h_timeUnit h) (h_sound h) (h_optionVars h) (h_project h) (h_sceneName h) (h_fs h).

Definition with_editors (f : gmap string (gmap string PyVal) -> gmap string (gmap string PyVal))
    (h : Host) : Host :=
  mkHost (h_cameras h) (h_focus h) (h_panels h) (f (h_editors h)) (h_attrs h)
         (h_resolution h) (h_renderRange h) (h_playbackRange h) (h_animationRange h)
         (h_timeUnit h) (h_sound h) (h_optionVars h) (h_project h) (h_sceneName h) (h_fs h).

Definition with_attrs (f : gmap string PyVal -> gmap string PyVal) (h : Host) : Host :=
  mkHost (h_cameras h) (h_focus h) (h_panels h) (h_editors h) (f (h_attrs h))
         (h_resolution h) (h_renderRange h) (h_playbackRange h) (h_animationRange h)
         (h_timeUnit h) (h_sound h) (h_optionVars h) (h_project h) (h_sceneName h) (h_fs h).

Definition with_fs (fs : gmap string bool) (h : Host) : Host :=
  mkHost (h_cameras h) (h_focus h) (h_panels h) (h_editors h) (h_attrs h)
         (h_resolution h) (h_renderRange h) (h_playbackRange h) (h_animationRange h)
         (h_timeUnit h) (h_sound h) (h_optionVars h) (h_project h) (h_sceneName h) fs.

(** The instance attributes of a [GeterosisPlayblast] object. *)
Record Self : Type := mkSelf {
  _FfmpegPath : string;
  _LogToMaya : bool;
  _Camera : option string;
  _ResolutionPreset : PyVal;
  _WidthHeight : PyVal;
  _FrameRangePreset : PyVal;
  _StartFrame : PyVal;
  _EndFrame : PyVal;
  _Visibility : PyVal;
  _ContainerFormat : string;
  _Encoder : string;
  _h264Quality : string;
  _h264Preset : string;
  _ImageQuality : PyVal
}.

(** The keyword arguments of [cmds.playblast]. *)
Record PlayblastOptions : Type := mkOptions {
  o_filename : string;
  o_widthHeight : PyVal;
  o_percent : Z;
  o_startTime : PyVal;
  o_endTime : PyVal;
  o_clearCache : bool;
  o_forceOverwrite : bool;
  o_format : string;
  o_compression : string;
  o_quality : PyVal;
  o_indexFromZero : bool;
  o_framePadding : Z;
  o_showOrnaments : bool;
  o_viewer : bool
}.

(** A piece of a formatted string: literal text or a formatted value. *)
Inductive Piece : Type :=
| Txt (s : string)
| Fmt (v : PyVal)
| FmtOptions (o : PlayblastOptions).

(** A log line: where it goes, its level, the format string and the
    values formatted into it. *)
Inductive Sink : Type := MayaDisplay | OutputLogged.
Inductive Level : Type := LvlError | LvlWarning | LvlInfo.

Record LogLine : Type := mkLog {
  ll_sink : Sink;
  ll_level : Level;
  ll_text : list Piece
}.

(** The calls that change the host or start something outside it, in the
    order the engine issues them. *)
Inductive HostCall : Type :=
| CallLookThrough (camera : option string) (panel : string)
| CallModelEditorEdit (editor : string) (flags : gmap string PyVal)
| CallSetAttr (attr : string) (v : PyVal)
| CallPlayblast (o : PlayblastOptions)
| CallFfmpeg (cmd : list Piece)
| CallQDirRemove (dir name : string)
| CallQDirRmdir (dir : string)
| CallStartDetached (exe path : string)
| CallOpenUrl (path : string).

Record World : Type := mkWorld {
  w_host : Host;
  w_self : Self;
  w_log : list LogLine;
  w_trace : list HostCall
}.

(** What the repository does not decide: library functions and the
    processes the engine drives. *)
Record Prims : Type := mkPrims {
  os_path_join : string -> string -> string;
  os_path_normpath : string -> string;
  (** [os.path.splitext(p)[0]] *)
  os_path_splitext_root : string -> string;
  (** [float(s)] on a string *)
  float_of_str : string -> Res float;
  (** [cmds.playblast]: the scene afterwards, and whether the
      call raised *)
  cmds_playblast : PlayblastOptions -> Host -> Res unit * Host;
  (** one run of the encoder process to its end: what it wrote on its
      error stream, chunk by chunk, its exit code, and the files
      afterwards *)
  qprocess_run : list Piece -> Host -> list string * Z * gmap string bool;
  (** [QDir(dir).entryList()] under the name filter [*.png], files only *)
  qdir_entryList : gmap string bool -> string -> list string;
  (** [QDir(dir).remove(name)] *)
  qdir_remove : gmap string bool -> string -> string -> gmap string bool;
  (** [QDir(dir).rmdir(path)] *)
  qdir_rmdir : gmap string bool -> string -> bool * gmap string bool
}.

(** ** Methods as state transformers *)

Definition M (A : Type) : Type := World -> Res A * World.

Definition ret {A : Type} (a : A) : M A := fun w => (Val a, w).

Definition raise {A : Type} (e : PyExn) : M A := fun w => (Raise e, w).

Definition bind {A B : Type} (m : M A) (k : A -> M B) : M B :=
  fun w =>
    match m w with
    | (Val a, w') => k a w'
    | (Raise e, w') => (Raise e, w')
    end.

(** [try: m except: handler] with a bare [except]. *)
Definition py_try {A : Type} (m : M A) (handler : M A) : M A :=
  fun w =>
    match m w with
    | (Val a, w') => (Val a, w')
    | (Raise _, w') => handler w'
    end.

(** [try: m finally: cleanup] *)
Definition py_finally {A : Type} (m : M A) (cleanup : M unit) : M A :=
  fun w =>
    match m w with
    | (r, w') =>
        match cleanup w' with
        | (Val _, w'') => (r, w'')
        | (Raise e, w'') => (Raise e, w'')
        end
    end.

Definition lift {A : Type} (r : Res A) : M A := fun w => (r, w).

Declare Scope py_scope.
Delimit Scope py_scope with py.

Notation "'let*' x ':=' m 'in' k" := (bind m (fun x => k))
  (at level 10, x name, m at level 100, k at level 200) : py_scope.
Notation "m '>>' k" := (bind m (fun _ => k))
  (at level 100, k at level 200, right associativity) : py_scope.

Local Open Scope py_scope.

Definition get_host : M Host := fun w => (Val (w_host w), w).
Definition get_self : M Self := fun w => (Val (w_self w), w).

Definition put_host (h : Host) : M unit :=
  fun w => (Val tt, mkWorld h (w_self w) (w_log w) (w_trace w)).

Definition put_self (s : Self) : M unit :=
  fun w => (Val tt, mkWorld (w_host w) s (w_log w) (w_trace w)).

Definition emit (l : LogLine) : M unit :=
  fun w => (Val tt, mkWorld (w_host w) (w_self w) (w_log w ++ [l]) (w_trace w)).

Definition record (c : HostCall) : M unit :=
  fun w => (Val tt, mkWorld (w_host w) (w_self w) (w_log w) (w_trace w ++ [c])).

Definition when (b : bool) (m : M unit) : M unit := if b then m else ret tt.

Fixpoint for_each {A : Type} (l : list A) (body : A -> M unit) : M unit :=
  match l with
  | [] => ret tt
  | x :: l' => body x >> for_each l' body
  end.

(** Updates of one instance attribute. *)
Definition set_FfmpegPath (v : string) : M unit :=
  fun w => let s := w_self w in
  put_self (mkSelf v (_LogToMaya s) (_Camera s) (_ResolutionPreset s) (_WidthHeight s)
    (_FrameRangePreset s) (_StartFrame s) (_EndFrame s) (_Visibility s) (_ContainerFormat s)
    (_Encoder s) (_h264Quality s) (_h264Preset s) (_ImageQuality s)) w.

Definition set_LogToMaya (v : bool) : M unit :=
  fun w => let s := w_self w in
  put_self (mkSelf (_FfmpegPath s) v (_Camera s) (_ResolutionPreset s) (_WidthHeight s)
    (_FrameRangePreset s) (_StartFrame s) (_EndFrame s) (_Visibility s) (_ContainerFormat s)
    (_Encoder s) (_h264Quality s) (_h264Preset s) (_ImageQuality s)) w.

Definition set_Camera (v : option string) : M unit :=
  fun w => let s := w_self w in
  put_self (mkSelf (_FfmpegPath s) (_LogToMaya s) v (_ResolutionPreset s) (_WidthHeight s)
    (_FrameRangePreset s) (_StartFrame s) (_EndFrame s) (_Visibility s) (_ContainerFormat s)
    (_Encoder s) (_h264Quality s) (_h264Preset s) (_ImageQuality s)) w.

Definition set_ResolutionPreset (v : PyVal) : M unit :=
  fun w => let s := w_self w in
  put_self (mkSelf (_FfmpegPath s) (_LogToMaya s) (_Camera s) v (_WidthHeight s)
    (_FrameRangePreset s) (_StartFrame s) (_EndFrame s) (_Visibility s) (_ContainerFormat s)
    (_Encoder s) (_h264Quality s) (_h264Preset s) (_ImageQuality s)) w.

Definition set_WidthHeight (v : PyVal) : M unit :=
  fun w => let s := w_self w in
  put_self (mkSelf (_FfmpegPath s) (_LogToMaya s) (_Camera s) (_ResolutionPreset s) v
    (_FrameRangePreset s) (_StartFrame s) (_EndFrame s) (_Visibility s) (_ContainerFormat s)
    (_Encoder s) (_h264Quality s) (_h264Preset s) (_ImageQuality s)) w.

Definition set_FrameRangePreset (v : PyVal) : M unit :=
  fun w => let s := w_self w in
  put_self (mkSelf (_FfmpegPath s) (_LogToMaya s) (_Camera s) (_ResolutionPreset s) (_WidthHeight s)
    v (_StartFrame s) (_EndFrame s) (_Visibility s) (_ContainerFormat s)
    (_Encoder s) (_h264Quality s) (_h264Preset s) (_ImageQuality s)) w.

Definition set_StartFrame (v : PyVal) : M unit :=
  fun w => let s := w_self w in
  put_self (mkSelf (_FfmpegPath s) (_LogToMaya s) (_Camera s) (_ResolutionPreset s) (_WidthHeight s)
    (_FrameRangePreset s) v (_EndFrame s) (_Visibility s) (_ContainerFormat s)
    (_Encoder s) (_h264Quality s) (_h264Preset s) (_ImageQuality s)) w.

Definition set_EndFrame (v : PyVal) : M unit :=
  fun w => let s := w_self w in
  put_self (mkSelf (_FfmpegPath s) (_LogToMaya s) (_Camera s) (_ResolutionPreset s) (_WidthHeight s)
    (_FrameRangePreset s) (_StartFrame s) v (_Visibility s) (_ContainerFormat s)
    (_Encoder s) (_h264Quality s) (_h264Preset s) (_ImageQuality s)) w.

Definition set_Visibility (v : PyVal) : M unit :=
  fun w => let s := w_self w in
  put_self (mkSelf (_FfmpegPath s) (_LogToMaya s) (_Camera s) (_ResolutionPreset s) (_WidthHeight s)
    (_FrameRangePreset s) (_StartFrame s) (_EndFrame s) v (_ContainerFormat s)
    (_Encoder s) (_h264Quality s) (_h264Preset s) (_ImageQuality s)) w.

Definition set_ContainerFormat (v : string) : M unit :=
  fun w => let s := w_self w in
  put_self (mkSelf (_FfmpegPath s) (_LogToMaya s) (_Camera s) (_ResolutionPreset s) (_WidthHeight s)
    (_FrameRangePreset s) (_StartFrame s) (_EndFrame s) (_Visibility s) v
    (_Encoder s) (_h264Quality s) (_h264Preset s) (_ImageQuality s)) w.

Definition set_Encoder (v : string) : M unit :=
  fun w => let s := w_self w in
  put_self (mkSelf (_FfmpegPath s) (_LogToMaya s) (_Camera s) (_ResolutionPreset s) (_WidthHeight s)
    (_FrameRangePreset s) (_StartFrame s) (_EndFrame s) (_Visibility s) (_ContainerFormat s)
    v (_h264Quality s) (_h264Preset s) (_ImageQuality s)) w.

Definition set_h264Quality (v : string) : M unit :=
  fun w => let s := w_self w in
  put_self (mkSelf (_FfmpegPath s) (_LogToMaya s) (_Camera s) (_ResolutionPreset s) (_WidthHeight s)
    (_FrameRangePreset s) (_StartFrame s) (_EndFrame s) (_Visibility s) (_ContainerFormat s)
    (_Encoder s) v (_h264Preset s) (_ImageQuality s)) w.

Definition set_h264Preset (v : string) : M unit :=
  fun w => let s := w_self w in
  put_self (mkSelf (_FfmpegPath s) (_LogToMaya s) (_Camera s) (_ResolutionPreset s) (_WidthHeight s)
    (_FrameRangePreset s) (_StartFrame s) (_EndFrame s) (_Visibility s) (_ContainerFormat s)
    (_Encoder s) (_h264Quality s) v (_ImageQuality s)) w.

Definition set_ImageQuality (v : PyVal) : M unit :=
  fun w => let s := w_self w in
  put_self (mkSelf (_FfmpegPath s) (_LogToMaya s) (_Camera s) (_ResolutionPreset s) (_WidthHeight s)
    (_FrameRangePreset s) (_StartFrame s) (_EndFrame s) (_Visibility s) (_ContainerFormat s)
    (_Encoder s) (_h264Quality s) (_h264Preset s) v) w.

(** ** Host commands *)

(** [cmds.modelPanel(panel, q=True, modelEditor=True)]: the editor of a
    model panel; any other panel raises. *)
Definition cmds_modelPanel_modelEditor (panel : string) : M string :=
  let* h := get_host in
  match h_panels h !! panel with
  | Some _ => ret panel
  | None => raise (RuntimeError "modelPanel: Object not found")
  end.

(** [cmds.modelPanel(panel, q=True, camera=True)] *)
Definition cmds_modelPanel_camera (panel : string) : M string :=
  let* h := get_host in
  match h_panels h !! panel with
  | Some c => ret c
  | None => raise (RuntimeError "modelPanel: Object not found")
  end.

(** [cmds.modelEditor(editor, q=True, flag=True)] *)
Definition cmds_modelEditor_query (editor flag : string) : M PyVal :=
  let* h := get_host in
  match h_editors h !! editor with
  | Some flags =>
      match flags !! flag with
      | Some v => ret v
      | None => raise TypeError
      end
  | None => raise (RuntimeError "modelEditor: Object not found")
  end.

(** [cmds.modelEditor(editor, e=True, **flags)]: every flag given is
    set, the others keep their value. *)
Definition cmds_modelEditor_edit (editor : string) (flags : gmap string PyVal) : M unit :=
  let* h := get_host in
  match h_editors h !! editor with
  | Some old =>
      record (CallModelEditorEdit editor flags) >>
      put_host (with_editors (fun es => <[editor := flags ∪ old]> es) h)
  | None => raise (RuntimeError "modelEditor: Object not found")
  end.

(** [cmds.getAttr(attr)] *)
Definition cmds_getAttr (attr : string) : M PyVal :=
  let* h := get_host in
  match h_attrs h !! attr with
  | Some v => ret v
  | None => raise ValueError
  end.

(** [cmds.setAttr(attr, v)] *)
Definition cmds_setAttr (attr : string) (v : PyVal) : M unit :=
  let* h := get_host in
  match h_attrs h !! attr with
  | Some _ =>
      record (CallSetAttr attr v) >>
      put_host (with_attrs (fun a => <[attr := v]> a) h)
  | None => raise (RuntimeError "setAttr: No object matches name")
  end.

(** [str(c)] of an optional name; [None] prints as its name. *)
Definition str_of_opt (c : option string) : string :=
  match c with
  | Some s => s
  | None => "None"
  end.

(** [mel.eval("lookThroughModelPanel camera panel")] *)
Definition mel_lookThroughModelPanel (camera : option string) (panel : string) : M unit :=
  let* h := get_host in
  match h_panels h !! panel with
  | Some _ =>
      record (CallLookThrough camera panel) >>
      put_host (with_panels (fun ps => <[panel := str_of_opt camera]> ps) h)
  | None => raise (RuntimeError "lookThroughModelPanel: Object not found")
  end.

(** [os.path.exists(p)], [os.path.isdir(p)] *)
Definition os_path_exists (h : Host) (p : string) : bool :=
  match h_fs h !! p with
  | Some _ => true
  | None => false
  end.

Definition os_path_isdir (h : Host) (p : string) : bool :=
  match h_fs h !! p with
  | Some d => d
  | None => false
  end.

(** ** The class [GeterosisPlayblast] *)

Module GeterosisPlayblast.

Definition DEFAULT_FFMPEG_PATH : string := "".

Definition RESOLUTION_LOOKUP : list (string * PyVal) :=
  [ ("Render", PTuple []);
    ("HD 1080", PTuple [PInt 1920; PInt 1080]);
    ("HD 720", PTuple [PInt 1280; PInt 720]);
    ("HD 540", PTuple [PInt 960; PInt 540]) ].

Definition FRAME_RANGE_PRESETS : list string :=
  [ "Render"; "Playback"; "Animation" ].

Definition VIDEO_ENCODER_LOOKUP : list (string * list string) :=
  [ ("mov", ["h264"]);
    ("mp4", ["h264"]);
    ("Image", ["jpg"; "png"; "tif"]) ].

Definition H264_QUALITIES : list (string * Z) :=
  [ ("Very High", 18); ("High", 20); ("Medium", 23); ("Low", 26) ].

Definition H264_PRESETS : list string :=
  [ "veryslow"; "slow"; "medium"; "fast"; "faster"; "ultrafast" ].

Definition VIEWPORT_VISIBILITY_LOOKUP : list (string * string) :=
  [ ("Controllers", "controllers");
    ("NURBS Curves", "nurbsCurves");
    ("NURBS Surfaces", "nurbsSurfaces");
    ("NURBS CVs", "cv");
    ("NURBS Hulls", "hulls");
    ("Polygons", "polymeshes");
    ("Subdiv Surfaces", "subdivSurfaces");
    ("Planes", "planes");
    ("Lights", "lights");
    ("Cameras", "cameras");
    ("Image Planes", "imagePlane");
    ("Joints", "joints");
    ("IK Handles", "ikHandles");
    ("Deformers", "deformers");
    ("Dynamics", "dynamics");
    ("Particle Instancers", "particleInstancers");
    ("Fluids", "fluids");
    ("Hair Systems", "hairSystems");
    ("Follicles", "follicles");
    ("nCloths", "nCloths");
    ("nParticles", "nParticles");
    ("nRigids", "nRigids");
    ("Dynamic Constraints", "dynamicConstraints");
    ("Locators", "locators");
    ("Dimensions", "dimensions");
    ("Pivots", "pivots");
    ("Handles", "handles");
    ("Texture Placements", "textures");
    ("Strokes", "strokes");
    ("Motion Trails", "motionTrails");
    ("Plugin Shapes", "pluginShapes");
    ("Clip Ghosts", "clipGhosts");
    ("Grease Pencil", "greasePencils");
    ("Grid", "grid");
    ("HUD", "hud");
    ("Hold-Outs", "hos");
    ("Selection Highlighting", "sel") ].

Definition VIEWPORT_VISIBILITY_PRESETS : list (string * list string) :=
  [ ("Viewport", []);
    ("Geo", ["NURBS Surfaces"; "Polygons"]);
    ("Dynamics", ["NURBS Surfaces"; "Polygons"; "Dynamics"; "Fluids"; "nParticles"]) ].

Definition DEFAULT_CAMERA : option string := None.
Definition DEFAULT_RESOLUTION : PyVal := PStr "HD 1080".
Definition DEFAULT_FRAME_RANGE : PyVal := PStr "Playback".
Definition DEFAULT_CONTAINER : string := "mov".
Definition DEFAULT_ENCODER : string := "h264".
Definition DEFAULT_H264_QUALITY : string := "High".
Definition DEFAULT_H264_PRESET : string := "fast".
Definition DEFAULT_IMAGE_QUALITY : PyVal := PInt 100.
Definition DEFAULT_VISIBILITY : PyVal := PStr "Geo".
Definition DEFAULT_PADDING : Z := 4.

(** [d[k]] and [d.keys()] of a dict literal with string keys. *)
Fixpoint dict_get {V : Type} (d : list (string * V)) (k : string) : option V :=
  match d with
  | [] => None
  | (k', v) :: d' => if String.eqb k' k then Some v else dict_get d' k
  end.

Definition dict_keys {V : Type} (d : list (string * V)) : list string := map fst d.

(** [d[v]] for a key [v] that is a Python value. *)
Definition dict_get_val {V : Type} (d : list (string * V)) (v : PyVal) : option V :=
  match v with
  | PStr k => dict_get d k
  | _ => None
  end.

(** [", ".join(l)] *)
Definition join_comma (l : list string) : string := String.concat ", " l.

(** *** Logging *)

Definition LogError (Text : list Piece) : M unit :=
  let* self := get_self in
  when (_LogToMaya self)
    (emit (mkLog MayaDisplay LvlError (Txt "[GeterosisPlayblast] " :: Text))) >>
  emit (mkLog OutputLogged LvlError (Txt "[ERROR] " :: Text)).

Definition LogWarning (Text : list Piece) : M unit :=
  let* self := get_self in
  when (_LogToMaya self)
    (emit (mkLog MayaDisplay LvlWarning (Txt "[GeterosisPlayblast] " :: Text))) >>
  emit (mkLog OutputLogged LvlWarning (Txt "[WARNING] " :: Text)).

Definition LogOutput (Text : list Piece) : M unit :=
  let* self := get_self in
  when (_LogToMaya self) (emit (mkLog MayaDisplay LvlInfo Text)) >>
  emit (mkLog OutputLogged LvlInfo Text).

(** *** Settings *)

Definition SetFfmpegPath (FfmpegPath : string) : M unit :=
  if negb (String.eqb FfmpegPath "")
  then set_FfmpegPath FfmpegPath
  else set_FfmpegPath DEFAULT_FFMPEG_PATH.

Definition GetFfmpegPath : M string :=
  let* self := get_self in ret (_FfmpegPath self).

Definition SetMayaLoggingEnabled (Enable : bool) : M unit :=
  set_LogToMaya Enable.

Definition opt_truthy (c : option string) : bool :=
  match c with
  | Some s => negb (String.eqb s "")
  | None => false
  end.

Definition opt_in (c : option string) (l : list string) : bool :=
  match c with
  | Some s => existsb (String.eqb s) l
  | None => false
  end.

Definition opt_val (c : option string) : PyVal :=
  match c with
  | Some s => PStr s
  | None => PNone
  end.

Definition SetCamera (Camera : option string) : M unit :=
  let* h := get_host in
  if opt_truthy Camera && negb (opt_in Camera (h_cameras h))
  then
    LogError [Txt "Camera does not exist: "; Fmt (opt_val Camera)] >>
    set_Camera None
  else
    set_Camera Camera.

Definition PresetToResolution (ResolutionPreset : PyVal) : M PyVal :=
  if py_eq_str ResolutionPreset "Render" then
    let* h := get_host in
    let Width := PInt (fst (h_resolution h)) in
    let Height := PInt (snd (h_resolution h)) in
    ret (PTuple [Width; Height])
  else
    let* known := lift (py_in_keys ResolutionPreset (dict_keys RESOLUTION_LOOKUP)) in
    if known then
      match dict_get_val RESOLUTION_LOOKUP ResolutionPreset with
      | Some wh => ret wh
      | None => raise KeyError
      end
    else
      raise (RuntimeError "Invalid resolution preset: {0}").

Definition quoted_presets (names : list string) : list string :=
  map (fun preset => "'" +:+ preset +:+ "'") names.

Definition SetResolution (Resolution : PyVal) : M unit :=
  set_ResolutionPreset PNone >>
  let* WidthHeight :=
    py_try
      (let* wh := PresetToResolution Resolution in
       set_ResolutionPreset Resolution >>
       ret wh)
      (ret Resolution) in
  let* ValidResolution :=
    py_try
      (let* w0 := lift (py_getitem WidthHeight 0) in
       if py_isinstance_int w0 then
         let* w1 := lift (py_getitem WidthHeight 1) in
         ret (py_isinstance_int w1)
       else ret false)
      (ret false) in
  if ValidResolution then
    let* w0 := lift (py_getitem WidthHeight 0) in
    let* neg0 := lift (py_le_zero w0) in
    let* bad :=
      if neg0 then ret true
      else
        let* w1 := lift (py_getitem WidthHeight 1) in
        lift (py_le_zero w1) in
    if bad then
      LogError [Txt "Invalid resolution: "; Fmt WidthHeight;
                Txt ". Values must be greater than zero."]
    else
      let* Width := lift (py_getitem WidthHeight 0) in
      let* Height := lift (py_getitem WidthHeight 1) in
      set_WidthHeight (PTuple [Width; Height])
  else
    let presets := quoted_presets (dict_keys RESOLUTION_LOOKUP) in
    LogError [Txt "Invalid resoluton: "; Fmt WidthHeight;
              Txt ". Expected one of [int, int], "; Fmt (PStr (join_comma presets))].

Definition GetResolutionWidthHeight : M PyVal :=
  let* self := get_self in
  if py_truthy (_ResolutionPreset self)
  then PresetToResolution (_ResolutionPreset self)
  else ret (_WidthHeight self).

Definition PresetToFrameRange (FrameRangePreset : PyVal) : M (PyVal * PyVal) :=
  let* h := get_host in
  if py_eq_str FrameRangePreset "Render" then
    let* StartFrame := lift (py_int_of_float (fst (h_renderRange h))) in
    let* EndFrame := lift (py_int_of_float (snd (h_renderRange h))) in
    ret (PInt StartFrame, PInt EndFrame)
  else if py_eq_str FrameRangePreset "Playback" then
    let* StartFrame := lift (py_int_of_float (fst (h_playbackRange h))) in
    let* EndFrame := lift (py_int_of_float (snd (h_playbackRange h))) in
    ret (PInt StartFrame, PInt EndFrame)
  else if py_eq_str FrameRangePreset "Animation" then
    let* StartFrame := lift (py_int_of_float (fst (h_animationRange h))) in
    let* EndFrame := lift (py_int_of_float (snd (h_animationRange h))) in
    ret (PInt StartFrame, PInt EndFrame)
  else
    raise (RuntimeError "Invalid frame range preset: {0}").

Definition ResolveFrameRange (FrameRange : PyVal) : M (option (PyVal * PyVal)) :=
  py_try
    (if py_is_seq FrameRange then
       let* StartFrame := lift (py_getitem FrameRange 0) in
       let* EndFrame := lift (py_getitem FrameRange 1) in
       ret (Some (StartFrame, EndFrame))
     else
       let* r := PresetToFrameRange FrameRange in
       ret (Some r))
    (let Presets := quoted_presets FRAME_RANGE_PRESETS in
     LogError [Txt "Invalid frame range. Expected one of (start_frame, end_frame), ";
               Fmt (PStr (join_comma Presets))] >>
     ret None).

Definition SetFrameRange (FrameRange : PyVal) : M unit :=
  let* ResolvedFrameRange := ResolveFrameRange FrameRange in
  match ResolvedFrameRange with
  | None => ret tt
  | Some (StartFrame, EndFrame) =>
      set_FrameRangePreset PNone >>
      when (py_in_strs FrameRange FRAME_RANGE_PRESETS) (set_FrameRangePreset FrameRange) >>
      set_StartFrame StartFrame >>
      set_EndFrame EndFrame
  end.

Definition GetStartEndFrame : M (PyVal * PyVal) :=
  let* self := get_self in
  if py_truthy (_FrameRangePreset self)
  then PresetToFrameRange (_FrameRangePreset self)
  else ret (_StartFrame self, _EndFrame self).

(** *** Viewport *)

Definition GetViewportPanel : M (option string) :=
  let* h := get_host in
  let ModelPanel := h_focus h in
  py_try
    (cmds_modelPanel_modelEditor ModelPanel >>
     ret (Some ModelPanel))
    (LogError [Txt "Failed to get active view."] >>
     ret None).

Definition GetActiveCamera : M (option string) :=
  let* ModelPanel := GetViewportPanel in
  if negb (opt_truthy ModelPanel) then
    LogError [Txt "Failed to get active camera. A viewport is not active."] >>
    ret None
  else
    let* c := cmds_modelPanel_camera (str_of_opt ModelPanel) in
    ret (Some c).

Definition SetActiveCamera (camera : option string) : M unit :=
  let* ModelPanel := GetViewportPanel in
  if opt_truthy ModelPanel
  then mel_lookThroughModelPanel camera (str_of_opt ModelPanel)
  else LogError [Txt "Failed to set active camera. A viewport is not active."].

(** *** Visibility *)

Definition PresetToVisibility (VisibilityPreset : PyVal) : M PyVal :=
  let* known := lift (py_in_keys VisibilityPreset (dict_keys VIEWPORT_VISIBILITY_PRESETS)) in
  if negb known then
    LogError [Txt "Invaild visibility preset: "; Fmt VisibilityPreset] >>
    ret PNone
  else
    match dict_get_val VIEWPORT_VISIBILITY_PRESETS VisibilityPreset with
    | None => raise KeyError
    | Some PresetNames =>
        match PresetNames with
        | [] => ret (PList [])
        | _ =>
            ret (PList (map (fun lookup_item =>
                               PBool (existsb (String.eqb (fst lookup_item)) PresetNames))
                            VIEWPORT_VISIBILITY_LOOKUP))
        end
    end.

Definition SetVisibility (VisibilityData : PyVal) : M unit :=
  let VisibilityData := if negb (py_truthy VisibilityData) then PList [] else VisibilityData in
  if negb (py_is_seq VisibilityData) then
    let* VisibilityData := PresetToVisibility VisibilityData in
    match VisibilityData with
    | PNone => ret tt
    | _ => set_Visibility VisibilityData
    end
  else
    set_Visibility VisibilityData.

(** The body of the query loop of [GetViewportVisibility]. *)
Fixpoint query_flags (ModelPanel : string) (items : list (string * string))
    (ViewportVisibility : list PyVal) : M PyVal :=
  match items with
  | [] => ret (PList ViewportVisibility)
  | Item :: rest =>
      let* v := cmds_modelEditor_query ModelPanel (snd Item) in
      query_flags ModelPanel rest (ViewportVisibility ++ [v])%list
  end.

Definition GetViewportVisibility : M PyVal :=
  let* ModelPanel := GetViewportPanel in
  if negb (opt_truthy ModelPanel) then
    LogError [Txt "Failed to get viewport visibility. A viewport is not active."] >>
    ret PNone
  else
    py_try
      (query_flags (str_of_opt ModelPanel) VIEWPORT_VISIBILITY_LOOKUP [])
      (LogError [Txt "Failed to get active viewport visibility. See script editor for details."] >>
       ret PNone).

Definition GetVisibility : M PyVal :=
  let* self := get_self in
  if negb (py_truthy (_Visibility self))
  then GetViewportVisibility
  else ret (_Visibility self).

Definition SetViewportVisibility (ModelEditor : string) (VisibilityFlags : gmap string PyVal)
    : M unit :=
  cmds_modelEditor_edit ModelEditor VisibilityFlags.

Fixpoint fill_flags (VisibilityData : PyVal) (items : list (string * string))
    (DataIndex : nat) (VisibilityFlags : gmap string PyVal) : Res (gmap string PyVal) :=
  match items with
  | [] => Val VisibilityFlags
  | Item :: rest =>
      match py_getitem VisibilityData DataIndex with
      | Val v => fill_flags VisibilityData rest (S DataIndex) (<[snd Item := v]> VisibilityFlags)
      | Raise e => Raise e
      end
  end.

Definition CreateViewportVisibilityFlags (VisibilityData : PyVal) : M (gmap string PyVal) :=
  lift (fill_flags VisibilityData VIEWPORT_VISIBILITY_LOOKUP 0 ∅).

(** *** Encoding *)

Definition SetEncoding (ContainerFormat Encoder : string) : M unit :=
  match dict_get VIDEO_ENCODER_LOOKUP ContainerFormat with
  | None =>
      LogError [Txt "Invalid container: "; Fmt (PStr ContainerFormat);
                Txt ". Expected one of ";
                Fmt (PList (map PStr (dict_keys VIDEO_ENCODER_LOOKUP)))]
  | Some encoders =>
      if negb (existsb (String.eqb Encoder) encoders) then
        LogError [Txt "Invalid encoder: "; Fmt (PStr Encoder);
                  Txt ". Expected one of "; Fmt (PList (map PStr encoders))]
      else
        set_ContainerFormat ContainerFormat >>
        set_Encoder Encoder
  end.

Definition Seth264Settings (Quality Preset : string) : M unit :=
  if negb (existsb (String.eqb Quality) (dict_keys H264_QUALITIES)) then
    LogError [Txt "Invalid h264 quality: "; Fmt (PStr Quality);
              Txt ". Expected one of "; Fmt (PList (map PStr (dict_keys H264_QUALITIES)))]
  else if negb (existsb (String.eqb Preset) H264_PRESETS) then
    LogError [Txt "Invalid h264 preset: "; Fmt (PStr Preset);
              Txt ". Expected one of "; Fmt (PList (map PStr H264_PRESETS))]
  else
    set_h264Quality Quality >>
    set_h264Preset Preset.

Definition Geth264Settings : M (string * string) :=
  let* self := get_self in ret (_h264Quality self, _h264Preset self).

Definition SetImageSettings (Quality : PyVal) : M unit :=
  let* positive := lift (py_gt_zero Quality) in
  let* in_range := if positive then lift (py_le_100 Quality) else ret false in
  if in_range
  then set_ImageQuality Quality
  else LogError [Txt "Invalid image quality: {0}. Expected value between 1-100"].

Definition GetImageSettings : M PyVal :=
  let* self := get_self in ret (_ImageQuality self).

Definition RequiresFfmpeg : M bool :=
  let* self := get_self in ret (negb (String.eqb (_ContainerFormat self) "Image")).

Definition ValidateFfmpeg : M bool :=
  let* self := get_self in
  let* h := get_host in
  if String.eqb (_FfmpegPath self) "" then
    LogError [Txt "ffmpeg executable path not set"] >>
    ret false
  else if negb (os_path_exists h (_FfmpegPath self)) then
    LogError [Txt "ffmpeg executable path does not exist: "; Fmt (PStr (_FfmpegPath self))] >>
    ret false
  else if os_path_isdir h (_FfmpegPath self) then
    LogError [Txt "Invalid ffmpeg path: "; Fmt (PStr (_FfmpegPath self))] >>
    ret false
  else
    ret true.

(** The constructor: every attribute is assigned in turn by its setter. *)
Definition __init__ (FfmpegPath : string) (LogToMaya : bool) : M unit :=
  SetFfmpegPath FfmpegPath >>
  SetMayaLoggingEnabled LogToMaya >>
  SetCamera DEFAULT_CAMERA >>
  SetResolution DEFAULT_RESOLUTION >>
  SetFrameRange DEFAULT_FRAME_RANGE >>
  SetEncoding DEFAULT_CONTAINER DEFAULT_ENCODER >>
  Seth264Settings DEFAULT_H264_QUALITY DEFAULT_H264_PRESET >>
  SetImageSettings DEFAULT_IMAGE_QUALITY >>
  SetVisibility DEFAULT_VISIBILITY.

(** *** Capture and encoding *)

Section Engine.

Context (prims : Prims).

Definition GetProjectDirPath : M string :=
  let* h := get_host in ret (h_project h).

Definition GetSceneName : M string :=
  let* h := get_host in
  let SceneName := h_sceneName h in
  if negb (String.eqb SceneName "")
  then ret (os_path_splitext_root prims SceneName)
  else ret "untitled".

Definition ResolveOutputDirectoryPath (DirPath : string) : M string :=
  if str_contains "{project}" DirPath then
    let* project := GetProjectDirPath in
    ret (str_replace "{project}" project DirPath)
  else ret DirPath.

Definition ResolveOutputFilename (FileName : string) : M string :=
  if str_contains "{scene}" FileName then
    let* scene := GetSceneName in
    ret (str_replace "{scene}" scene FileName)
  else ret FileName.

Definition GetFrameRate : M float :=
  let* h := get_host in
  let RateStr := h_timeUnit h in
  if String.eqb RateStr "game" then ret 15%float
  else if String.eqb RateStr "film" then ret 24%float
  else if String.eqb RateStr "pal" then ret 25%float
  else if String.eqb RateStr "ntsc" then ret 30%float
  else if String.eqb RateStr "show" then ret 48%float
  else if String.eqb RateStr "palf" then ret 50%float
  else if String.eqb RateStr "ntscf" then ret 60%float
  else if str_endswith RateStr "fps" then lift (float_of_str prims (str_drop_last3 RateStr))
  else raise (RuntimeError ("Unsupported frame rate: " +:+ RateStr)).

Definition GetAudioAttributes : M (PyVal * PyVal) :=
  let* h := get_host in
  let SoundNode := h_sound h in
  if negb (String.eqb SoundNode "") then
    let* FilePath := cmds_getAttr (SoundNode +:+ ".filename") in
    let* exists_ :=
      match FilePath with
      | PStr p => ret (os_path_exists h p)
      | _ => raise TypeError
      end in
    if exists_ then
      let* Offset := cmds_getAttr (SoundNode +:+ ".offset") in
      ret (FilePath, Offset)
    else ret (PNone, PNone)
  else ret (PNone, PNone).

Definition GetAudioOffsetInSec (StartFrame AudioFrameOffset : PyVal) (FrameRate : float)
    : M float :=
  let* d := lift (py_sub StartFrame AudioFrameOffset) in
  lift (py_truediv d FrameRate).

(** One run of the encoder: the command is started, whatever arrives on
    its error stream is logged as it comes, and the call returns when the
    process has ended. *)
Definition ExecuteFfmpegCommand (Command : list Piece) : M unit :=
  let* h := get_host in
  let '(chunks, _, fs) := qprocess_run prims Command h in
  record (CallFfmpeg Command) >>
  put_host (with_fs fs h) >>
  for_each chunks (fun Output => LogOutput [Fmt (PStr Output)]).

Definition Encodeh264 (SourcePath OutputPath : string) (StartFrame : PyVal) : M unit :=
  let* self := get_self in
  let* Framerate := GetFrameRate in
  let* audio := GetAudioAttributes in
  let '(AudioFilePath, AudioFrameOffset) := audio in
  let* AudioOffset :=
    if py_truthy AudioFilePath
    then GetAudioOffsetInSec StartFrame AudioFrameOffset Framerate
    else ret 0%float in
  let* Crf :=
    match dict_get H264_QUALITIES (_h264Quality self) with
    | Some c => ret c
    | None => raise KeyError
    end in
  let Preset := _h264Preset self in
  let FfmpegCmd :=
    ([Txt (_FfmpegPath self);
      Txt " -y -framerate "; Fmt (PFloat Framerate);
      Txt (" -i " +:+ dquote); Fmt (PStr SourcePath); Txt dquote]
     ++ (if py_truthy AudioFilePath
         then [Txt " -ss "; Fmt (PFloat AudioOffset);
               Txt (" -i " +:+ dquote); Fmt AudioFilePath; Txt dquote]
         else [])
     ++ [Txt " -c:v libx264 -crf:v "; Fmt (PInt Crf);
         Txt " -preset:v "; Fmt (PStr Preset);
         Txt " -profile high -level 4.0 -pix_fmt yuv420p"]
     ++ (if py_truthy AudioFilePath
         then [Txt (" -filter_complex " +:+ dquote +:+ "[1:0] apad" +:+ dquote +:+ " -shortest")]
         else [])
     ++ [Txt (" " +:+ dquote); Fmt (PStr OutputPath); Txt dquote])%list in
  LogOutput FfmpegCmd >>
  ExecuteFfmpegCommand FfmpegCmd.

Definition RemoveTempDir (TempDirPath : string) : M unit :=
  let* h := get_host in
  for_each (qdir_entryList prims (h_fs h) TempDirPath)
    (fun i =>
       let* h := get_host in
       record (CallQDirRemove TempDirPath i) >>
       put_host (with_fs (qdir_remove prims (h_fs h) TempDirPath i) h)) >>
  let* h := get_host in
  let '(removed, fs) := qdir_rmdir prims (h_fs h) TempDirPath in
  record (CallQDirRmdir TempDirPath) >>
  put_host (with_fs fs h) >>
  when (negb removed)
    (LogWarning [Txt "Failed to remove temporary directory: "; Fmt (PStr TempDirPath)]).

Definition OpenInViewer (Path : string) : M unit :=
  let* self := get_self in
  let* h := get_host in
  if negb (os_path_exists h Path) then
    LogError [Txt "Failed to open in viewer. File does not exists: "; Fmt (PStr Path)]
  else
    let quicktime :=
      if existsb (String.eqb (_ContainerFormat self)) ["mov"; "mp4"]
      then h_optionVars h !! "PlayblastCmdQuicktime"
      else None in
    match quicktime with
    | Some ExecutablePath =>
        if negb (String.eqb ExecutablePath "")
        then record (CallStartDetached ExecutablePath Path)
        else record (CallOpenUrl Path)
    | None => record (CallOpenUrl Path)
    end.

(** The local variables of [execute] that outlive the preparation of
    the capture. *)
Record Plan : Type := mkPlan {
  p_Options : PlayblastOptions;
  p_OutputPath : string;
  p_PlayblastOutputDir : string;
  p_FileName : string;
  p_Padding : Z;
  p_StartFrame : PyVal
}.

(** The viewport state saved before the capture. *)
Record Snapshot : Type := mkSnapshot {
  s_OriginalCamera : option string;
  s_Camera : string;
  s_ModelEditor : string;
  s_OriginVisibilityFlags : gmap string PyVal;
  s_OverscanAttr : string;
  s_OrigOverscan : PyVal
}.

(** [execute], first part: the checks made before anything is computed.
    The result tells whether [execute] goes on; the panel with focus is
    returned with it. *)
Definition execute_checks (OutputDir FileName : string) : M (option string) :=
  let* needs := RequiresFfmpeg in
  let* valid := if needs then ValidateFfmpeg else ret true in
  if needs && negb valid then
    LogError [Txt "Ffmpeg executable is not configured. See script editor for details."] >>
    ret None
  else
    let* ViewportModelPanel := GetViewportPanel in
    if negb (opt_truthy ViewportModelPanel) then
      LogError [Txt "An active viewport is not selected. Select a viewport and retry."] >>
      ret None
    else if String.eqb OutputDir "" then
      LogError [Txt "Output directory path not set"] >>
      ret None
    else if String.eqb FileName "" then
      LogError [Txt "Output file name not set"] >>
      ret None
    else
      ret ViewportModelPanel.

(** [execute], second part: paths, the overwrite check and the options
    of the capture.  [None] is the early [return] on an existing output
    file. *)
Definition execute_plan (OutputDir FileName : string) (Padding : Z)
    (ShowOrnaments ShowInViewer Overwrite : bool) : M (option Plan) :=
  let* self := get_self in
  let* OutputDir := ResolveOutputDirectoryPath OutputDir in
  let* FileName := ResolveOutputFilename FileName in
  let Padding := if (Padding <=? 0)%Z then DEFAULT_PADDING else Padding in
  let* needs := RequiresFfmpeg in
  let* h := get_host in
  let OutputPath :=
    os_path_normpath prims
      (os_path_join prims OutputDir (FileName +:+ "." +:+ _ContainerFormat self)) in
  if needs && negb Overwrite && os_path_exists h OutputPath then
    LogError [Txt "Output file already exists. Eanble overwrite to ignore."] >>
    ret None
  else
    let PlayblastOutputDir := OutputDir +:+ "/playblast_temp" in
    let PlayblastOutput :=
      if needs
      then os_path_normpath prims (os_path_join prims PlayblastOutputDir FileName)
      else os_path_normpath prims (os_path_join prims OutputDir FileName) in
    let ForceOverwrite := if needs then true else Overwrite in
    let Compression := if needs then "png" else _Encoder self in
    let ImageQuality := if needs then PInt 100 else _ImageQuality self in
    let IndexFromZero := if needs then true else false in
    let Viewer := if needs then false else ShowInViewer in
    let* WidthHeight := GetResolutionWidthHeight in
    let* frames := GetStartEndFrame in
    let '(StartFrame, EndFrame) := frames in
    let Options :=
      mkOptions PlayblastOutput WidthHeight 100 StartFrame EndFrame true ForceOverwrite
        "image" Compression ImageQuality IndexFromZero Padding ShowOrnaments Viewer in
    LogOutput [Txt "Playblast options: "; FmtOptions Options] >>
    ret (Some (mkPlan Options OutputPath PlayblastOutputDir FileName Padding StartFrame)).

(** [execute], third part: the original viewport settings are stored,
    the camera is switched, the visibility flags are applied and the
    overscan is forced.  [None] is the early [return] on a camera that
    does not exist. *)
Definition execute_acquire (ViewportModelPanel : string) (Overscan : bool)
    : M (option Snapshot) :=
  let* self := get_self in
  let* OriginalCamera := GetActiveCamera in
  let Camera := if negb (opt_truthy (_Camera self)) then OriginalCamera else _Camera self in
  let* h := get_host in
  if negb (opt_in Camera (h_cameras h)) then
    LogError [Txt "Camera does not exist: "; Fmt (opt_val Camera)] >>
    ret None
  else
    SetActiveCamera Camera >>
    let* origin := GetViewportVisibility in
    let* OriginVisibilityFlags := CreateViewportVisibilityFlags origin in
    let* wanted := GetVisibility in
    let* PlayblastVisibilityFlags := CreateViewportVisibilityFlags wanted in
    let* ModelEditor := cmds_modelPanel_modelEditor ViewportModelPanel in
    SetViewportVisibility ModelEditor PlayblastVisibilityFlags >>
    let OverscanAttr := str_of_opt Camera +:+ ".overscan" in
    let* OrigOverscan :=
      if negb Overscan then
        let* v := cmds_getAttr OverscanAttr in
        cmds_setAttr OverscanAttr (PFloat 1%float) >>
        ret v
      else ret PNone in
    ret (Some (mkSnapshot OriginalCamera (str_of_opt Camera) ModelEditor
                 OriginVisibilityFlags OverscanAttr OrigOverscan)).

(** The call of the capture primitive. *)
Definition playblast (Options : PlayblastOptions) : M unit :=
  fun w =>
    let '(r, h) := cmds_playblast prims Options (w_host w) in
    (r, mkWorld h (w_self w) (w_log w) (w_trace w ++ [CallPlayblast Options])).

(** The [finally] clause of [execute]. *)
Definition execute_restore (Overscan : bool) (snap : Snapshot) : M unit :=
  when (negb Overscan) (cmds_setAttr (s_OverscanAttr snap) (s_OrigOverscan snap)) >>
  SetActiveCamera (s_OriginalCamera snap) >>
  SetViewportVisibility (s_ModelEditor snap) (s_OriginVisibilityFlags snap).

(** [execute], fourth part: the capture inside [try]/[except]/[finally].
    The result is [PlayblastFailed]. *)
Definition execute_capture (Options : PlayblastOptions) (Overscan : bool) (snap : Snapshot)
    : M bool :=
  py_finally
    (py_try
       (playblast Options >> ret false)
       (LogError [Txt "Failed to create playblast. See script editor for details."] >>
        ret true))
    (execute_restore Overscan snap).

(** [execute], last part: encoding, removal of the temporary directory
    and the viewer. *)
Definition execute_encode (plan : Plan) (ShowInViewer : bool) : M unit :=
  let* self := get_self in
  let* needs := RequiresFfmpeg in
  if needs then
    let SourcePath :=
      p_PlayblastOutputDir plan +:+ "/" +:+ p_FileName plan +:+ ".%0"
        +:+ pretty (p_Padding plan) +:+ "d.png" in
    if String.eqb (_Encoder self) "h264" then
      Encodeh264 SourcePath (p_OutputPath plan) (p_StartFrame plan) >>
      RemoveTempDir (p_PlayblastOutputDir plan) >>
      when ShowInViewer (OpenInViewer (p_OutputPath plan))
    else
      LogError [Txt "Encoding failed. Unsupported encoder ("; Fmt (PStr (_Encoder self));
                Txt ") for container ("; Fmt (PStr (_ContainerFormat self)); Txt ")."] >>
      RemoveTempDir (p_PlayblastOutputDir plan)
  else ret tt.

Definition execute (OutputDir FileName : string) (Padding : Z)
    (Overscan ShowOrnaments ShowInViewer Overwrite : bool) : M unit :=
  let* ViewportModelPanel := execute_checks OutputDir FileName in
  match ViewportModelPanel with
  | None => ret tt
  | Some panel =>
      let* plan := execute_plan OutputDir FileName Padding ShowOrnaments ShowInViewer Overwrite in
      match plan with
      | None => ret tt
      | Some plan =>
          let* snap := execute_acquire panel Overscan in
          match snap with
          | None => ret tt
          | Some snap =>
              let* PlayblastFailed := execute_capture (p_Options plan) Overscan snap in
              if PlayblastFailed then ret tt
              else execute_encode plan ShowInViewer
          end
      end
  end.

End Engine.

End GeterosisPlayblast.

Import GeterosisPlayblast.

(** ** Vocabulary of the properties *)

(** The same world at another state of the scene. *)
Definition at_host (h : Host) (W : World) : World :=
  mkWorld h (w_self W) (w_log W) (w_trace W).

(** The lines one call of [LogError], [LogWarning] or [LogOutput] adds. *)
Definition error_lines (toMaya : bool) (Text : list Piece) : list LogLine :=
  ((if toMaya then [mkLog MayaDisplay LvlError (Txt "[GeterosisPlayblast] " :: Text)] else [])
   ++ [mkLog OutputLogged LvlError (Txt "[ERROR] " :: Text)])%list.

Definition warning_lines (toMaya : bool) (Text : list Piece) : list LogLine :=
  ((if toMaya then [mkLog MayaDisplay LvlWarning (Txt "[GeterosisPlayblast] " :: Text)] else [])
   ++ [mkLog OutputLogged LvlWarning (Txt "[WARNING] " :: Text)])%list.

Definition output_lines (toMaya : bool) (Text : list Piece) : list LogLine :=
  ((if toMaya then [mkLog MayaDisplay LvlInfo Text] else [])
   ++ [mkLog OutputLogged LvlInfo Text])%list.

(** The world with more lines in its log. *)
Definition logged (new : list LogLine) (W : World) : World :=
  mkWorld (w_host W) (w_self W) (w_log W ++ new) (w_trace W).

Definition is_error_line (l : LogLine) : bool :=
  match ll_sink l, ll_level l with
  | OutputLogged, LvlError => true
  | _, _ => false
  end.

Definition is_warning_line (l : LogLine) : bool :=
  match ll_sink l, ll_level l with
  | OutputLogged, LvlWarning => true
  | _, _ => false
  end.

(** Between [W] and [W'] an [ERROR] line went out on [OutputLogged]. *)
Definition error_reported (W W' : World) : Prop :=
  exists new, w_log W' = (w_log W ++ new)%list /\ existsb is_error_line new = true.

(** [(int(a), int(b))] for a pair of host times. *)
Definition frame_pair (r : float * float) : Res (PyVal * PyVal) :=
  match py_int_of_float (fst r) with
  | Val a =>
      match py_int_of_float (snd r) with
      | Val b => Val (PInt a, PInt b)
      | Raise e => Raise e
      end
  | Raise e => Raise e
  end.

(** One call of a configuration setter with its argument. *)
Inductive SetterCall : Type :=
| Setter_Camera (Camera : option string)
| Setter_Resolution (Resolution : PyVal)
| Setter_FrameRange (FrameRange : PyVal)
| Setter_Visibility (VisibilityData : PyVal)
| Setter_Encoding (ContainerFormat Encoder : string)
| Setter_h264 (Quality Preset : string)
| Setter_Image (Quality : PyVal).

Definition call_setter (c : SetterCall) : M unit :=
  match c with
  | Setter_Camera Camera => SetCamera Camera
  | Setter_Resolution Resolution => SetResolution Resolution
  | Setter_FrameRange FrameRange => SetFrameRange FrameRange
  | Setter_Visibility VisibilityData => SetVisibility VisibilityData
  | Setter_Encoding ContainerFormat Encoder => SetEncoding ContainerFormat Encoder
  | Setter_h264 Quality Preset => Seth264Settings Quality Preset
  | Setter_Image Quality => SetImageSettings Quality
  end.

Definition positive_int (v : PyVal) : bool :=
  match v with
  | PInt z => (0 <? z)%Z
  | PBool b => b
  | _ => false
  end.

(** A resolution the setter is meant to take: a preset name, or a
    sequence that starts with two positive integers. *)
Definition resolution_ok (v : PyVal) : bool :=
  py_in_strs v (dict_keys RESOLUTION_LOOKUP) ||
  match v with
  | PTuple (a :: b :: _) | PList (a :: b :: _) => positive_int a && positive_int b
  | _ => false
  end.

(** The inputs a setter has to refuse: a camera that does not exist, a
    resolution that is neither a preset nor a pair of positive integers,
    a frame range that is neither a preset nor a pair, a visibility
    preset that is not known, an encoder that does not belong to the
    container, an h264 quality or preset that is not known, an image
    quality outside 1-100. *)
Definition invalid_input (h : Host) (c : SetterCall) : bool :=
  match c with
  | Setter_Camera Camera => opt_truthy Camera && negb (opt_in Camera (h_cameras h))
  | Setter_Resolution v => negb (resolution_ok v)
  | Setter_FrameRange v =>
      match v with
      | PTuple l | PList l => (length l <? 2)%nat
      | _ => negb (py_in_strs v FRAME_RANGE_PRESETS)
      end
  | Setter_Visibility v =>
      py_truthy v && negb (py_is_seq v)
      && negb (py_in_strs v (dict_keys VIEWPORT_VISIBILITY_PRESETS))
  | Setter_Encoding ContainerFormat Encoder =>
      match dict_get VIDEO_ENCODER_LOOKUP ContainerFormat with
      | Some encoders => negb (existsb (String.eqb Encoder) encoders)
      | None => true
      end
  | Setter_h264 Quality Preset =>
      negb (existsb (String.eqb Quality) (dict_keys H264_QUALITIES))
      || negb (existsb (String.eqb Preset) H264_PRESETS)
  | Setter_Image Quality =>
      match py_num Quality with
      | Val (NInt z) => negb ((0 <? z)%Z && (z <=? 100)%Z)
      | Val (NFloat f) => negb (PrimFloat.ltb 0%float f && PrimFloat.leb f 100%float)
      | Raise _ => false
      end
  end.

(** The call returns, reports an error and leaves every attribute of
    the object as it was. *)
Definition rejected_unchanged (c : SetterCall) (W : World) : Prop :=
  let '(r, W') := call_setter c W in
  r = Val tt /\ error_reported W W' /\ w_self W' = w_self W.

Definition forget_camera (s : Self) : Self :=
  mkSelf (_FfmpegPath s) (_LogToMaya s) None (_ResolutionPreset s) (_WidthHeight s)
    (_FrameRangePreset s) (_StartFrame s) (_EndFrame s) (_Visibility s) (_ContainerFormat s)
    (_Encoder s) (_h264Quality s) (_h264Preset s) (_ImageQuality s).

Definition forget_resolution_preset (s : Self) : Self :=
  mkSelf (_FfmpegPath s) (_LogToMaya s) (_Camera s) PNone (_WidthHeight s)
    (_FrameRangePreset s) (_StartFrame s) (_EndFrame s) (_Visibility s) (_ContainerFormat s)
    (_Encoder s) (_h264Quality s) (_h264Preset s) (_ImageQuality s).

(** What a refused call leaves behind: [SetCamera] falls back to no
    camera; [SetResolution] keeps the stored width and height (nothing
    is said about the stored preset name); every other setter keeps the
    object as it was. *)
Definition kept_after_rejection (c : SetterCall) (s s' : Self) : Prop :=
  match c with
  | Setter_Camera _ => s' = forget_camera s
  | Setter_Resolution _ => forget_resolution_preset s' = forget_resolution_preset s
  | _ => s' = s
  end.

Definition rejected_last_good (c : SetterCall) (W : World) : Prop :=
  let '(r, W') := call_setter c W in
  r = Val tt /\ error_reported W W' /\ w_host W' = w_host W
  /\ kept_after_rejection c (w_self W) (w_self W').

(** ** A scene to run the engine on *)

Definition demo_flags : gmap string PyVal :=
  list_to_map (map (fun item => (snd item, PBool true)) VIEWPORT_VISIBILITY_LOOKUP).

Definition demo_host : Host :=
  mkHost
    ["persp"; "shotCam"]
    "modelPanel4"
    {[ "modelPanel4" := "persp" ]}
    {[ "modelPanel4" := demo_flags ]}
    (<[ "persp.overscan" := PFloat 1.5%float ]>
       (<[ "shotCam.overscan" := PFloat 1%float ]>
          (<[ "audio1.filename" := PStr "/snd/take.wav" ]>
             {[ "audio1.offset" := PFloat 0%float ]})))
    (960, 540)
    (1%float, 24%float)
    (1%float, 100%float)
    (1%float, 200%float)
    "film"
    "audio1"
    ∅
    "/proj"
    "shot.ma"
    (<[ "/usr/bin/ffmpeg" := false ]>
       (<[ "/snd/take.wav" := false ]> {[ "/out" := true ]})).

Definition blank_self : Self :=
  mkSelf "" false None PNone PNone PNone PNone PNone PNone "" "" "" "" PNone.

(** The object right after [GeterosisPlayblast("/usr/bin/ffmpeg")] in
    [demo_host]. *)
Definition demo_world : World :=
  snd (__init__ "/usr/bin/ffmpeg" true (mkWorld demo_host blank_self [] [])).

(** ** The checks of [execute], read off the object and the scene *)

Definition requires_ffmpeg (s : Self) : bool :=
  negb (String.eqb (_ContainerFormat s) "Image").

(** The encoder path is set, exists and is no directory. *)
Definition ffmpeg_valid (s : Self) (h : Host) : bool :=
  negb (String.eqb (_FfmpegPath s) "")
  && os_path_exists h (_FfmpegPath s)
  && negb (os_path_isdir h (_FfmpegPath s)).

(** The panel with focus is a model panel. *)
Definition viewport_active (h : Host) : bool :=
  match h_panels h !! h_focus h with
  | Some _ => negb (String.eqb (h_focus h) "")
  | None => false
  end.

Definition checks_pass (s : Self) (h : Host) (OutputDir FileName : string) : bool :=
  (negb (requires_ffmpeg s) || ffmpeg_valid s h)
  && viewport_active h
  && negb (String.eqb OutputDir "")
  && negb (String.eqb FileName "").


Definition resolved_dir (h : Host) (OutputDir : string) : string :=
  if str_contains "{project}" OutputDir
  then str_replace "{project}" (h_project h) OutputDir
  else OutputDir.



(** The temporary directory of the frames, [PlayblastOutputDir]. *)
Definition temp_dir (h : Host) (OutputDir : string) : string :=
  resolved_dir h OutputDir +:+ "/playblast_temp".

(** A call that returned without touching the scene, the files or the
    object, after reporting an error. *)
Definition aborted_untouched (W : World) (out : Res unit * World) : Prop :=
  fst out = Val tt
  /\ w_host (snd out) = w_host W
  /\ w_self (snd out) = w_self W
  /\ w_trace (snd out) = w_trace W
  /\ error_reported W (snd out).

(** Nothing but the log differs between [W] and [W']. *)
Definition only_logs (W W' : World) : Prop :=
  w_host W' = w_host W /\ w_self W' = w_self W /\ w_trace W' = w_trace W
  /\ exists new, w_log W' = (w_log W ++ new)%list.


(** ** Stand-ins for the host's processes and libraries *)

(** The part of a path before its last slash. *)
Fixpoint str_dirname (s : string) : option string :=
  match s with
  | EmptyString => None
  | String c s' =>
      match str_dirname s' with
      | Some d => Some (String c d)
      | None => if Ascii.eqb c "/"%char then Some EmptyString else None
      end
  end.

(** The last path formatted into a command line. *)
Fixpoint last_path (cmd : list Piece) : option string :=
  match cmd with
  | [] => None
  | p :: rest =>
      match last_path rest with
      | Some out => Some out
      | None => match p with Fmt (PStr out) => Some out | _ => None end
      end
  end.

(** The names of the [png] files directly inside [dir]. *)
Definition demo_entryList (fs : gmap string bool) (dir : string) : list string :=
  omap (fun entry : string * bool =>
          let '(path, is_dir) := entry in
          if negb is_dir && String.prefix (dir +:+ "/") path && str_endswith path ".png"
          then Some (str_drop (String.length dir + 1) path)
          else None)
       (map_to_list fs).

Definition demo_rmdir (fs : gmap string bool) (dir : string) : bool * gmap string bool :=
  if forallb (fun entry : string * bool => negb (String.prefix (dir +:+ "/") (fst entry)))
       (map_to_list fs)
  then (true, delete dir fs)
  else (false, fs).

(** A capture that writes one frame next to [filename], creating the
    directory it goes to; it fails when asked for more than eight
    padding digits. *)
Definition demo_playblast (o : PlayblastOptions) (h : Host) : Res unit * Host :=
  if (8 <? o_framePadding o)%Z then (Raise (RuntimeError "playblast failed"), h)
  else
    let frames := <[ o_filename o +:+ ".0000.png" := false ]> (h_fs h) in
    (Val tt,
     with_fs (match str_dirname (o_filename o) with
              | Some d => <[ d := true ]> frames
              | None => frames
              end) h).

(** An encoder that writes its output file, says one line and exits
    with [0]. *)
Definition demo_ffmpeg (cmd : list Piece) (h : Host) : list string * Z * gmap string bool :=
  (["frame=  100 fps=0.0"], 0%Z,
   match last_path cmd with
   | Some out => <[ out := false ]> (h_fs h)
   | None => h_fs h
   end).

Definition demo_prims : Prims :=
  mkPrims
    (fun a b => a +:+ "/" +:+ b)
    (fun p => p)
    (fun p => match str_dirname (str_replace "." "/" p) with
              | Some root => String.substring 0 (String.length root) p
              | None => p
              end)
    (fun _ => Raise ValueError)
    demo_playblast
    demo_ffmpeg
    demo_entryList
    (fun fs dir name => delete (dir +:+ "/" +:+ name) fs)
    demo_rmdir.

(** The object of [demo_world] with an encoder path that does not exist. *)
Definition demo_world_no_ffmpeg : World :=
  snd (__init__ "/opt/ffmpeg/bin/ffmpeg" true (mkWorld demo_host blank_self [] [])).

(** [demo_world] set to write an image sequence, in a scene where the
    frames of an earlier capture are still on disk. *)
Definition demo_world_image : World :=
  let W := snd (SetEncoding "Image" "png" demo_world) in
  at_host
    (with_fs (<[ "/out/shot" := false ]>
                (<[ "/out/shot.Image" := false ]>
                   (<[ "/out/shot.0001.png" := false ]> (h_fs demo_host))))
       demo_host) W.


(** ** The encoder command *)

(** The value formatted right after [-ss] in a command line. *)
Fixpoint seek_offset (cmd : list Piece) : option PyVal :=
  match cmd with
  | [] => None
  | p :: rest =>
      match p, rest with
      | Txt t, Fmt v :: _ => if String.eqb t " -ss " then Some v else seek_offset rest
      | _, _ => seek_offset rest
      end
  end.

(** The audio start offset in seconds as the formula has it:
    (captureStartFrame - audioFrameOffset) / frameRate, in binary64. *)
Definition audio_offset_by_formula (captureStartFrame audioFrameOffset frameRate : float)
    : float :=
  PrimFloat.div (PrimFloat.sub captureStartFrame audioFrameOffset) frameRate.

(** A sound node is on the time slider, its file exists, and its offset
    is the float [off]. *)
Definition audio_attached (h : Host) (path : string) (off : float) : Prop :=
  h_sound h <> ""
  /\ h_attrs h !! (h_sound h +:+ ".filename") = Some (PStr path)
  /\ path <> ""
  /\ os_path_exists h path = true
  /\ h_attrs h !! (h_sound h +:+ ".offset") = Some (PFloat off).

(** ** Calls by what they touch *)

(** A call that changes the viewport: camera, flags or an attribute. *)
Definition viewport_call (c : HostCall) : bool :=
  match c with
  | CallLookThrough _ _ | CallModelEditorEdit _ _ | CallSetAttr _ _ => true
  | _ => false
  end.

(** A call of the encoding stage: the encoder, the temporary directory,
    the viewer. *)
Definition file_call (c : HostCall) : bool :=
  match c with
  | CallFfmpeg _ | CallQDirRemove _ _ | CallQDirRmdir _
  | CallStartDetached _ _ | CallOpenUrl _ => true
  | _ => false
  end.

Definition is_rmdir (dir : string) (c : HostCall) : bool :=
  match c with
  | CallQDirRmdir d => String.eqb d dir
  | _ => false
  end.

(** Between [W] and [W'] only files, the log and the list of calls
    changed, and every call added belongs to the encoding stage. *)
Definition only_files (W W' : World) : Prop :=
  (exists fs, w_host W' = with_fs fs (w_host W))
  /\ w_self W' = w_self W
  /\ (exists calls, w_trace W' = (w_trace W ++ calls)%list /\ forallb file_call calls = true)
  /\ (exists new, w_log W' = (w_log W ++ new)%list).

(** The files of [dir] once every listed frame has been removed. *)
Definition fs_after_removals (prims : Prims) (fs : gmap string bool) (dir : string)
    : gmap string bool :=
  fold_left (fun fs i => qdir_remove prims fs dir i) (qdir_entryList prims fs dir) fs.

(** Whether [rmdir] on the emptied directory succeeds. *)
Definition temp_dir_removed (prims : Prims) (fs : gmap string bool) (dir : string) : bool :=
  fst (qdir_rmdir prims (fs_after_removals prims fs dir) dir).

(** [SourcePath] in [execute]. *)
Definition source_path (plan : Plan) : string :=
  p_PlayblastOutputDir plan +:+ "/" +:+ p_FileName plan +:+ ".%0"
    +:+ pretty (p_Padding plan) +:+ "d.png".

(** The encoder stage of [execute] took [W] to [W1]: the encoder ran to
    its end, whatever its exit code, or the encoder is not supported and
    the error was logged. *)
Definition encoder_stage_ended (prims : Prims) (plan : Plan) (W W1 : World) : Prop :=
  if String.eqb (_Encoder (w_self W)) "h264"
  then Encodeh264 prims (source_path plan) (p_OutputPath plan) (p_StartFrame plan) W
       = (Val tt, W1)
  else LogError [Txt "Encoding failed. Unsupported encoder ("; Fmt (PStr (_Encoder (w_self W)));
                 Txt ") for container ("; Fmt (PStr (_ContainerFormat (w_self W))); Txt ")."] W
       = (Val tt, W1).

(** Whatever [m] returns, the world it leaves is related by [R] to the
    one it started from. *)
Definition preserves (R : World -> World -> Prop) {A : Type} (m : M A) : Prop :=
  forall W, R W (snd (m W)).

(** A call that opens the result in a viewer. *)
Definition viewer_call (c : HostCall) : bool :=
  match c with
  | CallStartDetached _ _ | CallOpenUrl _ => true
  | _ => false
  end.

(** The plan [execute] makes in [demo_world] for the directory [/out]
    and the file name [shot], and the world after its capture. *)
Definition demo_plan : Plan :=
  mkPlan
    (mkOptions "/out/playblast_temp/shot" (PTuple [PInt 1920; PInt 1080]) 100 (PInt 1)
       (PInt 100) true true "image" "png" (PInt 100) true 4 true false)
    "/out/shot.mov" "/out/playblast_temp" "shot" 4 (PInt 1).

Definition demo_world_captured : World :=
  at_host (snd (demo_playblast (p_Options demo_plan) demo_host)) demo_world.

(** ** The viewport around the capture *)

(** The value of one flag of a model editor. *)
Definition flag_of (h : Host) (editor flag : string) : option PyVal :=
  match h_editors h !! editor with
  | Some flags => flags !! flag
  | None => None
  end.

(** The capture primitive leaves the focus where it is and removes no
    panel, editor or attribute; what it does to their values is open. *)
Definition capture_keeps_viewport (prims : Prims) : Prop :=
  forall (o : PlayblastOptions) (h : Host),
    let h' := snd (cmds_playblast prims o h) in
    h_focus h' = h_focus h
    /\ (forall p, is_Some (h_panels h !! p) -> is_Some (h_panels h' !! p))
    /\ (forall e, is_Some (h_editors h !! e) -> is_Some (h_editors h' !! e))
    /\ (forall a, is_Some (h_attrs h !! a) -> is_Some (h_attrs h' !! a)).

(** [execute] got as far as the capture: its checks passed, the plan
    was made, and the camera, the flags and the overscan were set,
    leaving the snapshot [snap] and the world [W2]. *)
Definition reaches_capture (prims : Prims) (OutputDir FileName : string) (Padding : Z)
    (Overscan ShowOrnaments ShowInViewer Overwrite : bool)
    (W : World) (plan : Plan) (snap : Snapshot) (W2 : World) : Prop :=
  exists panel W0 W1,
    execute_checks OutputDir FileName W = (Val (Some panel), W0)
    /\ execute_plan prims OutputDir FileName Padding ShowOrnaments ShowInViewer Overwrite W0
       = (Val (Some plan), W1)
    /\ execute_acquire panel Overscan W1 = (Val (Some snap), W2).

(** The calls of the [finally] clause. *)
Definition restore_calls (Overscan : bool) (panel : string) (snap : Snapshot) : list HostCall :=
  ((if Overscan then [] else [CallSetAttr (s_OverscanAttr snap) (s_OrigOverscan snap)])
   ++ [CallLookThrough (s_OriginalCamera snap) panel;
       CallModelEditorEdit (s_ModelEditor snap) (s_OriginVisibilityFlags snap)])%list.

(** The snapshot a run of the third part of [execute] returned. *)
Definition acquired (out : Res (option Snapshot) * World) : Snapshot :=
  match fst out with
  | Val (Some snap) => snap
  | _ => mkSnapshot None "" "" ∅ "" PNone
  end.

(** The plan of [execute] in [demo_world] with nine padding digits, for
    which the capture of [demo_prims] fails. *)
Definition demo_plan_failing : Plan :=
  mkPlan
    (mkOptions "/out/playblast_temp/shot" (PTuple [PInt 1920; PInt 1080]) 100 (PInt 1)
       (PInt 100) true true "image" "png" (PInt 100) true 9 true false)
    "/out/shot.mov" "/out/playblast_temp" "shot" 9 (PInt 1).

(** [demo_world] in a scene whose time unit is NTSC drop-frame. *)
Definition demo_world_drop_frame : World :=
  at_host
    (mkHost (h_cameras demo_host) (h_focus demo_host) (h_panels demo_host)
       (h_editors demo_host) (h_attrs demo_host) (h_resolution demo_host)
       (h_renderRange demo_host) (h_playbackRange demo_host) (h_animationRange demo_host)
       "29.97df" (h_sound demo_host) (h_optionVars demo_host) (h_project demo_host)
       (h_sceneName demo_host) (h_fs demo_host))
    demo_world.

(** ** The object across a run of [execute] *)

(** A call of the capture stage: the viewport or the capture itself. *)
Definition stage_call (c : HostCall) : bool :=
  viewport_call c || match c with CallPlayblast _ => true | _ => false end.

Definition any_call (c : HostCall) : bool := true.

(** Between [W] and [W'] the object kept every attribute, the log has
    grown and the calls added all satisfy [ok]; the scene is free to
    change. *)
Definition only_calls (ok : HostCall -> bool) (W W' : World) : Prop :=
  w_self W' = w_self W
  /\ (exists calls, w_trace W' = (w_trace W ++ calls)%list /\ forallb ok calls = true)
  /\ (exists new, w_log W' = (w_log W ++ new)%list).

(** The camera [execute] captures through: the one stored in the
    object, or else the one of the panel with focus. *)
Definition capture_camera (s : Self) (h : Host) : option string :=
  if negb (opt_truthy (_Camera s)) then h_panels h !! h_focus h else _Camera s.

(** The editor of the panel with focus has a value for every flag of
    the visibility lookup. *)
Definition flags_complete (h : Host) : Prop :=
  forall item, item ∈ VIEWPORT_VISIBILITY_LOOKUP ->
    is_Some (flag_of h (h_focus h) (snd item)).

(** [demo_world] with the camera [shotCam] chosen, and the same object
    once that camera has been deleted from the scene. *)
Definition demo_world_shotCam : World := snd (SetCamera (Some "shotCam") demo_world).

Definition demo_world_camera_gone : World :=
  at_host
    (mkHost ["persp"] (h_focus demo_host) (h_panels demo_host)
       (h_editors demo_host) (h_attrs demo_host) (h_resolution demo_host)
       (h_renderRange demo_host) (h_playbackRange demo_host) (h_animationRange demo_host)
       (h_timeUnit demo_host) (h_sound demo_host) (h_optionVars demo_host)
       (h_project demo_host) (h_sceneName demo_host) (h_fs demo_host))
    demo_world_shotCam.

(** [demo_world_shotCam] with a visibility vector of three entries. *)
Definition demo_world_short_visibility : World :=
  snd (SetVisibility (PList [PBool true; PBool false; PBool true]) demo_world_shotCam).

(** The plan a run of the second part of [execute] returned. *)
Definition acquired_plan (out : Res (option Plan) * World) : Plan :=
  match fst out with
  | Val (Some plan) => plan
  | _ => demo_plan
  end.

(** ** Setters *)

(** [m] never raises. *)
Definition returns {A : Type} (m : M A) : Prop :=
  forall W, exists a W', m W = (Val a, W').

(** A value the comparison operators take: a number. *)
Definition is_number (v : PyVal) : bool :=
  match py_num v with
  | Val _ => true
  | Raise _ => false
  end.

(** [SetImageSettings] compares its argument with numbers; every other
    setter takes any value. *)
Definition comparable_input (c : SetterCall) : bool :=
  match c with
  | Setter_Image Quality => is_number Quality
  | _ => true
  end.

(** The encoding settings of the object: container, encoder, h264
    quality and h264 preset. *)
Definition encoding_of (s : Self) : string * string * string * string :=
  (_ContainerFormat s, _Encoder s, _h264Quality s, _h264Preset s).

Definition keeps_encoding (W W' : World) : Prop :=
  encoding_of (w_self W') = encoding_of (w_self W).

(** The encoder is one of the container's, and the h264 quality and
    preset are known ones. *)
Definition encoding_consistent (e : string * string * string * string) : bool :=
  let '(ContainerFormat, Encoder, Quality, Preset) := e in
  match dict_get VIDEO_ENCODER_LOOKUP ContainerFormat with
  | Some encoders => existsb (String.eqb Encoder) encoders
  | None => false
  end
  && existsb (String.eqb Quality) (dict_keys H264_QUALITIES)
  && existsb (String.eqb Preset) H264_PRESETS.

Definition settings_consistent (s : Self) : bool := encoding_consistent (encoding_of s).

(** ** Files across the viewport calls *)


(** [demo_world] with the visibility preset [Viewport], and the vector
    the preset [Geo] stands for. *)
Definition demo_world_viewport : World := snd (SetVisibility (PStr "Viewport") demo_world).

Definition demo_geo_vector : list PyVal :=
  map (fun item : string * string =>
         PBool (existsb (String.eqb (fst item)) ["NURBS Surfaces"; "Polygons"]))
      VIEWPORT_VISIBILITY_LOOKUP.

(** ** The encoder command without sound *)

(** No sound is on the time slider, or the file of the sound node is
    not on disk. *)
Definition audio_missing (h : Host) : Prop :=
  h_sound h = ""
  \/ exists p, h_attrs h !! (h_sound h +:+ ".filename") = Some (PStr p)
               /\ os_path_exists h p = false.

(** The command line of the encoder for the frames alone. *)
Definition video_only_command (s : Self) (Framerate : float) (Crf : Z)
    (SourcePath OutputPath : string) : list Piece :=
  [Txt (_FfmpegPath s);
   Txt " -y -framerate "; Fmt (PFloat Framerate);
   Txt (" -i " +:+ dquote); Fmt (PStr SourcePath); Txt dquote;
   Txt " -c:v libx264 -crf:v "; Fmt (PInt Crf);
   Txt " -preset:v "; Fmt (PStr (_h264Preset s));
   Txt " -profile high -level 4.0 -pix_fmt yuv420p";
   Txt (" " +:+ dquote); Fmt (PStr OutputPath); Txt dquote].

(** Lines that are neither errors nor warnings. *)
Definition quiet (new : list LogLine) : bool :=
  negb (existsb is_error_line new) && negb (existsb is_warning_line new).

(** [demo_world] in a scene whose sound file has been moved away. *)
Definition demo_world_sound_gone : World :=
  at_host (with_fs (delete "/snd/take.wav" (h_fs demo_host)) demo_host) demo_world.

(** ** The stored resolution preset *)

(** No resolution preset is stored, or the stored one is a known name. *)
Definition resolution_consistent (s : Self) : bool :=
  negb (py_truthy (_ResolutionPreset s))
  || py_in_strs (_ResolutionPreset s) (dict_keys RESOLUTION_LOOKUP).

Definition keeps_resolution_consistent (W W' : World) : Prop :=
  resolution_consistent (w_self W) = true -> resolution_consistent (w_self W') = true.

(** ** The window [GeterosisPlayblastUi] and its dialogs

    Of the window only what reaches the engine or the option variables
    is kept: the widgets are left out, and a handler is given the values
    it reads from them. *)

Definition with_optionVars (f : gmap string string -> gmap string string) (h : Host) : Host :=
  mkHost (h_cameras h) (h_focus h) (h_panels h) (h_editors h) (h_attrs h)
         (h_resolution h) (h_renderRange h) (h_playbackRange h) (h_animationRange h)
         (h_timeUnit h) (h_sound h) (f (h_optionVars h)) (h_project h) (h_sceneName h) (h_fs h).

(** [cmds.optionVar(sv=(name, value))] *)
Definition cmds_optionVar_sv (name value : string) : M unit :=
  let* h := get_host in
  put_host (with_optionVars (fun vars => <[name := value]> vars) h).

(** The same scene, log and trace around another object: a later
    session. *)
Definition at_self (s : Self) (W : World) : World :=
  mkWorld (w_host W) s (w_log W) (w_trace W).

(** [c.isspace()] for a code point below 256. *)
Definition py_isspace (c : ascii) : bool :=
  let n := nat_of_ascii c in
  ((9 <=? n) && (n <=? 13) || (28 <=? n) && (n <=? 32) || (n =? 133) || (n =? 160))%nat.

(** [s.split()]: the words between runs of white space; [cur] is the
    word being read. *)
Fixpoint str_split_from (cur s : string) : list string :=
  match s with
  | EmptyString => if String.eqb cur "" then [] else [cur]
  | String c s' =>
      if py_isspace c
      then if String.eqb cur "" then str_split_from "" s' else cur :: str_split_from "" s'
      else str_split_from (cur +:+ String c EmptyString) s'
  end.

Definition str_split (s : string) : list string := str_split_from "" s.

(** [for Item in v]: the items of a value that can be iterated. *)
Definition py_iter (v : PyVal) : Res (list PyVal) :=
  match v with
  | PList l | PTuple l => Val l
  | PStr s => Val (map (fun c => PStr (String c EmptyString)) (list_ascii_of_string s))
  | _ => Raise TypeError
  end.

(** [len(v)] *)
Definition py_len (v : PyVal) : Res nat :=
  match v with
  | PList l | PTuple l => Val (length l)
  | PStr s => Val (String.length s)
  | _ => Raise TypeError
  end.

Module GeterosisPlayblastVisibilityDialog.

(** The check boxes of the dialog, each by whether it is checked:
    [__init__] makes one for every item of the visibility lookup, and a
    new check box is not checked. *)
Definition __init__ : list bool :=
  map (fun _ : string * string => false) VIEWPORT_VISIBILITY_LOOKUP.

Definition GetVisibilityData (VisibilityCheckboxes : list bool) : PyVal :=
  PList (map PBool VisibilityCheckboxes).

Section Widgets.

(** The conversion of the argument of [QCheckBox.setChecked] to a
    boolean, which the binding makes. *)
Context (setChecked_arg : PyVal -> Res bool).

(** The loop of [SetVisibilityData] over [range(len(Data))], from [i]
    on. *)
Fixpoint set_checkboxes (Data : PyVal) (count i : nat) (VisibilityCheckboxes : list bool)
    : Res unit * list bool :=
  match count with
  | O => (Val tt, VisibilityCheckboxes)
  | S count' =>
      match py_getitem Data i with
      | Raise e => (Raise e, VisibilityCheckboxes)
      | Val v =>
          match setChecked_arg v with
          | Raise e => (Raise e, VisibilityCheckboxes)
          | Val b => set_checkboxes Data count' (S i) (<[i := b]> VisibilityCheckboxes)
          end
      end
  end.

Definition SetVisibilityData (Data : PyVal) (VisibilityCheckboxes : list bool)
    : Res unit * list bool :=
  match py_len Data with
  | Raise e => (Raise e, VisibilityCheckboxes)
  | Val n =>
      if negb (length VisibilityCheckboxes =? n)%nat
      then (Raise (RuntimeError "Visibility property/data mismatch"), VisibilityCheckboxes)
      else set_checkboxes Data n 0 VisibilityCheckboxes
  end.

End Widgets.

End GeterosisPlayblastVisibilityDialog.

Module GeterosisPlayblastUi.

Definition SaveSettings : M unit :=
  let* FfmpegPath := GetFfmpegPath in
  cmds_optionVar_sv "GeterosisPlayblastUiFFmpegPath" FfmpegPath.

(** The option variable is read when it exists. *)
Definition LoadSettings : M unit :=
  let* h := get_host in
  match h_optionVars h !! "GeterosisPlayblastUiFFmpegPath" with
  | Some FfmpegPath => SetFfmpegPath FfmpegPath
  | None => ret tt
  end.

Section Defaults.

(** [int(s)] on a string. *)
Context (int_of_str : string -> Res Z).

(** [int(v)] *)
Definition py_int (v : PyVal) : Res Z :=
  match v with
  | PBool b => Val (Z.b2z b)
  | PInt z => Val z
  | PFloat f => py_int_of_float f
  | PStr s => int_of_str s
  | _ => Raise TypeError
  end.

(** The loop of [save_defaults] that writes the visibility out, one
    integer after a blank for each item. *)
Fixpoint save_visibility_loop (items : list PyVal) (VisibilityStr : string) : Res string :=
  match items with
  | [] => Val VisibilityStr
  | Item :: rest =>
      match py_int Item with
      | Val n => save_visibility_loop rest (VisibilityStr +:+ " " +:+ pretty n)
      | Raise e => Raise e
      end
  end.

(** [save_defaults], the part for the visibility (the other option
    variables hold the state of widgets). *)
Definition save_defaults_visibility : M unit :=
  let* VisibilityData := GetVisibility in
  let* items := lift (py_iter VisibilityData) in
  let* VisibilityStr := lift (save_visibility_loop items "") in
  cmds_optionVar_sv "GeterosisPlayblastUiVisibilityData" VisibilityStr.

(** The loop of [LoadDefaults] over the words of the option variable. *)
Fixpoint load_visibility_loop (VisibilityStrList : list string) (VisibilityData : list PyVal)
    : Res (list PyVal) :=
  match VisibilityStrList with
  | [] => Val VisibilityData
  | Item :: rest =>
      if negb (String.eqb Item "") then
        match int_of_str Item with
        | Val n => load_visibility_loop rest (VisibilityData ++ [PBool (negb (n =? 0)%Z)])
        | Raise e => Raise e
        end
      else load_visibility_loop rest VisibilityData
  end.

(** [LoadDefaults], the part for the visibility, as it runs when the
    preset shown is [Custom]. *)
Definition LoadDefaults_visibility : M unit :=
  let* h := get_host in
  match h_optionVars h !! "GeterosisPlayblastUiVisibilityData" with
  | Some VisibilityStr =>
      let* VisibilityData := lift (load_visibility_loop (str_split VisibilityStr) []) in
      SetVisibility (PList VisibilityData)
  | None => ret tt
  end.

End Defaults.

Section Dialogs.

Context (setChecked_arg : PyVal -> Res bool).

(** [ShowVisibilityDialog]: the dialog is made on first use, then
    filled from the engine; [dialog] is the attribute
    [_VisibilityDialog]. *)
Definition ShowVisibilityDialog (dialog : option (list bool)) (W : World)
    : Res unit * World * option (list bool) :=
  let VisibilityCheckboxes :=
    match dialog with
    | Some boxes => boxes
    | None => GeterosisPlayblastVisibilityDialog.__init__
    end in
  match GetVisibility W with
  | (Val Data, W') =>
      let '(r, boxes) :=
        GeterosisPlayblastVisibilityDialog.SetVisibilityData setChecked_arg Data
          VisibilityCheckboxes in
      (r, W', Some boxes)
  | (Raise e, W') => (Raise e, W', Some VisibilityCheckboxes)
  end.

End Dialogs.

(** [OnVisibilityDialogModified]: what the dialog shows goes to the
    engine (the preset box is set to [Custom] first, which calls no
    setter). *)
Definition OnVisibilityDialogModified (VisibilityCheckboxes : list bool) : M unit :=
  SetVisibility (GeterosisPlayblastVisibilityDialog.GetVisibilityData VisibilityCheckboxes).

End GeterosisPlayblastUi.

(** The text [save_defaults] writes for a vector of booleans. *)
Definition bit (b : bool) : string := if b then "1" else "0".

Fixpoint bits (l : list bool) : string :=
  match l with
  | [] => ""
  | b :: l' => " " +:+ bit b +:+ bits l'
  end.

(** [int] on the two strings [save_defaults] writes for booleans. *)
Definition demo_int_of_str (s : string) : Res Z :=
  if String.eqb s "0" then Val 0%Z
  else if String.eqb s "1" then Val 1%Z
  else Raise ValueError.

(** The dialog has not been made yet, or it has one check box for each
    item of the visibility lookup. *)
Definition dialog_ok (dialog : option (list bool)) : Prop :=
  match dialog with
  | Some boxes => length boxes = length VIEWPORT_VISIBILITY_LOOKUP
  | None => True
  end.

(** The conversion [bool(v)], for a binding that takes any value. *)
Definition demo_setChecked_arg (v : PyVal) : Res bool := Val (py_truthy v).

(** ** Exceptions of the encoding stage *)

(** When [m] raises, it has changed nothing but the log. *)
Definition raises_early {A : Type} (m : M A) : Prop :=
  forall W e W', m W = (Raise e, W') -> only_logs W W'.

(** [save_defaults] and [LoadDefaults], the parts for the h264
    settings: two option variables that are read when both exist. *)
Definition save_defaults_h264 : M unit :=
  let* h264Settings := Geth264Settings in
  cmds_optionVar_sv "GeterosisPlayblastUiH264Quality" (fst h264Settings) >>
  cmds_optionVar_sv "GeterosisPlayblastUiH264Preset" (snd h264Settings).

Definition LoadDefaults_h264 : M unit :=
  let* h := get_host in
  match h_optionVars h !! "GeterosisPlayblastUiH264Quality",
        h_optionVars h !! "GeterosisPlayblastUiH264Preset" with
  | Some Quality, Some Preset => Seth264Settings Quality Preset
  | _, _ => ret tt
  end.

(** ** Stepping through the methods *)

Create HintDb py.

#[local] Hint Unfold bind ret raise lift py_try py_finally when
  get_host get_self put_host put_self emit record : py.
#[local] Hint Unfold set_FfmpegPath set_LogToMaya set_Camera set_ResolutionPreset
  set_WidthHeight set_FrameRangePreset set_StartFrame set_EndFrame set_Visibility
  set_ContainerFormat set_Encoder set_h264Quality set_h264Preset set_ImageQuality : py.
#[local] Hint Unfold SetCamera SetResolution GetResolutionWidthHeight
  SetFrameRange GetStartEndFrame ResolveFrameRange PresetToFrameRange
  SetVisibility GetVisibility PresetToVisibility
  SetEncoding Seth264Settings SetImageSettings : py.

Lemma LogError_run (Text : list Piece) (W : World) :
  LogError Text W = (Val tt, logged (error_lines (_LogToMaya (w_self W)) Text) W).
Proof.
  unfold LogError, logged, error_lines, bind, get_self, when, emit, ret.
  destruct (_LogToMaya (w_self W)); cbn; rewrite <- ?app_assoc; reflexivity.
Qed.

Lemma LogWarning_run (Text : list Piece) (W : World) :
  LogWarning Text W = (Val tt, logged (warning_lines (_LogToMaya (w_self W)) Text) W).
Proof.
  unfold LogWarning, logged, warning_lines, bind, get_self, when, emit, ret.
  destruct (_LogToMaya (w_self W)); cbn; rewrite <- ?app_assoc; reflexivity.
Qed.

Lemma LogOutput_run (Text : list Piece) (W : World) :
  LogOutput Text W = (Val tt, logged (output_lines (_LogToMaya (w_self W)) Text) W).
Proof.
  unfold LogOutput, logged, output_lines, bind, get_self, when, emit, ret.
  destruct (_LogToMaya (w_self W)); cbn; rewrite <- ?app_assoc; reflexivity.
Qed.

Lemma error_lines_report (toMaya : bool) (Text : list Piece) :
  existsb is_error_line (error_lines toMaya Text) = true.
Proof. destruct toMaya; reflexivity. Qed.

#[local] Arguments LogError : simpl never.
#[local] Arguments LogWarning : simpl never.
#[local] Arguments LogOutput : simpl never.
#[local] Arguments logged : simpl never.

Lemma logged_host new W : w_host (logged new W) = w_host W.
Proof. reflexivity. Qed.

Lemma logged_self new W : w_self (logged new W) = w_self W.
Proof. reflexivity. Qed.

Lemma logged_log new W : w_log (logged new W) = (w_log W ++ new)%list.
Proof. reflexivity. Qed.

Lemma logged_trace new W : w_trace (logged new W) = w_trace W.
Proof. reflexivity. Qed.

Ltac run :=
  repeat (autounfold with py; cbn;
          rewrite ?LogError_run, ?LogWarning_run, ?LogOutput_run,
            ?logged_host, ?logged_self, ?logged_log, ?logged_trace; cbn).

(** ** Resolution *)

(** A value that is no preset name makes [PresetToResolution] raise. *)
Lemma PresetToResolution_unknown (v : PyVal) (W : World) :
  py_in_strs v (dict_keys RESOLUTION_LOOKUP) = false ->
  exists e, PresetToResolution v W = (Raise e, W).
Proof.
  intros Hname. unfold PresetToResolution.
  assert (Hrender : py_eq_str v "Render" = false).
  { unfold py_in_strs in Hname. cbn in Hname. apply orb_false_iff in Hname. tauto. }
  rewrite Hrender. unfold bind, lift, py_in_keys.
  destruct (py_hashable v).
  - unfold py_in_strs in Hname. rewrite Hname. eexists. reflexivity.
  - eexists. reflexivity.
Qed.

Lemma PresetToResolution_Render (W : World) :
  PresetToResolution (PStr "Render") W
  = (Val (PTuple [PInt (fst (h_resolution (w_host W))); PInt (snd (h_resolution (w_host W)))]), W).
Proof. reflexivity. Qed.

#[local] Arguments PresetToResolution : simpl never.

(** C9: for every pair of integers [w > 0] and [h > 0],
    [SetResolution((w, h))] followed by [GetResolutionWidthHeight()]
    returns exactly [(w, h)]; the same holds when the pair is given as a
    list. *)
Theorem SetResolution_roundtrip (W : World) (w h : Z) :
  (0 < w)%Z -> (0 < h)%Z ->
  fst ((SetResolution (PTuple [PInt w; PInt h]) >> GetResolutionWidthHeight) W)
    = Val (PTuple [PInt w; PInt h])
  /\ fst ((SetResolution (PList [PInt w; PInt h]) >> GetResolutionWidthHeight) W)
    = Val (PTuple [PInt w; PInt h]).
Proof.
  intros Hw Hh.
  split; run;
    match goal with
    | |- context [PresetToResolution ?v ?W0] =>
        destruct (PresetToResolution_unknown v W0 eq_refl) as [e ->]
    end; run;
    (destruct (Z.leb_spec w 0); [lia|]); run;
    (destruct (Z.leb_spec h 0); [lia|]); reflexivity.
Qed.

Lemma SetResolution_roundtrip_witness :
  fst ((SetResolution (PTuple [PInt 1280; PInt 720]) >> GetResolutionWidthHeight) demo_world)
    = Val (PTuple [PInt 1280; PInt 720])
  /\ fst ((SetResolution (PList [PInt 1280; PInt 720]) >> GetResolutionWidthHeight) demo_world)
    = Val (PTuple [PInt 1280; PInt 720]).
Proof. apply (SetResolution_roundtrip demo_world 1280 720); lia. Defined.

(** ** Presets *)

Lemma py_int_of_float_1 : py_int_of_float 1%float = Val 1%Z.
Proof. vm_compute. reflexivity. Qed.

Lemma py_int_of_float_100 : py_int_of_float 100%float = Val 100%Z.
Proof. vm_compute. reflexivity. Qed.

(** C8: a stored preset name is resolved when the getter is called, not
    when it was set.  After [SetResolution("Render")] the getter returns
    the render-settings resolution of the scene it is called in; after
    [SetFrameRange("Playback")] with a playback range of [1, 100] the
    getter returns [(1, 100)], and in any later scene it returns the
    playback range of that scene. *)
Theorem presets_resolve_at_call_time (W : World) (h1 : Host) :
  h_playbackRange (w_host W) = (1%float, 100%float) ->
  let Wr := snd (SetResolution (PStr "Render") W) in
  let Wf := snd (SetFrameRange (PStr "Playback") W) in
  fst (GetResolutionWidthHeight (at_host h1 Wr))
    = Val (PTuple [PInt (fst (h_resolution h1)); PInt (snd (h_resolution h1))])
  /\ fst (GetStartEndFrame Wf) = Val (PInt 1, PInt 100)
  /\ fst (GetStartEndFrame (at_host h1 Wf)) = frame_pair (h_playbackRange h1).
Proof.
  intros Hrange Wr Wf. split; [|split].
  - subst Wr. run. rewrite PresetToResolution_Render. run.
    destruct (fst (h_resolution (w_host W)) <=? 0)%Z; run;
      [|destruct (snd (h_resolution (w_host W)) <=? 0)%Z; run];
      rewrite PresetToResolution_Render; reflexivity.
  - subst Wf. run.
    repeat (rewrite Hrange; cbn [fst snd];
            rewrite py_int_of_float_1, py_int_of_float_100; run).
    reflexivity.
  - subst Wf. run.
    rewrite Hrange; cbn [fst snd];
      rewrite py_int_of_float_1, py_int_of_float_100; run.
    unfold frame_pair.
    destruct (py_int_of_float (fst (h_playbackRange h1))); cbn; [|reflexivity].
    destruct (py_int_of_float (snd (h_playbackRange h1))); reflexivity.
Qed.

Lemma presets_resolve_at_call_time_witness :
  let later := at_host (mkHost (h_cameras demo_host) (h_focus demo_host) (h_panels demo_host)
                 (h_editors demo_host) (h_attrs demo_host) (2048, 858)%Z
                 (h_renderRange demo_host) (10%float, 50%float) (h_animationRange demo_host)
                 (h_timeUnit demo_host) (h_sound demo_host) (h_optionVars demo_host)
                 (h_project demo_host) (h_sceneName demo_host) (h_fs demo_host)) in
  fst (GetResolutionWidthHeight (later (snd (SetResolution (PStr "Render") demo_world))))
    = Val (PTuple [PInt 2048; PInt 858])
  /\ fst (GetStartEndFrame (snd (SetFrameRange (PStr "Playback") demo_world)))
    = Val (PInt 1, PInt 100)
  /\ fst (GetStartEndFrame (later (snd (SetFrameRange (PStr "Playback") demo_world))))
    = Val (PInt 10, PInt 50).
Proof.
  exact (presets_resolve_at_call_time demo_world
           (mkHost (h_cameras demo_host) (h_focus demo_host) (h_panels demo_host)
              (h_editors demo_host) (h_attrs demo_host) (2048, 858)%Z
              (h_renderRange demo_host) (10%float, 50%float) (h_animationRange demo_host)
              (h_timeUnit demo_host) (h_sound demo_host) (h_optionVars demo_host)
              (h_project demo_host) (h_sceneName demo_host) (h_fs demo_host))
           eq_refl).
Defined.

(** ** Visibility *)

Lemma VIEWPORT_VISIBILITY_LOOKUP_length : length VIEWPORT_VISIBILITY_LOOKUP = 37%nat.
Proof. reflexivity. Qed.

Lemma py_getitem_seq (v : PyVal) (l : list PyVal) (i : nat) :
  v = PList l \/ v = PTuple l ->
  py_getitem v i = match l !! i with Some x => Val x | None => Raise IndexError end.
Proof. intros [-> | ->]; reflexivity. Qed.

(** Filling the flag map from a sequence that ends before the items do
    runs off the end of the sequence. *)
Lemma fill_flags_short (v : PyVal) (l : list PyVal) :
  v = PList l \/ v = PTuple l ->
  forall (items : list (string * string)) (DataIndex : nat) (flags : gmap string PyVal),
    (DataIndex <= length l)%nat ->
    (length l < DataIndex + length items)%nat ->
    fill_flags v items DataIndex flags = Raise IndexError.
Proof.
  intros Hv items. induction items as [|Item rest IH]; intros DataIndex flags Hle Hlt.
  - cbn in Hlt. lia.
  - cbn [fill_flags]. rewrite (py_getitem_seq v l DataIndex Hv).
    destruct (l !! DataIndex) as [x|] eqn:Hx; [|reflexivity].
    apply IH.
    + apply lookup_lt_Some in Hx. lia.
    + cbn [length] in Hlt. lia.
Qed.



(** ** Setters and refused input *)

Ltac report_error :=
  eexists; split; [reflexivity | apply error_lines_report].

Ltac rejected := cbn; repeat split; try report_error.

Lemma SetCamera_rejects (W : World) (Camera : option string) :
  invalid_input (w_host W) (Setter_Camera Camera) = true ->
  rejected_last_good (Setter_Camera Camera) W.
Proof.
  cbn [invalid_input]. intros H.
  unfold rejected_last_good, call_setter. run. rewrite H. run. rejected.
Qed.

Lemma SetResolution_rejects (W : World) (v : PyVal) :
  invalid_input (w_host W) (Setter_Resolution v) = true ->
  rejected_last_good (Setter_Resolution v) W.
Proof.
  cbn [invalid_input]. unfold resolution_ok. intros H.
  apply negb_true_iff, orb_false_iff in H. destruct H as [Hname Hpair].
  unfold rejected_last_good, call_setter. run.
  match goal with
  | |- context [PresetToResolution ?v ?W0] =>
      destruct (PresetToResolution_unknown v W0 Hname) as [e ->]
  end.
  destruct v as [ | b | z | f | s | l | l ]; run.
  1-4: rejected.
  - destruct s as [|c s']; run; rejected.
  - destruct l as [|a [|b l']]; [ | destruct a | destruct a; destruct b ];
      repeat match goal with x : bool |- _ => destruct x end;
      cbn in Hpair; run;
      repeat match goal with
        | |- context [(?z <=? 0)%Z] => destruct (Z.leb_spec z 0); run
        | Hp : context [(0 <? ?z)%Z] |- _ =>
            destruct (Z.ltb_spec 0 z); cbn in Hp; try lia
        | |- context [if ?b then _ else _] => is_var b; destruct b; cbn in Hpair; run
        end;
      try discriminate; rejected.
  - destruct l as [|a [|b l']]; [ | destruct a | destruct a; destruct b ];
      repeat match goal with x : bool |- _ => destruct x end;
      cbn in Hpair; run;
      repeat match goal with
        | |- context [(?z <=? 0)%Z] => destruct (Z.leb_spec z 0); run
        | Hp : context [(0 <? ?z)%Z] |- _ =>
            destruct (Z.ltb_spec 0 z); cbn in Hp; try lia
        | |- context [if ?b then _ else _] => is_var b; destruct b; cbn in Hpair; run
        end;
      try discriminate; rejected.
Qed.

Lemma SetFrameRange_rejects (W : World) (v : PyVal) :
  invalid_input (w_host W) (Setter_FrameRange v) = true ->
  rejected_last_good (Setter_FrameRange v) W.
Proof.
  cbn [invalid_input]. intros H.
  unfold rejected_last_good, call_setter.
  destruct v as [ | b | z | f | s | l | l ]; run; try rejected.
  - unfold py_in_strs in H. cbn in H.
    apply negb_true_iff in H.
    repeat (apply orb_false_iff in H; destruct H as [? H]).
    repeat match goal with Hs : String.eqb s _ = false |- _ => rewrite Hs; clear Hs end.
    run. rejected.
  - destruct l as [|a [|b l']]; cbn in H; try discriminate; run; rejected.
  - destruct l as [|a [|b l']]; cbn in H; try discriminate; run; rejected.
Qed.

Lemma SetVisibility_rejects (W : World) (v : PyVal) :
  invalid_input (w_host W) (Setter_Visibility v) = true ->
  rejected_last_good (Setter_Visibility v) W.
Proof.
  cbn [invalid_input]. intros H.
  apply andb_true_iff in H. destruct H as [H Hname].
  apply andb_true_iff in H. destruct H as [Htruthy Hseq].
  apply negb_true_iff in Hname, Hseq.
  assert (Hhash : py_hashable v = true) by (destruct v; try reflexivity; discriminate).
  unfold rejected_last_good, call_setter, SetVisibility.
  rewrite Htruthy. cbn [negb]. rewrite Hseq. cbn [negb].
  unfold PresetToVisibility, bind, lift, py_in_keys.
  rewrite Hhash. unfold py_in_strs in Hname. rewrite Hname. run. rejected.
Qed.

Lemma SetEncoding_rejects (W : World) (ContainerFormat Encoder : string) :
  invalid_input (w_host W) (Setter_Encoding ContainerFormat Encoder) = true ->
  rejected_last_good (Setter_Encoding ContainerFormat Encoder) W.
Proof.
  cbn [invalid_input]. intros H.
  unfold rejected_last_good, call_setter, SetEncoding.
  destruct (dict_get VIDEO_ENCODER_LOOKUP ContainerFormat) as [encoders|].
  - rewrite H. run. rejected.
  - run. rejected.
Qed.

Lemma Seth264Settings_rejects (W : World) (Quality Preset : string) :
  invalid_input (w_host W) (Setter_h264 Quality Preset) = true ->
  rejected_last_good (Setter_h264 Quality Preset) W.
Proof.
  cbn [invalid_input]. intros H.
  unfold rejected_last_good, call_setter. unfold Seth264Settings.
  destruct (negb (existsb (String.eqb Quality) (dict_keys H264_QUALITIES))).
  - run. rejected.
  - cbn [orb] in H. rewrite H. run. rejected.
Qed.


Lemma SetImageSettings_rejects (W : World) (Quality : PyVal) :
  invalid_input (w_host W) (Setter_Image Quality) = true ->
  rejected_last_good (Setter_Image Quality) W.
Proof.
  cbn [invalid_input]. intros H.
  unfold rejected_last_good, call_setter, SetImageSettings, py_gt_zero, py_le_100.
  destruct (py_num Quality) as [[z|f]|e]; [| |discriminate]; apply negb_true_iff in H.
  - unfold bind, lift, ret.
    destruct (0 <? z)%Z; cbn [andb] in H; [rewrite H|];
      rewrite LogError_run; rejected.
  - unfold bind, lift, ret.
    destruct (PrimFloat.ltb 0 f); cbn [andb] in H; [rewrite H|];
      rewrite LogError_run; rejected.
Qed.

(** C2, as the code has it: a setter called with an input it has to
    refuse returns, reports an error and leaves the scene alone;
    [SetCamera] then falls back to no camera, [SetResolution] keeps the
    stored width and height, and every other setter keeps the whole
    object as it was, so that its getters answer as before. *)
Theorem setters_reject_invalid_input (c : SetterCall) (W : World) :
  invalid_input (w_host W) c = true ->
  rejected_last_good c W.
Proof.
  destruct c.
  - apply SetCamera_rejects.
  - apply SetResolution_rejects.
  - apply SetFrameRange_rejects.
  - apply SetVisibility_rejects.
  - apply SetEncoding_rejects.
  - apply Seth264Settings_rejects.
  - apply SetImageSettings_rejects.
Qed.

Lemma setters_reject_invalid_input_witness :
  rejected_last_good (Setter_Encoding "Image" "h264") demo_world.
Proof.
  apply (setters_reject_invalid_input (Setter_Encoding "Image" "h264") demo_world).
  vm_compute. reflexivity.
Defined.

Lemma rejected_unchanged_self (c : SetterCall) (W : World) :
  rejected_unchanged c W -> w_self (snd (call_setter c W)) = w_self W.
Proof.
  unfold rejected_unchanged. destruct (call_setter c W) as [r W']. cbn [snd]. tauto.
Qed.

(** C2 fails as stated: with the camera [shotCam] stored, [SetCamera] on
    a name that is no camera reports the error and then stores no
    camera at all. *)
Lemma SetCamera_invalid_clears_camera :
  let W := snd (SetCamera (Some "shotCam") demo_world) in
  invalid_input (w_host W) (Setter_Camera (Some "noSuchCamera")) = true
  /\ _Camera (w_self W) = Some "shotCam"
  /\ _Camera (w_self (snd (SetCamera (Some "noSuchCamera") W))) = None
  /\ ~ rejected_unchanged (Setter_Camera (Some "noSuchCamera")) W.
Proof.
  cbv zeta.
  split; [vm_compute; reflexivity|].
  split; [vm_compute; reflexivity|].
  split; [vm_compute; reflexivity|].
  intros H. apply rejected_unchanged_self in H.
  apply (f_equal _Camera) in H. vm_compute in H. discriminate.
Qed.

(** ** What the checks of [execute] leave untouched *)

Lemma only_logs_refl (W : World) : only_logs W W.
Proof. repeat split. exists []. symmetry. apply app_nil_r. Qed.

Lemma only_logs_trans (W1 W2 W3 : World) :
  only_logs W1 W2 -> only_logs W2 W3 -> only_logs W1 W3.
Proof.
  intros (Hh & Hs & Ht & n1 & Hl) (Hh' & Hs' & Ht' & n2 & Hl').
  repeat split; try congruence.
  exists (n1 ++ n2)%list. rewrite Hl', Hl. symmetry. apply app_assoc.
Qed.

Lemma only_logs_logged (new : list LogLine) (W : World) : only_logs W (logged new W).
Proof. repeat split. exists new. reflexivity. Qed.

Lemma error_reported_logged (toMaya : bool) (Text : list Piece) (W : World) :
  error_reported W (logged (error_lines toMaya Text) W).
Proof. eexists. split; [reflexivity|apply error_lines_report]. Qed.

Lemma error_reported_before (W1 W2 W3 : World) :
  error_reported W1 W2 -> only_logs W2 W3 -> error_reported W1 W3.
Proof.
  intros (n1 & Hl & He) (_ & _ & _ & n2 & Hl').
  exists (n1 ++ n2)%list. split.
  - rewrite Hl', Hl. symmetry. apply app_assoc.
  - rewrite existsb_app, He. reflexivity.
Qed.

Lemma error_reported_after (W1 W2 W3 : World) :
  only_logs W1 W2 -> error_reported W2 W3 -> error_reported W1 W3.
Proof.
  intros (_ & _ & _ & n1 & Hl) (n2 & Hl' & He).
  exists (n1 ++ n2)%list. split.
  - rewrite Hl', Hl. symmetry. apply app_assoc.
  - rewrite existsb_app, He. apply orb_true_r.
Qed.

#[local] Hint Resolve only_logs_refl only_logs_logged error_reported_logged : py.

Lemma GetViewportPanel_run (W : World) :
  exists W',
    GetViewportPanel W
    = (Val (match h_panels (w_host W) !! h_focus (w_host W) with
            | Some _ => Some (h_focus (w_host W))
            | None => None
            end), W')
    /\ only_logs W W'
    /\ (h_panels (w_host W) !! h_focus (w_host W) = None -> error_reported W W')
    /\ (is_Some (h_panels (w_host W) !! h_focus (w_host W)) -> W' = W).
Proof.
  unfold GetViewportPanel, cmds_modelPanel_modelEditor. run.
  destruct (h_panels (w_host W) !! h_focus (w_host W)) as [c|]; run.
  - exists W. split; [reflexivity|]. split; [auto with py|]. split; [discriminate|reflexivity].
  - eexists. split; [reflexivity|]. split; [auto with py|].
    split; [auto with py|]. intros [? ?]; discriminate.
Qed.

Lemma ValidateFfmpeg_run (W : World) :
  exists W',
    ValidateFfmpeg W = (Val (ffmpeg_valid (w_self W) (w_host W)), W')
    /\ only_logs W W'
    /\ (ffmpeg_valid (w_self W) (w_host W) = false -> error_reported W W').
Proof.
  unfold ValidateFfmpeg, ffmpeg_valid. run.
  destruct (String.eqb (_FfmpegPath (w_self W)) ""); run.
  { eexists. split; [reflexivity|]. split; auto with py. }
  destruct (os_path_exists (w_host W) (_FfmpegPath (w_self W))); run.
  2: { eexists. split; [reflexivity|]. split; auto with py. }
  destruct (os_path_isdir (w_host W) (_FfmpegPath (w_self W))); run.
  { eexists. split; [reflexivity|]. split; auto with py. }
  exists W. split; [reflexivity|]. split; [auto with py|discriminate].
Qed.

Ltac solve_only_logs :=
  repeat first
    [ apply only_logs_refl
    | apply only_logs_logged
    | eapply only_logs_trans; [|apply only_logs_logged] ].

Ltac solve_error_reported :=
  first
    [ apply error_reported_logged
    | eapply error_reported_after; [|apply error_reported_logged]; solve_only_logs ].

Lemma execute_checks_run (OutputDir FileName : string) (W : World) :
  exists W',
    execute_checks OutputDir FileName W
    = (Val (if checks_pass (w_self W) (w_host W) OutputDir FileName
            then Some (h_focus (w_host W)) else None), W')
    /\ only_logs W W'
    /\ (checks_pass (w_self W) (w_host W) OutputDir FileName = false -> error_reported W W')
    /\ (checks_pass (w_self W) (w_host W) OutputDir FileName = true -> W' = W).
Proof.
  unfold execute_checks, checks_pass, requires_ffmpeg, ffmpeg_valid, viewport_active,
    RequiresFfmpeg, ValidateFfmpeg, GetViewportPanel, cmds_modelPanel_modelEditor.
  run.
  destruct (String.eqb (_ContainerFormat (w_self W)) "Image"); run;
    try (destruct (String.eqb (_FfmpegPath (w_self W)) ""); run);
    try (destruct (os_path_exists (w_host W) (_FfmpegPath (w_self W))); run);
    try (destruct (os_path_isdir (w_host W) (_FfmpegPath (w_self W))); run);
    try (destruct (h_panels (w_host W) !! h_focus (w_host W)) as [c|]; run);
    try (destruct (String.eqb (h_focus (w_host W)) ""); run);
    try (destruct (String.eqb OutputDir ""); run);
    try (destruct (String.eqb FileName ""); run);
    (eexists; split; [reflexivity|]; split; [solve_only_logs|];
     split; [first [discriminate | intros _; solve_error_reported]
            |first [discriminate | reflexivity]]).
Qed.

Lemma aborted_of_only_logs (W W' : World) :
  only_logs W W' -> error_reported W W' -> aborted_untouched W (Val tt, W').
Proof. intros (Hh & Hs & Ht & _) He. repeat split; assumption. Qed.

(** C5: when the container needs the encoder and the encoder path is
    unset, missing or a directory, or when no viewport is active, or
    when the output directory or the file name is empty, [execute]
    reports an error and returns: the scene, the files and the object
    are as before and no host call was issued (no camera switch, no flag
    edit, no attribute change, no capture, no encoder run). *)
Theorem execute_aborts_before_any_mutation (prims : Prims) (OutputDir FileName : string)
    (Padding : Z) (Overscan ShowOrnaments ShowInViewer Overwrite : bool) (W : World) :
  (requires_ffmpeg (w_self W) = true /\ ffmpeg_valid (w_self W) (w_host W) = false)
  \/ viewport_active (w_host W) = false
  \/ OutputDir = ""
  \/ FileName = "" ->
  aborted_untouched W
    (execute prims OutputDir FileName Padding Overscan ShowOrnaments ShowInViewer Overwrite W).
Proof.
  intros Hpre.
  assert (Hfail : checks_pass (w_self W) (w_host W) OutputDir FileName = false).
  { unfold checks_pass.
    destruct Hpre as [[-> ->] | [-> | [-> | ->]]]; cbn;
      rewrite ?andb_false_r; reflexivity. }
  unfold execute, bind.
  destruct (execute_checks_run OutputDir FileName W) as (W' & -> & Hlogs & Herr & _).
  rewrite Hfail. cbn. apply aborted_of_only_logs; auto.
Qed.

Lemma execute_aborts_before_any_mutation_witness :
  aborted_untouched demo_world_no_ffmpeg
    (execute demo_prims "/out" "shot" 4 false true true false demo_world_no_ffmpeg).
Proof.
  apply execute_aborts_before_any_mutation.
  left. split; vm_compute; reflexivity.
Defined.

(** ** An output file that is already there *)






(** ** The encoder command and the audio offset *)

Lemma for_each_LogOutput_run (chunks : list string) (W : World) :
  exists W',
    for_each chunks (fun Output => LogOutput [Fmt (PStr Output)]) W = (Val tt, W')
    /\ only_logs W W'.
Proof.
  revert W. induction chunks as [|c rest IH]; intros W; cbn [for_each].
  - exists W. split; [reflexivity|apply only_logs_refl].
  - unfold bind. rewrite LogOutput_run.
    destruct (IH (logged (output_lines (_LogToMaya (w_self W)) [Fmt (PStr c)]) W))
      as (W' & -> & Hlogs).
    exists W'. split; [reflexivity|].
    eapply only_logs_trans; [apply only_logs_logged|exact Hlogs].
Qed.

Lemma GetFrameRate_world (prims : Prims) (W : World) :
  snd (GetFrameRate prims W) = W.
Proof.
  unfold GetFrameRate, bind, get_host, ret, raise, lift.
  repeat match goal with
         | |- context [if ?b then _ else _] => destruct b
         end; reflexivity.
Qed.

Lemma eqb_empty_false (s : string) : s <> "" -> String.eqb s "" = false.
Proof. intros H. apply String.eqb_neq. exact H. Qed.

Lemma GetAudioAttributes_attached (W : World) (path : string) (off : float) :
  audio_attached (w_host W) path off ->
  GetAudioAttributes W = (Val (PStr path, PFloat off), W).
Proof.
  intros (Hsound & Hfile & _ & Hexists & Hoff).
  unfold GetAudioAttributes, cmds_getAttr, bind, get_host, ret.
  rewrite (eqb_empty_false _ Hsound). cbn [negb].
  rewrite Hfile, Hexists, Hoff. reflexivity.
Qed.

Lemma ExecuteFfmpegCommand_run (prims : Prims) (Command : list Piece) (W : World) :
  exists W',
    ExecuteFfmpegCommand prims Command W = (Val tt, W')
    /\ w_trace W' = (w_trace W ++ [CallFfmpeg Command])%list
    /\ w_self W' = w_self W
    /\ w_host W' = with_fs (snd (qprocess_run prims Command (w_host W))) (w_host W)
    /\ exists new, w_log W' = (w_log W ++ new)%list.
Proof.
  unfold ExecuteFfmpegCommand, bind, get_host, record, put_host.
  destruct (qprocess_run prims Command (w_host W)) as [[chunks code] fs]. cbn [snd].
  match goal with
  | |- context [for_each chunks ?body ?W0] =>
      destruct (for_each_LogOutput_run chunks W0) as (W' & HW' & Hh & Hs & Ht & Hl)
  end.
  cbn in HW'. cbn. rewrite HW'. exists W'. split; [reflexivity|].
  cbn in Hh, Hs, Ht, Hl. auto.
Qed.

(** C7: with a sound node whose file exists on the time slider, the
    offset formatted after [-ss] in the encoder command is
    (StartFrame - AudioFrameOffset) / FrameRate, computed in binary64;
    with start frame 24, offset 0 and frame rate 24.0 it is exactly 1.0. *)
Theorem audio_seek_offset_formula (prims : Prims) (W : World) (SourcePath OutputPath : string)
    (s : Z) (fs off rate : float) (path : string) (Crf : Z) :
  audio_attached (w_host W) path off ->
  fst (GetFrameRate prims W) = Val rate ->
  PrimFloat.eqb rate 0%float = false ->
  float_of_Z s = Val fs ->
  dict_get H264_QUALITIES (_h264Quality (w_self W)) = Some Crf ->
  (exists W' cmd,
      Encodeh264 prims SourcePath OutputPath (PInt s) W = (Val tt, W')
      /\ w_trace W' = (w_trace W ++ [CallFfmpeg cmd])%list
      /\ seek_offset cmd = Some (PFloat (audio_offset_by_formula fs off rate)))
  /\ fst (GetAudioOffsetInSec (PInt 24) (PFloat 0%float) 24%float W) = Val 1%float
  /\ fst (GetAudioOffsetInSec (PInt 24) (PInt 0) 24%float W) = Val 1%float.
Proof.
  intros Haudio Hrate Hnz Hfs Hcrf. split; [|split; vm_compute; reflexivity].
  assert (Hpath : String.eqb path "" = false).
  { destruct Haudio as (_ & _ & Hp & _). apply eqb_empty_false. exact Hp. }
  unfold Encodeh264. unfold bind at 1. unfold get_self at 1. unfold bind at 1.
  pose proof (GetFrameRate_world prims W) as Hworld.
  destruct (GetFrameRate prims W) as [r W0]. cbn [fst snd] in Hrate, Hworld. subst r W0.
  unfold bind at 1. rewrite (GetAudioAttributes_attached W path off Haudio).
  cbn [py_truthy]. rewrite Hpath. cbn [negb].
  unfold bind at 1. unfold GetAudioOffsetInSec, bind at 1, lift.
  unfold py_sub. cbn [py_num num_to_float]. rewrite Hfs.
  unfold py_truediv. cbn [num_to_float]. rewrite Hnz.
  unfold bind at 1. rewrite Hcrf. unfold ret at 1.
  unfold bind at 1. rewrite LogOutput_run.
  match goal with
  | |- context [ExecuteFfmpegCommand prims ?cmd ?W0] =>
      destruct (ExecuteFfmpegCommand_run prims cmd W0) as (W' & -> & Htrace & _);
      exists W', cmd
  end.
  split; [reflexivity|]. split; [exact Htrace|]. reflexivity.
Qed.

Lemma audio_seek_offset_formula_witness :
  (exists W' cmd,
      Encodeh264 demo_prims "/out/playblast_temp/shot.%04d.png" "/out/shot.mov" (PInt 24)
        demo_world = (Val tt, W')
      /\ w_trace W' = (w_trace demo_world ++ [CallFfmpeg cmd])%list
      /\ seek_offset cmd
         = Some (PFloat (audio_offset_by_formula 24%float 0%float 24%float)))
  /\ fst (GetAudioOffsetInSec (PInt 24) (PFloat 0%float) 24%float demo_world) = Val 1%float
  /\ fst (GetAudioOffsetInSec (PInt 24) (PInt 0) 24%float demo_world) = Val 1%float.
Proof.
  apply (audio_seek_offset_formula demo_prims demo_world
           "/out/playblast_temp/shot.%04d.png" "/out/shot.mov"
           24 24%float 0%float 24%float "/snd/take.wav" 20).
  - unfold audio_attached.
    split; [vm_compute; discriminate|].
    split; [vm_compute; reflexivity|].
    split; [discriminate|].
    split; vm_compute; reflexivity.
  - vm_compute. reflexivity.
  - vm_compute. reflexivity.
  - vm_compute. reflexivity.
  - vm_compute. reflexivity.
Defined.

(** ** Relations every step of a method keeps *)

Section Preserves.

Context (R : World -> World -> Prop).
Hypothesis R_refl : forall W, R W W.
Hypothesis R_trans : forall W1 W2 W3, R W1 W2 -> R W2 W3 -> R W1 W3.

#[local] Abbreviation preserves := (preserves R).

Lemma preserves_ret {A : Type} (a : A) : preserves (ret a).
Proof. intros W. apply R_refl. Qed.

Lemma preserves_raise {A : Type} (e : PyExn) : preserves (@raise A e).
Proof. intros W. apply R_refl. Qed.

Lemma preserves_lift {A : Type} (r : Res A) : preserves (lift r).
Proof. intros W. apply R_refl. Qed.

Lemma preserves_get_host : preserves get_host.
Proof. intros W. apply R_refl. Qed.

Lemma preserves_get_self : preserves get_self.
Proof. intros W. apply R_refl. Qed.

Lemma preserves_bind {A B : Type} (m : M A) (k : A -> M B) :
  preserves m -> (forall a, preserves (k a)) -> preserves (bind m k).
Proof.
  intros Hm Hk W. unfold bind. specialize (Hm W).
  destruct (m W) as [[a|e] W1]; cbn [snd] in *.
  - eapply R_trans; [exact Hm|apply Hk].
  - exact Hm.
Qed.

Lemma preserves_try {A : Type} (m handler : M A) :
  preserves m -> preserves handler -> preserves (py_try m handler).
Proof.
  intros Hm Hh W. unfold py_try. specialize (Hm W).
  destruct (m W) as [[a|e] W1]; cbn [snd] in *.
  - exact Hm.
  - eapply R_trans; [exact Hm|apply Hh].
Qed.

Lemma preserves_finally {A : Type} (m : M A) (cleanup : M unit) :
  preserves m -> preserves cleanup -> preserves (py_finally m cleanup).
Proof.
  intros Hm Hc W. unfold py_finally. specialize (Hm W).
  destruct (m W) as [r W1]. specialize (Hc W1).
  destruct (cleanup W1) as [[u|e] W2]; cbn [snd] in *;
    eapply R_trans; eassumption.
Qed.

Lemma preserves_when (b : bool) (m : M unit) : preserves m -> preserves (when b m).
Proof. intros Hm. destruct b; [exact Hm|apply preserves_ret]. Qed.

Lemma preserves_if {A : Type} (b : bool) (m1 m2 : M A) :
  preserves m1 -> preserves m2 -> preserves (if b then m1 else m2).
Proof. destruct b; auto. Qed.

Lemma preserves_for_each {A : Type} (l : list A) (body : A -> M unit) :
  (forall x, preserves (body x)) -> preserves (for_each l body).
Proof.
  intros Hb. induction l as [|x l IH]; cbn [for_each].
  - apply preserves_ret.
  - apply preserves_bind; [apply Hb|intros _; exact IH].
Qed.

End Preserves.

Lemma only_files_refl (W : World) : only_files W W.
Proof.
  repeat split.
  - exists (h_fs (w_host W)). destruct (w_host W); reflexivity.
  - exists []. split; [symmetry; apply app_nil_r|reflexivity].
  - exists []. symmetry. apply app_nil_r.
Qed.

Lemma only_files_trans (W1 W2 W3 : World) :
  only_files W1 W2 -> only_files W2 W3 -> only_files W1 W3.
Proof.
  intros ((fs1 & Hh) & Hs & (c1 & Ht & Hc) & (n1 & Hl))
         ((fs2 & Hh') & Hs' & (c2 & Ht' & Hc') & (n2 & Hl')).
  repeat split.
  - exists fs2. rewrite Hh', Hh. reflexivity.
  - congruence.
  - exists (c1 ++ c2)%list. split.
    + rewrite Ht', Ht. symmetry. apply app_assoc.
    + rewrite forallb_app, Hc, Hc'. reflexivity.
  - exists (n1 ++ n2)%list. rewrite Hl', Hl. symmetry. apply app_assoc.
Qed.

Lemma only_files_of_logs (W W' : World) : only_logs W W' -> only_files W W'.
Proof.
  intros (Hh & Hs & Ht & Hl). repeat split; try assumption.
  - exists (h_fs (w_host W)). rewrite Hh. destruct (w_host W); reflexivity.
  - exists []. split; [rewrite Ht; symmetry; apply app_nil_r|reflexivity].
Qed.

Lemma preserves_LogError R (R_logs : forall W W', only_logs W W' -> R W W') Text :
  preserves R (LogError Text).
Proof. intros W. rewrite LogError_run. apply R_logs, only_logs_logged. Qed.

Lemma preserves_LogWarning R (R_logs : forall W W', only_logs W W' -> R W W') Text :
  preserves R (LogWarning Text).
Proof. intros W. rewrite LogWarning_run. apply R_logs, only_logs_logged. Qed.

Lemma preserves_LogOutput R (R_logs : forall W W', only_logs W W' -> R W W') Text :
  preserves R (LogOutput Text).
Proof. intros W. rewrite LogOutput_run. apply R_logs, only_logs_logged. Qed.

(** One step of a proof that a method keeps a relation: the shape of the
    method decides the lemma. *)
Ltac preserve_step R Rrefl Rtrans Rlogs :=
  first
    [ apply (preserves_ret R Rrefl)
    | apply (preserves_raise R Rrefl)
    | apply (preserves_lift R Rrefl)
    | apply (preserves_get_host R Rrefl)
    | apply (preserves_get_self R Rrefl)
    | apply (preserves_LogError R Rlogs)
    | apply (preserves_LogWarning R Rlogs)
    | apply (preserves_LogOutput R Rlogs)
    | apply (preserves_bind R Rtrans); [|intros ?]
    | apply (preserves_try R Rtrans)
    | apply (preserves_finally R Rtrans)
    | apply (preserves_when R Rrefl)
    | apply (preserves_for_each R Rrefl Rtrans); intros ?
    | match goal with
      | |- preserves _ (if ?b then _ else _) => destruct b
      | |- preserves _ (match ?x with _ => _ end) => destruct x
      | |- preserves _ (let '(_, _) := ?x in _) => destruct x
      end ].

Ltac files_step :=
  preserve_step only_files only_files_refl only_files_trans only_files_of_logs.

Ltac logs_step :=
  preserve_step only_logs only_logs_refl only_logs_trans (fun W W' (H : only_logs W W') => H).

Lemma cmds_getAttr_only_logs (attr : string) : preserves only_logs (cmds_getAttr attr).
Proof. unfold cmds_getAttr. repeat logs_step. Qed.

Lemma GetFrameRate_only_logs (prims : Prims) : preserves only_logs (GetFrameRate prims).
Proof. unfold GetFrameRate. repeat logs_step. Qed.

Lemma GetAudioAttributes_only_logs : preserves only_logs GetAudioAttributes.
Proof.
  unfold GetAudioAttributes. repeat first [apply cmds_getAttr_only_logs | logs_step].
Qed.

(** ** The encoding stage touches files only *)

Lemma with_fs_same (h : Host) : with_fs (h_fs h) h = h.
Proof. destruct h; reflexivity. Qed.

Lemma preserves_weaken (R R' : World -> World -> Prop) {A : Type} (m : M A) :
  (forall W W', R W W' -> R' W W') -> preserves R m -> preserves R' m.
Proof. intros HR Hm W. apply HR, Hm. Qed.

Lemma ExecuteFfmpegCommand_only_files (prims : Prims) (Command : list Piece) :
  preserves only_files (ExecuteFfmpegCommand prims Command).
Proof.
  intros W.
  destruct (ExecuteFfmpegCommand_run prims Command W) as (W' & -> & Ht & Hs & Hh & Hl).
  cbn [snd]. repeat split.
  - eexists. exact Hh.
  - exact Hs.
  - exists [CallFfmpeg Command]. split; [exact Ht|reflexivity].
  - exact Hl.
Qed.

Lemma Encodeh264_only_files (prims : Prims) (SourcePath OutputPath : string)
    (StartFrame : PyVal) :
  preserves only_files (Encodeh264 prims SourcePath OutputPath StartFrame).
Proof.
  unfold Encodeh264, GetAudioOffsetInSec.
  repeat first
    [ apply ExecuteFfmpegCommand_only_files
    | apply (preserves_weaken only_logs only_files _ only_files_of_logs);
      first [apply GetFrameRate_only_logs | apply GetAudioAttributes_only_logs]
    | files_step ].
Qed.

(** The loop of [RemoveTempDir] over the listed frames. *)
Lemma remove_loop_run (prims : Prims) (dir : string) (entries : list string) (W : World) :
  exists W',
    for_each entries
      (fun i =>
         let* h := get_host in
         record (CallQDirRemove dir i) >>
         put_host (with_fs (qdir_remove prims (h_fs h) dir i) h)) W = (Val tt, W')
    /\ w_host W'
       = with_fs (fold_left (fun fs i => qdir_remove prims fs dir i) entries (h_fs (w_host W)))
           (w_host W)
    /\ w_self W' = w_self W
    /\ w_log W' = w_log W
    /\ w_trace W' = (w_trace W ++ map (CallQDirRemove dir) entries)%list.
Proof.
  revert W. induction entries as [|i rest IH]; intros W; cbn [for_each fold_left map].
  - exists W. split; [reflexivity|]. rewrite with_fs_same, app_nil_r. auto.
  - unfold bind at 1. unfold bind at 1, get_host at 1, bind at 1, record at 1, put_host at 1.
    cbn [w_host w_self w_log w_trace].
    match goal with
    | |- context [for_each rest ?body ?W0] => destruct (IH W0) as (W' & -> & Hh & Hs & Hl & Ht)
    end.
    cbn [w_host w_self w_log w_trace h_fs with_fs] in Hh, Hs, Hl, Ht.
    exists W'. split; [reflexivity|]. rewrite Hh, Hs, Hl, Ht, <- app_assoc.
    repeat split.
Qed.

Lemma RemoveTempDir_run (prims : Prims) (dir : string) (W : World) :
  exists W',
    RemoveTempDir prims dir W = (Val tt, W')
    /\ w_host W'
       = with_fs (snd (qdir_rmdir prims (fs_after_removals prims (h_fs (w_host W)) dir) dir))
           (w_host W)
    /\ w_self W' = w_self W
    /\ w_trace W'
       = (w_trace W ++ map (CallQDirRemove dir) (qdir_entryList prims (h_fs (w_host W)) dir)
            ++ [CallQDirRmdir dir])%list
    /\ w_log W'
       = (w_log W ++
          if temp_dir_removed prims (h_fs (w_host W)) dir then []
          else warning_lines (_LogToMaya (w_self W))
                 [Txt "Failed to remove temporary directory: "; Fmt (PStr dir)])%list.
Proof.
  unfold RemoveTempDir, temp_dir_removed, fs_after_removals.
  unfold bind at 1, get_host at 1. unfold bind at 1.
  destruct (remove_loop_run prims dir (qdir_entryList prims (h_fs (w_host W)) dir) W)
    as (W1 & -> & Hh & Hs & Hl & Ht).
  unfold bind at 1, get_host at 1. rewrite Hh. cbn [h_fs with_fs].
  destruct (qdir_rmdir prims
              (fold_left (fun fs i => qdir_remove prims fs dir i)
                 (qdir_entryList prims (h_fs (w_host W)) dir) (h_fs (w_host W))) dir)
    as [removed fs'].
  unfold bind at 1, record at 1. unfold bind at 1, put_host at 1.
  cbn [w_host w_self w_log w_trace fst snd].
  destruct removed; cbn [negb when].
  - eexists. split; [reflexivity|]. cbn [w_host w_self w_log w_trace].
    rewrite Hs, Hl, Ht, app_nil_r, <- app_assoc. repeat split.
  - rewrite LogWarning_run. eexists. split; [reflexivity|].
    rewrite logged_host, logged_self, logged_log, logged_trace.
    cbn [w_host w_self w_log w_trace].
    rewrite Hs, Hl, Ht, <- app_assoc. repeat split.
Qed.

Lemma RemoveTempDir_only_files (prims : Prims) (dir : string) :
  preserves only_files (RemoveTempDir prims dir).
Proof.
  intros W. destruct (RemoveTempDir_run prims dir W) as (W' & -> & Hh & Hs & Ht & Hl).
  cbn [snd]. repeat split.
  - eexists. exact Hh.
  - exact Hs.
  - eexists. split; [exact Ht|].
    rewrite forallb_app. apply andb_true_iff. split; [|reflexivity].
    apply forallb_forall. intros c Hc.
    apply in_map_iff in Hc. destruct Hc as (i & <- & _). reflexivity.
  - eexists. exact Hl.
Qed.

Lemma OpenInViewer_run (Path : string) (W : World) :
  exists W' calls,
    OpenInViewer Path W = (Val tt, W')
    /\ w_host W' = w_host W
    /\ w_self W' = w_self W
    /\ w_trace W' = (w_trace W ++ calls)%list
    /\ forallb viewer_call calls = true
    /\ exists new, w_log W' = (w_log W ++ new)%list.
Proof.
  unfold OpenInViewer, bind, get_self, get_host, record.
  destruct (os_path_exists (w_host W) Path); cbn [negb].
  - destruct (if existsb (String.eqb (_ContainerFormat (w_self W))) ["mov"; "mp4"]
              then h_optionVars (w_host W) !! "PlayblastCmdQuicktime" else None)
      as [ExecutablePath|];
      [destruct (String.eqb ExecutablePath ""); cbn [negb]|];
      (eexists; eexists; split; [reflexivity|]; cbn;
       repeat split; exists []; symmetry; apply app_nil_r).
  - rewrite LogError_run. exists (logged (error_lines (_LogToMaya (w_self W))
      [Txt "Failed to open in viewer. File does not exists: "; Fmt (PStr Path)]) W), [].
    split; [reflexivity|]. rewrite logged_host, logged_self, logged_trace, logged_log, app_nil_r.
    repeat split. eexists. reflexivity.
Qed.

Lemma viewer_call_file_call (calls : list HostCall) :
  forallb viewer_call calls = true -> forallb file_call calls = true.
Proof.
  rewrite !forallb_forall. intros H c Hc. specialize (H c Hc).
  destruct c; try discriminate; reflexivity.
Qed.

Lemma OpenInViewer_only_files (Path : string) : preserves only_files (OpenInViewer Path).
Proof.
  intros W. destruct (OpenInViewer_run Path W) as (W' & calls & -> & Hh & Hs & Ht & Hc & Hl).
  cbn [snd]. repeat split.
  - exists (h_fs (w_host W)). rewrite Hh, with_fs_same. reflexivity.
  - exact Hs.
  - exists calls. split; [exact Ht|apply viewer_call_file_call, Hc].
  - exact Hl.
Qed.

Lemma execute_encode_only_files (prims : Prims) (plan : Plan) (ShowInViewer : bool) :
  preserves only_files (execute_encode prims plan ShowInViewer).
Proof.
  unfold execute_encode, RequiresFfmpeg.
  repeat first
    [ apply Encodeh264_only_files
    | apply RemoveTempDir_only_files
    | apply OpenInViewer_only_files
    | files_step ].
Qed.

(** ** The temporary directory *)

Lemma bind_val {A B : Type} (m : M A) (k : A -> M B) (W : World) (a : A) (W' : World) :
  m W = (Val a, W') -> bind m k W = k a W'.
Proof. intros H. unfold bind. rewrite H. reflexivity. Qed.

Lemma bind_raise {A B : Type} (m : M A) (k : A -> M B) (W : World) (e : PyExn) (W' : World) :
  m W = (Raise e, W') -> bind m k W = (Raise e, W').
Proof. intros H. unfold bind. rewrite H. reflexivity. Qed.

(** The end of the encoding stage.  With a container that needs the
    encoder, once the encoder has run to its end (with whatever exit
    code) or the encoder is not supported, [RemoveTempDir] is run on the
    temporary directory: every listed frame is removed and [rmdir] is
    called once.  When [rmdir] fails, the only thing added to the log is
    a warning; in both cases the stage returns normally and goes on to
    the viewer. *)
Lemma temp_dir_removed_after_encoder_stage (prims : Prims) (plan : Plan)
    (ShowInViewer : bool) (W W1 : World) :
  requires_ffmpeg (w_self W) = true ->
  encoder_stage_ended prims plan W W1 ->
  let dir := p_PlayblastOutputDir plan in
  exists W2 W' calls,
    RemoveTempDir prims dir W1 = (Val tt, W2)
    /\ w_trace W2
       = (w_trace W1 ++ map (CallQDirRemove dir) (qdir_entryList prims (h_fs (w_host W1)) dir)
            ++ [CallQDirRmdir dir])%list
    /\ h_fs (w_host W2)
       = snd (qdir_rmdir prims (fs_after_removals prims (h_fs (w_host W1)) dir) dir)
    /\ w_log W2
       = (w_log W1 ++
          if temp_dir_removed prims (h_fs (w_host W1)) dir then []
          else warning_lines (_LogToMaya (w_self W1))
                 [Txt "Failed to remove temporary directory: "; Fmt (PStr dir)])%list
    /\ execute_encode prims plan ShowInViewer W = (Val tt, W')
    /\ w_host W' = w_host W2
    /\ w_trace W' = (w_trace W2 ++ calls)%list
    /\ forallb viewer_call calls = true.
Proof.
  intros Hneeds Hended dir.
  destruct (RemoveTempDir_run prims dir W1) as (W2 & Hrm & Hh & _ & Ht & Hl).
  unfold encoder_stage_ended in Hended.
  unfold execute_encode.
  erewrite bind_val by reflexivity.
  erewrite bind_val by reflexivity.
  unfold requires_ffmpeg in Hneeds. rewrite Hneeds.
  fold (source_path plan). fold dir.
  destruct (String.eqb (_Encoder (w_self W)) "h264").
  - erewrite bind_val by exact Hended.
    erewrite bind_val by exact Hrm.
    destruct ShowInViewer; cbn [when].
    + destruct (OpenInViewer_run (p_OutputPath plan) W2)
        as (W' & calls & Hv & Hvh & _ & Hvt & Hvc & _).
      exists W2, W', calls. rewrite Hh at 1. cbn [h_fs with_fs].
      repeat split; assumption.
    + exists W2, W2, []. rewrite Hh at 1. cbn [h_fs with_fs]. rewrite app_nil_r.
      repeat split; assumption.
  - erewrite bind_val by exact Hended.
    exists W2, W2, []. rewrite Hh at 1. cbn [h_fs with_fs]. rewrite app_nil_r.
    repeat split; assumption.
Qed.

(** ** The viewport around the capture *)

Lemma GetViewportPanel_active (W : World) (c : string) :
  h_panels (w_host W) !! h_focus (w_host W) = Some c ->
  GetViewportPanel W = (Val (Some (h_focus (w_host W))), W).
Proof.
  intros H. unfold GetViewportPanel, cmds_modelPanel_modelEditor, bind, get_host, py_try, ret.
  rewrite H. reflexivity.
Qed.

Lemma GetActiveCamera_active (W : World) (c : string) :
  h_panels (w_host W) !! h_focus (w_host W) = Some c ->
  String.eqb (h_focus (w_host W)) "" = false ->
  GetActiveCamera W = (Val (Some c), W).
Proof.
  intros H Hne. unfold GetActiveCamera.
  erewrite bind_val by (eapply GetViewportPanel_active; eassumption).
  cbn [opt_truthy str_of_opt]. rewrite Hne. cbn [negb].
  unfold cmds_modelPanel_camera, bind, get_host, ret. rewrite H. reflexivity.
Qed.

Lemma SetActiveCamera_active (W : World) (c : string) (camera : option string) :
  h_panels (w_host W) !! h_focus (w_host W) = Some c ->
  String.eqb (h_focus (w_host W)) "" = false ->
  SetActiveCamera camera W
  = (Val tt,
     mkWorld (with_panels (fun ps => <[h_focus (w_host W) := str_of_opt camera]> ps) (w_host W))
       (w_self W) (w_log W) (w_trace W ++ [CallLookThrough camera (h_focus (w_host W))])).
Proof.
  intros H Hne. unfold SetActiveCamera.
  erewrite bind_val by (eapply GetViewportPanel_active; eassumption).
  cbn [opt_truthy str_of_opt]. rewrite Hne. cbn [negb].
  unfold mel_lookThroughModelPanel, bind, get_host, record, put_host. rewrite H. reflexivity.
Qed.

Lemma cmds_modelEditor_query_run (editor flag : string) (W : World) :
  cmds_modelEditor_query editor flag W
  = (match h_editors (w_host W) !! editor with
     | Some flags =>
         match flags !! flag with
         | Some v => Val v
         | None => Raise TypeError
         end
     | None => Raise (RuntimeError "modelEditor: Object not found")
     end, W).
Proof.
  unfold cmds_modelEditor_query, bind, get_host, ret, raise.
  destruct (h_editors (w_host W) !! editor) as [flags|]; [|reflexivity].
  destruct (flags !! flag); reflexivity.
Qed.

(** The query loop leaves the world alone and, when it comes through,
    returns the editor's value of every item's flag, in order. *)
Lemma query_flags_run (panel : string) (items : list (string * string)) (acc : list PyVal)
    (W : World) :
  (exists vs,
      query_flags panel items acc W = (Val (PList (acc ++ vs)), W)
      /\ Forall2 (fun item v => flag_of (w_host W) panel (snd item) = Some v) items vs)
  \/ (exists e, query_flags panel items acc W = (Raise e, W)).
Proof.
  revert acc. induction items as [|Item rest IH]; intros acc; cbn [query_flags].
  - left. exists []. rewrite app_nil_r. split; [reflexivity|constructor].
  - unfold bind. rewrite !cmds_modelEditor_query_run.
    destruct (h_editors (w_host W) !! panel) as [flags|] eqn:He;
      [|right; eexists; reflexivity].
    destruct (flags !! snd Item) as [v|] eqn:Hv; [|right; eexists; reflexivity].
    destruct (IH (acc ++ [v])%list) as [(vs & Hq & Hall) | (e & Hq)].
    + left. exists (v :: vs). rewrite Hq, <- app_assoc. split; [reflexivity|].
      constructor; [unfold flag_of; rewrite He; exact Hv|exact Hall].
    + right. exists e. exact Hq.
Qed.

Lemma fill_flags_other (v : PyVal) (items : list (string * string)) :
  forall (i : nat) (m m' : gmap string PyVal) (k : string),
    fill_flags v items i m = Val m' ->
    k ∉ map snd items ->
    m' !! k = m !! k.
Proof.
  induction items as [|Item rest IH]; intros i m m' k Hfill Hk; cbn [fill_flags] in Hfill.
  - injection Hfill as <-. reflexivity.
  - destruct (py_getitem v i) as [x|e]; [|discriminate].
    cbn [map] in Hk. apply not_elem_of_cons in Hk. destruct Hk as [Hne Hk].
    rewrite (IH _ _ _ k Hfill Hk).
    apply lookup_insert_ne. congruence.
Qed.

(** With distinct flag names, the map built from a list holds, for the
    item at position [j], the list's value at position [i + j]. *)
Lemma fill_flags_lookup (l : list PyVal) (items : list (string * string)) :
  NoDup (map snd items) ->
  forall (i : nat) (m m' : gmap string PyVal),
    fill_flags (PList l) items i m = Val m' ->
    forall (j : nat) (item : string * string),
      items !! j = Some item -> m' !! snd item = l !! (i + j)%nat /\ is_Some (l !! (i + j)%nat).
Proof.
  induction items as [|Item rest IH]; intros Hnd i m m' Hfill j item Hj.
  - discriminate.
  - cbn [fill_flags] in Hfill. cbn [py_getitem] in Hfill.
    destruct (l !! i) as [x|] eqn:Hx; [|discriminate].
    cbn [map] in Hnd. apply NoDup_cons in Hnd. destruct Hnd as [Hfresh Hnd].
    destruct j as [|j].
    + injection Hj as <-. rewrite Nat.add_0_r, Hx.
      rewrite (fill_flags_other _ _ _ _ _ _ Hfill Hfresh).
      split; [apply lookup_insert_eq|eauto].
    + cbn in Hj. replace (i + S j)%nat with (S i + j)%nat by lia.
      exact (IH Hnd _ _ _ Hfill j item Hj).
Qed.

Lemma VIEWPORT_VISIBILITY_LOOKUP_NoDup : NoDup (map snd VIEWPORT_VISIBILITY_LOOKUP).
Proof. apply (bool_decide_unpack _). vm_compute. reflexivity. Qed.

Lemma GetViewportVisibility_active (W : World) (c : string) :
  h_panels (w_host W) !! h_focus (w_host W) = Some c ->
  String.eqb (h_focus (w_host W)) "" = false ->
  (exists vs,
      GetViewportVisibility W = (Val (PList vs), W)
      /\ Forall2 (fun item v => flag_of (w_host W) (h_focus (w_host W)) (snd item) = Some v)
           VIEWPORT_VISIBILITY_LOOKUP vs)
  \/ (exists W', GetViewportVisibility W = (Val PNone, W')).
Proof.
  intros H Hne. unfold GetViewportVisibility.
  erewrite bind_val by (eapply GetViewportPanel_active; eassumption).
  cbn [opt_truthy str_of_opt]. rewrite Hne. cbn [negb]. unfold py_try.
  destruct (query_flags_run (h_focus (w_host W)) VIEWPORT_VISIBILITY_LOOKUP [] W)
    as [(vs & -> & Hall) | (e & ->)].
  - left. exists vs. split; [reflexivity|exact Hall].
  - right. erewrite bind_val by apply LogError_run. eexists. reflexivity.
Qed.

Lemma CreateViewportVisibilityFlags_None (W : World) :
  CreateViewportVisibilityFlags PNone W = (Raise TypeError, W).
Proof. reflexivity. Qed.

Lemma Forall2_lookup_item {A B : Type} (P : A -> B -> Prop) (l : list A) (k : list B) :
  Forall2 P l k ->
  forall x, x ∈ l -> exists j y, l !! j = Some x /\ k !! j = Some y /\ P x y.
Proof.
  intros Hall x Hx. apply list_elem_of_lookup in Hx. destruct Hx as [j Hj].
  destruct (Forall2_lookup_l P l k j x Hall Hj) as (y & Hy & HP).
  exists j, y. auto.
Qed.

Lemma cmds_modelEditor_edit_run (editor : string) (flags : gmap string PyVal) (W : World) :
  cmds_modelEditor_edit editor flags W
  = match h_editors (w_host W) !! editor with
    | Some old =>
        (Val tt,
         mkWorld (with_editors (fun es => <[editor := flags ∪ old]> es) (w_host W))
           (w_self W) (w_log W) (w_trace W ++ [CallModelEditorEdit editor flags]))
    | None => (Raise (RuntimeError "modelEditor: Object not found"), W)
    end.
Proof.
  unfold cmds_modelEditor_edit, bind, get_host, record, put_host, raise.
  destruct (h_editors (w_host W) !! editor); reflexivity.
Qed.

Lemma cmds_getAttr_run (attr : string) (W : World) :
  cmds_getAttr attr W
  = (match h_attrs (w_host W) !! attr with
     | Some v => Val v
     | None => Raise ValueError
     end, W).
Proof.
  unfold cmds_getAttr, bind, get_host, ret, raise.
  destruct (h_attrs (w_host W) !! attr); reflexivity.
Qed.

Lemma cmds_setAttr_run (attr : string) (v : PyVal) (W : World) :
  cmds_setAttr attr v W
  = match h_attrs (w_host W) !! attr with
    | Some _ =>
        (Val tt,
         mkWorld (with_attrs (fun a => <[attr := v]> a) (w_host W))
           (w_self W) (w_log W) (w_trace W ++ [CallSetAttr attr v]))
    | None => (Raise (RuntimeError "setAttr: No object matches name"), W)
    end.
Proof.
  unfold cmds_setAttr, bind, get_host, record, put_host, raise.
  destruct (h_attrs (w_host W) !! attr); reflexivity.
Qed.

(** What a successful third part of [execute] tells about the snapshot
    and the world it leaves. *)
Lemma execute_acquire_inv (Overscan : bool) (W1 : World) (snap : Snapshot) (W2 : World)
    (c0 : string) :
  h_panels (w_host W1) !! h_focus (w_host W1) = Some c0 ->
  String.eqb (h_focus (w_host W1)) "" = false ->
  execute_acquire (h_focus (w_host W1)) Overscan W1 = (Val (Some snap), W2) ->
  s_OriginalCamera snap = Some c0
  /\ s_ModelEditor snap = h_focus (w_host W1)
  /\ (forall item, item ∈ VIEWPORT_VISIBILITY_LOOKUP ->
        s_OriginVisibilityFlags snap !! snd item
        = flag_of (w_host W1) (h_focus (w_host W1)) (snd item)
        /\ is_Some (flag_of (w_host W1) (h_focus (w_host W1)) (snd item)))
  /\ (Overscan = false ->
        h_attrs (w_host W1) !! s_OverscanAttr snap = Some (s_OrigOverscan snap))
  /\ h_focus (w_host W2) = h_focus (w_host W1)
  /\ is_Some (h_panels (w_host W2) !! h_focus (w_host W1))
  /\ is_Some (h_editors (w_host W2) !! h_focus (w_host W1))
  /\ (Overscan = false -> is_Some (h_attrs (w_host W2) !! s_OverscanAttr snap))
  /\ w_self W2 = w_self W1.
Proof.
  intros Hpanel Hne H. unfold execute_acquire in H.
  erewrite bind_val in H by reflexivity.
  erewrite bind_val in H by (eapply GetActiveCamera_active; eassumption).
  erewrite bind_val in H by reflexivity.
  set (Camera := if negb (opt_truthy (_Camera (w_self W1))) then Some c0
                 else _Camera (w_self W1)) in H.
  destruct (opt_in Camera (h_cameras (w_host W1))) eqn:Hcam; cbn [negb] in H.
  2: { erewrite bind_val in H by apply LogError_run. discriminate H. }
  erewrite bind_val in H by (eapply SetActiveCamera_active; eassumption).
  set (W1a := mkWorld _ _ _ _) in H.
  assert (Hpanel_a : h_panels (w_host W1a) !! h_focus (w_host W1a) = Some (str_of_opt Camera))
    by apply lookup_insert_eq.
  assert (Hne_a : String.eqb (h_focus (w_host W1a)) "" = false) by exact Hne.
  destruct (GetViewportVisibility_active W1a _ Hpanel_a Hne_a)
    as [(vs & Hvis & Hall) | (W' & Hvis)].
  2: { erewrite bind_val in H by exact Hvis.
       erewrite bind_raise in H by apply CreateViewportVisibilityFlags_None.
       discriminate H. }
  erewrite bind_val in H by exact Hvis.
  unfold CreateViewportVisibilityFlags at 1 in H. unfold lift at 1 in H.
  destruct (fill_flags (PList vs) VIEWPORT_VISIBILITY_LOOKUP 0 ∅) as [OriginFlags|e] eqn:Hfill.
  2: { erewrite bind_raise in H by reflexivity. discriminate H. }
  erewrite bind_val in H by reflexivity.
  assert (Hwanted : exists wanted, GetVisibility W1a = (Val wanted, W1a)).
  { unfold GetVisibility. erewrite bind_val by reflexivity.
    destruct (py_truthy (_Visibility (w_self W1a))); cbn [negb];
      eexists; [reflexivity|exact Hvis]. }
  destruct Hwanted as (wanted & Hwanted).
  erewrite bind_val in H by exact Hwanted.
  unfold CreateViewportVisibilityFlags at 1 in H. unfold lift at 1 in H.
  destruct (fill_flags wanted VIEWPORT_VISIBILITY_LOOKUP 0 ∅) as [PlayFlags|e] eqn:Hplay.
  2: { erewrite bind_raise in H by reflexivity. discriminate H. }
  erewrite bind_val in H by reflexivity.
  assert (Heditor : cmds_modelPanel_modelEditor (h_focus (w_host W1)) W1a
                    = (Val (h_focus (w_host W1)), W1a)).
  { unfold cmds_modelPanel_modelEditor, bind, get_host, ret.
    change (h_focus (w_host W1)) with (h_focus (w_host W1a)). rewrite Hpanel_a. reflexivity. }
  erewrite bind_val in H by exact Heditor.
  unfold SetViewportVisibility in H.
  destruct (h_editors (w_host W1a) !! h_focus (w_host W1)) as [fl|] eqn:Hfl.
  2: { erewrite bind_raise in H by (rewrite cmds_modelEditor_edit_run, Hfl; reflexivity).
       discriminate H. }
  erewrite bind_val in H by (rewrite cmds_modelEditor_edit_run, Hfl; reflexivity).
  set (W1b := mkWorld _ _ _ _) in H.
  assert (Hflags : forall item, item ∈ VIEWPORT_VISIBILITY_LOOKUP ->
            OriginFlags !! snd item = flag_of (w_host W1) (h_focus (w_host W1)) (snd item)
            /\ is_Some (flag_of (w_host W1) (h_focus (w_host W1)) (snd item))).
  { intros item Hitem.
    destruct (Forall2_lookup_item _ _ _ Hall item Hitem) as (j & v & Hj & Hv & Hflag).
    destruct (fill_flags_lookup vs VIEWPORT_VISIBILITY_LOOKUP VIEWPORT_VISIBILITY_LOOKUP_NoDup
                0 ∅ OriginFlags Hfill j item Hj) as [Hlook _].
    rewrite Hlook. cbn [Nat.add]. rewrite Hv.
    change (flag_of (w_host W1a) (h_focus (w_host W1a)) (snd item) = Some v) in Hflag.
    change (flag_of (w_host W1a)) with (flag_of (w_host W1)) in Hflag.
    change (h_focus (w_host W1a)) with (h_focus (w_host W1)) in Hflag.
    rewrite Hflag. eauto. }
  destruct Overscan; cbn [negb] in H.
  - erewrite bind_val in H by reflexivity. unfold ret in H.
    injection H as <- <-. cbn.
    split; [reflexivity|]. split; [reflexivity|]. split; [exact Hflags|].
    split; [discriminate|]. split; [reflexivity|].
    split; [rewrite lookup_insert_eq; eauto|].
    split; [rewrite lookup_insert_eq; eauto|].
    split; [discriminate|reflexivity].
  - destruct (h_attrs (w_host W1b) !! (str_of_opt Camera +:+ ".overscan")) as [v0|] eqn:Hattr.
    2: { erewrite bind_raise in H
           by (erewrite bind_raise; [reflexivity|rewrite cmds_getAttr_run, Hattr; reflexivity]).
         discriminate H. }
    erewrite bind_val in H
      by (erewrite bind_val by (rewrite cmds_getAttr_run, Hattr; reflexivity);
          erewrite bind_val by (rewrite cmds_setAttr_run, Hattr; reflexivity);
          reflexivity).
    unfold ret in H. injection H as <- <-. cbn.
    split; [reflexivity|]. split; [reflexivity|]. split; [exact Hflags|].
    split; [intros _; exact Hattr|]. split; [reflexivity|].
    split; [rewrite lookup_insert_eq; eauto|].
    split; [rewrite lookup_insert_eq; eauto|].
    split; [intros _; rewrite lookup_insert_eq; eauto|reflexivity].
Qed.

Lemma execute_restore_run (Overscan : bool) (snap : Snapshot) (W : World) :
  String.eqb (h_focus (w_host W)) "" = false ->
  is_Some (h_panels (w_host W) !! h_focus (w_host W)) ->
  s_ModelEditor snap = h_focus (w_host W) ->
  is_Some (h_editors (w_host W) !! h_focus (w_host W)) ->
  (Overscan = false -> is_Some (h_attrs (w_host W) !! s_OverscanAttr snap)) ->
  exists W3 flags,
    execute_restore Overscan snap W = (Val tt, W3)
    /\ h_focus (w_host W3) = h_focus (w_host W)
    /\ h_panels (w_host W3) !! h_focus (w_host W) = Some (str_of_opt (s_OriginalCamera snap))
    /\ h_editors (w_host W3) !! h_focus (w_host W)
       = Some (s_OriginVisibilityFlags snap ∪ flags)
    /\ (Overscan = false ->
          h_attrs (w_host W3) !! s_OverscanAttr snap = Some (s_OrigOverscan snap))
    /\ w_trace W3 = (w_trace W ++ restore_calls Overscan (h_focus (w_host W)) snap)%list
    /\ w_self W3 = w_self W
    /\ w_log W3 = w_log W.
Proof.
  intros Hne [c Hpanel] Heditor [fl Hfl] Hattr.
  unfold execute_restore, restore_calls. rewrite Heditor.
  destruct Overscan; cbn [negb when].
  - erewrite bind_val by reflexivity.
    erewrite bind_val by (eapply SetActiveCamera_active; eassumption).
    unfold SetViewportVisibility. rewrite cmds_modelEditor_edit_run.
    cbn [w_host with_panels h_editors]. rewrite Hfl.
    eexists. exists fl. split; [reflexivity|]. cbn.
    rewrite !lookup_insert_eq, <- app_assoc.
    repeat split. discriminate.
  - destruct (Hattr eq_refl) as [v Hv].
    erewrite bind_val by (rewrite cmds_setAttr_run, Hv; reflexivity).
    erewrite bind_val.
    2: { eapply SetActiveCamera_active; cbn [w_host with_attrs h_panels h_focus]; eassumption. }
    unfold SetViewportVisibility. rewrite cmds_modelEditor_edit_run.
    cbn [w_host with_panels with_attrs h_editors h_focus]. rewrite Hfl.
    eexists. exists fl. split; [reflexivity|]. cbn.
    rewrite !lookup_insert_eq, <- !app_assoc.
    repeat split.
Qed.

Lemma execute_capture_run (prims : Prims) (Options : PlayblastOptions) (Overscan : bool)
    (snap : Snapshot) (W : World) :
  capture_keeps_viewport prims ->
  String.eqb (h_focus (w_host W)) "" = false ->
  is_Some (h_panels (w_host W) !! h_focus (w_host W)) ->
  s_ModelEditor snap = h_focus (w_host W) ->
  is_Some (h_editors (w_host W) !! h_focus (w_host W)) ->
  (Overscan = false -> is_Some (h_attrs (w_host W) !! s_OverscanAttr snap)) ->
  exists PlayblastFailed W3 flags,
    execute_capture prims Options Overscan snap W = (Val PlayblastFailed, W3)
    /\ h_panels (w_host W3) !! h_focus (w_host W) = Some (str_of_opt (s_OriginalCamera snap))
    /\ h_editors (w_host W3) !! h_focus (w_host W)
       = Some (s_OriginVisibilityFlags snap ∪ flags)
    /\ (Overscan = false ->
          h_attrs (w_host W3) !! s_OverscanAttr snap = Some (s_OrigOverscan snap))
    /\ w_trace W3
       = (w_trace W ++ [CallPlayblast Options]
            ++ restore_calls Overscan (h_focus (w_host W)) snap)%list
    /\ w_self W3 = w_self W
    /\ (PlayblastFailed = true -> error_reported W W3).
Proof.
  intros Hkeeps Hne Hpanel Heditor Hfl Hattr.
  destruct (Hkeeps Options (w_host W)) as (Hfocus & Hpanels & Heditors & Hattrs).
  unfold execute_capture, py_finally, py_try.
  unfold bind at 1. unfold playblast at 1.
  destruct (cmds_playblast prims Options (w_host W)) as [r h3]. cbn [snd] in *.
  destruct r as [[]|e].
  - unfold ret at 1.
    match goal with
    | |- context [execute_restore Overscan snap ?Wx] =>
        destruct (execute_restore_run Overscan snap Wx)
          as (W3 & flags & -> & Hf3 & Hp3 & He3 & Ha3 & Ht3 & Hs3 & Hl3);
        cbn [w_host]; rewrite ?Hfocus; auto
    end.
    cbn [w_host w_self w_log w_trace] in *. rewrite Hfocus in *.
    exists false, W3, flags. rewrite Ht3, <- app_assoc.
    repeat split; try assumption. discriminate.
  - erewrite bind_val by apply LogError_run. unfold ret at 1.
    match goal with
    | |- context [execute_restore Overscan snap ?Wx] =>
        destruct (execute_restore_run Overscan snap Wx)
          as (W3 & flags & -> & Hf3 & Hp3 & He3 & Ha3 & Ht3 & Hs3 & Hl3);
        rewrite ?logged_host; cbn [w_host]; rewrite ?Hfocus; auto
    end.
    rewrite ?logged_host, ?logged_self, ?logged_log, ?logged_trace in *.
    cbn [w_host w_self w_log w_trace] in *. rewrite Hfocus in *.
    exists true, W3, flags. rewrite Ht3, <- app_assoc.
    repeat split; try assumption.
    intros _. eexists. split; [exact Hl3|apply error_lines_report].
Qed.

Lemma PresetToResolution_only_logs (v : PyVal) : preserves only_logs (PresetToResolution v).
Proof. unfold PresetToResolution. repeat logs_step. Qed.

Lemma PresetToFrameRange_only_logs (v : PyVal) : preserves only_logs (PresetToFrameRange v).
Proof. unfold PresetToFrameRange. repeat logs_step. Qed.

Lemma execute_plan_only_logs (prims : Prims) (OutputDir FileName : string) (Padding : Z)
    (ShowOrnaments ShowInViewer Overwrite : bool) :
  preserves only_logs
    (execute_plan prims OutputDir FileName Padding ShowOrnaments ShowInViewer Overwrite).
Proof.
  unfold execute_plan, ResolveOutputDirectoryPath, ResolveOutputFilename, GetProjectDirPath,
    GetSceneName, RequiresFfmpeg, GetResolutionWidthHeight, GetStartEndFrame.
  repeat first
    [ apply PresetToResolution_only_logs
    | apply PresetToFrameRange_only_logs
    | logs_step ].
Qed.

(** X23: whenever [execute] gets as far as the capture (the camera is
    switched, the visibility flags are applied, the overscan is forced
    unless [Overscan] is asked for), then, whether the capture primitive
    returns or raises and whatever happens to the encoding afterwards,
    the viewport ends as it was found: the panel looks through its
    original camera, every flag of the visibility lookup has its
    original value and the overscan attribute has its original value;
    and right after the capture call the restoring calls are issued
    once each (the overscan, the camera, the flags), followed by calls
    of the encoding stage only. *)
Theorem viewport_restored_once_capture_is_reached (prims : Prims) (OutputDir FileName : string)
    (Padding : Z) (Overscan ShowOrnaments ShowInViewer Overwrite : bool)
    (W : World) (plan : Plan) (snap : Snapshot) (W2 : World) :
  capture_keeps_viewport prims ->
  reaches_capture prims OutputDir FileName Padding Overscan ShowOrnaments ShowInViewer
    Overwrite W plan snap W2 ->
  let h := w_host W in
  let W' :=
    snd (execute prims OutputDir FileName Padding Overscan ShowOrnaments ShowInViewer
           Overwrite W) in
  h_panels (w_host W') !! h_focus h = h_panels h !! h_focus h
  /\ (forall item, item ∈ VIEWPORT_VISIBILITY_LOOKUP ->
        flag_of (w_host W') (h_focus h) (snd item) = flag_of h (h_focus h) (snd item))
  /\ (Overscan = false ->
        h_attrs (w_host W') !! s_OverscanAttr snap = h_attrs h !! s_OverscanAttr snap)
  /\ exists after,
       w_trace W'
       = (w_trace W2 ++ [CallPlayblast (p_Options plan)]
            ++ restore_calls Overscan (h_focus h) snap ++ after)%list
       /\ forallb file_call after = true.
Proof.
  intros Hkeeps (panel & W0 & W1 & Hchecks & Hplan & Hacquire). cbv zeta.
  (* the checks passed without a trace *)
  destruct (execute_checks_run OutputDir FileName W) as (W0' & Hrun & _ & _ & Hsame).
  rewrite Hrun in Hchecks.
  destruct (checks_pass (w_self W) (w_host W) OutputDir FileName) eqn:Hpass;
    [|discriminate Hchecks].
  specialize (Hsame eq_refl). subst W0'.
  injection Hchecks as <- <-.
  assert (Hactive : viewport_active (w_host W) = true).
  { unfold checks_pass in Hpass.
    repeat (apply andb_true_iff in Hpass; destruct Hpass as [Hpass ?]). assumption. }
  unfold viewport_active in Hactive.
  destruct (h_panels (w_host W) !! h_focus (w_host W)) as [c0|] eqn:Hpanel; [|discriminate].
  apply negb_true_iff in Hactive.
  (* the plan changes the log only *)
  pose proof (execute_plan_only_logs prims OutputDir FileName Padding ShowOrnaments
                ShowInViewer Overwrite W) as Hlogs.
  rewrite Hplan in Hlogs. cbn [snd] in Hlogs. destruct Hlogs as (Hh1 & _ & _ & _).
  (* the snapshot *)
  rewrite <- Hh1 in Hpanel, Hactive, Hacquire.
  destruct (execute_acquire_inv Overscan W1 snap W2 c0 Hpanel Hactive Hacquire)
    as (Hcam & Hed & Hflags & Hover & Hf2 & Hp2 & He2 & Ha2 & _).
  (* the capture and the restoring calls *)
  rewrite <- Hf2 in Hactive, Hp2, Hed, He2.
  destruct (execute_capture_run prims (p_Options plan) Overscan snap W2 Hkeeps Hactive Hp2 Hed
              He2 Ha2)
    as (failed & W3 & fl3 & Hcapture & Hp3 & He3 & Ha3 & Ht3 & _ & _).
  rewrite Hf2 in *. rewrite Hh1 in *.
  assert (Hexec : execute prims OutputDir FileName Padding Overscan ShowOrnaments ShowInViewer
                    Overwrite W
                  = if failed then (Val tt, W3)
                    else execute_encode prims plan ShowInViewer W3).
  { unfold execute.
    erewrite bind_val by exact Hrun. cbv beta iota.
    erewrite bind_val by exact Hplan. cbv beta iota.
    erewrite bind_val by exact Hacquire. cbv beta iota.
    erewrite bind_val by exact Hcapture.
    destruct failed; reflexivity. }
  assert (Hfiles : only_files W3
            (snd (execute prims OutputDir FileName Padding Overscan ShowOrnaments ShowInViewer
                    Overwrite W))).
  { rewrite Hexec. destruct failed.
    - apply only_files_refl.
    - apply execute_encode_only_files. }
  destruct Hfiles as ((fs & Hh') & _ & (after & Ht' & Hafter) & _).
  rewrite Hh'. cbn [with_fs h_panels h_attrs]. unfold flag_of. cbn [with_fs h_editors].
  split; [rewrite Hp3, Hcam; reflexivity|].
  split.
  { intros item Hitem. rewrite He3.
    destruct (Hflags item Hitem) as [Hsame [v Hv]].
    unfold flag_of in Hsame, Hv.
    rewrite <- Hsame in Hv |- *. rewrite Hv.
    apply lookup_union_Some_l. exact Hv. }
  split.
  { intros Ho. rewrite (Ha3 Ho), <- (Hover Ho). reflexivity. }
  exists after. split; [|exact Hafter].
  rewrite Ht', Ht3, <- !app_assoc. reflexivity.
Qed.

Lemma demo_prims_keep_viewport : capture_keeps_viewport demo_prims.
Proof.
  intros o h. cbn [demo_prims cmds_playblast]. unfold demo_playblast.
  destruct (8 <? o_framePadding o)%Z; cbn [snd with_fs h_focus h_panels h_editors h_attrs];
    repeat split; auto.
Qed.

Lemma viewport_restored_once_capture_is_reached_witness :
  let W := demo_world in
  let snap := acquired (execute_acquire "modelPanel4" false
                          (snd (execute_plan demo_prims "/out" "shot" 9 true true false W))) in
  let W2 := snd (execute_acquire "modelPanel4" false
                   (snd (execute_plan demo_prims "/out" "shot" 9 true true false W))) in
  let W' := snd (execute demo_prims "/out" "shot" 9 false true true false W) in
  h_panels (w_host W') !! h_focus (w_host W) = h_panels (w_host W) !! h_focus (w_host W)
  /\ (forall item, item ∈ VIEWPORT_VISIBILITY_LOOKUP ->
        flag_of (w_host W') (h_focus (w_host W)) (snd item)
        = flag_of (w_host W) (h_focus (w_host W)) (snd item))
  /\ (false = false ->
        h_attrs (w_host W') !! s_OverscanAttr snap = h_attrs (w_host W) !! s_OverscanAttr snap)
  /\ exists after,
       w_trace W'
       = (w_trace W2 ++ [CallPlayblast (p_Options demo_plan_failing)]
            ++ restore_calls false (h_focus (w_host W)) snap ++ after)%list
       /\ forallb file_call after = true.
Proof.
  cbv zeta.
  refine (viewport_restored_once_capture_is_reached demo_prims "/out" "shot" 9 false true true false
            demo_world demo_plan_failing _ _ demo_prims_keep_viewport _).
  exists "modelPanel4", demo_world,
    (snd (execute_plan demo_prims "/out" "shot" 9 true true false demo_world)).
  split; [vm_compute; reflexivity|].
  split; vm_compute; reflexivity.
Defined.

(** ** An unknown time unit *)

(** C4 does not hold of the code: with the scene's time unit set to
    [29.97df], which [GetFrameRate] does not know, [execute] captures,
    restores the viewport and then lets the [RuntimeError] of
    [GetFrameRate] out; no error is logged, and the temporary directory
    with its frame stays behind. *)
Lemma execute_lets_unsupported_frame_rate_escape :
  let out := execute demo_prims "/out" "shot" 4 false true false false demo_world_drop_frame in
  fst out = Raise (RuntimeError "Unsupported frame rate: 29.97df")
  /\ existsb is_error_line (w_log (snd out)) = false
  /\ existsb (fun c => match c with CallPlayblast _ => true | _ => false end)
       (w_trace (snd out)) = true
  /\ existsb (is_rmdir "/out/playblast_temp") (w_trace (snd out)) = false
  /\ os_path_exists (w_host (snd out)) "/out/playblast_temp" = true
  /\ os_path_exists (w_host (snd out)) "/out/playblast_temp/shot.0000.png" = true.
Proof. cbv zeta. repeat (split; [vm_compute; reflexivity|]). vm_compute. reflexivity. Qed.

(** ** What [execute] does to the object and which calls it issues *)

Lemma only_calls_refl (ok : HostCall -> bool) (W : World) : only_calls ok W W.
Proof.
  split; [reflexivity|]. split.
  - exists []. split; [symmetry; apply app_nil_r|reflexivity].
  - exists []. symmetry. apply app_nil_r.
Qed.

Lemma only_calls_trans (ok : HostCall -> bool) (W1 W2 W3 : World) :
  only_calls ok W1 W2 -> only_calls ok W2 W3 -> only_calls ok W1 W3.
Proof.
  intros (Hs & (c1 & Ht & Hc) & (n1 & Hl)) (Hs' & (c2 & Ht' & Hc') & (n2 & Hl')).
  split; [congruence|]. split.
  - exists (c1 ++ c2)%list. split.
    + rewrite Ht', Ht. symmetry. apply app_assoc.
    + rewrite forallb_app, Hc, Hc'. reflexivity.
  - exists (n1 ++ n2)%list. rewrite Hl', Hl. symmetry. apply app_assoc.
Qed.

Lemma only_calls_of_logs (ok : HostCall -> bool) (W W' : World) :
  only_logs W W' -> only_calls ok W W'.
Proof.
  intros (_ & Hs & Ht & Hl). split; [exact Hs|]. split; [|exact Hl].
  exists []. split; [rewrite Ht; symmetry; apply app_nil_r|reflexivity].
Qed.

Lemma only_calls_mono (ok ok' : HostCall -> bool) (W W' : World) :
  (forall c, ok c = true -> ok' c = true) -> only_calls ok W W' -> only_calls ok' W W'.
Proof.
  intros Hsub (Hs & (calls & Ht & Hc) & Hl). split; [exact Hs|]. split; [|exact Hl].
  exists calls. split; [exact Ht|].
  rewrite forallb_forall in *. auto.
Qed.

Lemma only_calls_of_files (W W' : World) : only_files W W' -> only_calls file_call W W'.
Proof. intros (_ & Hs & Ht & Hl). split; [exact Hs|]. split; assumption. Qed.

(** One call that is recorded and changes the scene. *)
Lemma only_calls_one (ok : HostCall -> bool) (c : HostCall) (h : Host) (W : World) :
  ok c = true ->
  only_calls ok W (mkWorld h (w_self W) (w_log W) (w_trace W ++ [c])).
Proof.
  intros Hc. split; [reflexivity|]. split.
  - exists [c]. split; [reflexivity|]. cbn. rewrite Hc. reflexivity.
  - exists []. symmetry. apply app_nil_r.
Qed.

Ltac calls_step ok :=
  preserve_step (only_calls ok) (only_calls_refl ok) (only_calls_trans ok)
    (only_calls_of_logs ok).

Lemma mel_lookThroughModelPanel_calls (ok : HostCall -> bool) (camera : option string)
    (panel : string) :
  ok (CallLookThrough camera panel) = true ->
  preserves (only_calls ok) (mel_lookThroughModelPanel camera panel).
Proof.
  intros Hok W. unfold mel_lookThroughModelPanel, bind, get_host, record, put_host, raise.
  destruct (h_panels (w_host W) !! panel); cbn [snd w_host w_self w_log w_trace].
  - apply (only_calls_one ok _ _ W Hok).
  - apply only_calls_refl.
Qed.

Lemma cmds_modelEditor_edit_calls (ok : HostCall -> bool) (editor : string)
    (flags : gmap string PyVal) :
  ok (CallModelEditorEdit editor flags) = true ->
  preserves (only_calls ok) (cmds_modelEditor_edit editor flags).
Proof.
  intros Hok W. rewrite cmds_modelEditor_edit_run.
  destruct (h_editors (w_host W) !! editor); cbn [snd].
  - apply (only_calls_one ok _ _ W Hok).
  - apply only_calls_refl.
Qed.

Lemma cmds_setAttr_calls (ok : HostCall -> bool) (attr : string) (v : PyVal) :
  ok (CallSetAttr attr v) = true ->
  preserves (only_calls ok) (cmds_setAttr attr v).
Proof.
  intros Hok W. rewrite cmds_setAttr_run.
  destruct (h_attrs (w_host W) !! attr); cbn [snd].
  - apply (only_calls_one ok _ _ W Hok).
  - apply only_calls_refl.
Qed.

Lemma GetViewportPanel_only_logs : preserves only_logs GetViewportPanel.
Proof.
  intros W. destruct (GetViewportPanel_run W) as (W' & -> & Hlogs & _). exact Hlogs.
Qed.

Lemma cmds_modelPanel_camera_only_logs (panel : string) :
  preserves only_logs (cmds_modelPanel_camera panel).
Proof. unfold cmds_modelPanel_camera. repeat logs_step. Qed.

Lemma cmds_modelPanel_modelEditor_only_logs (panel : string) :
  preserves only_logs (cmds_modelPanel_modelEditor panel).
Proof. unfold cmds_modelPanel_modelEditor. repeat logs_step. Qed.

Lemma GetActiveCamera_only_logs : preserves only_logs GetActiveCamera.
Proof.
  unfold GetActiveCamera.
  repeat first
    [ apply GetViewportPanel_only_logs | apply cmds_modelPanel_camera_only_logs | logs_step ].
Qed.

Lemma query_flags_only_logs (panel : string) (items : list (string * string))
    (acc : list PyVal) :
  preserves only_logs (query_flags panel items acc).
Proof.
  intros W. destruct (query_flags_run panel items acc W) as [(vs & -> & _) | (e & ->)];
    apply only_logs_refl.
Qed.

Lemma GetViewportVisibility_only_logs : preserves only_logs GetViewportVisibility.
Proof.
  unfold GetViewportVisibility.
  repeat first
    [ apply GetViewportPanel_only_logs | apply query_flags_only_logs | logs_step ].
Qed.

Lemma GetVisibility_only_logs : preserves only_logs GetVisibility.
Proof.
  unfold GetVisibility. repeat first [ apply GetViewportVisibility_only_logs | logs_step ].
Qed.

Lemma execute_checks_only_logs (OutputDir FileName : string) :
  preserves only_logs (execute_checks OutputDir FileName).
Proof.
  intros W. destruct (execute_checks_run OutputDir FileName W) as (W' & -> & Hlogs & _).
  exact Hlogs.
Qed.

Lemma SetActiveCamera_calls (ok : HostCall -> bool) (camera : option string) :
  (forall c, viewport_call c = true -> ok c = true) ->
  preserves (only_calls ok) (SetActiveCamera camera).
Proof.
  intros Hok. unfold SetActiveCamera.
  repeat first
    [ apply (preserves_weaken only_logs (only_calls ok) _ (only_calls_of_logs ok));
      apply GetViewportPanel_only_logs
    | apply mel_lookThroughModelPanel_calls; apply Hok; reflexivity
    | calls_step ok ].
Qed.

Lemma execute_acquire_calls (ok : HostCall -> bool) (panel : string) (Overscan : bool) :
  (forall c, viewport_call c = true -> ok c = true) ->
  preserves (only_calls ok) (execute_acquire panel Overscan).
Proof.
  intros Hok. unfold execute_acquire, CreateViewportVisibilityFlags, SetViewportVisibility.
  repeat first
    [ apply SetActiveCamera_calls; exact Hok
    | apply cmds_modelEditor_edit_calls; apply Hok; reflexivity
    | apply cmds_setAttr_calls; apply Hok; reflexivity
    | apply (preserves_weaken only_logs (only_calls ok) _ (only_calls_of_logs ok));
      first [ apply GetActiveCamera_only_logs
            | apply GetViewportVisibility_only_logs
            | apply GetVisibility_only_logs
            | apply cmds_modelPanel_modelEditor_only_logs
            | apply cmds_getAttr_only_logs ]
    | calls_step ok ].
Qed.

Lemma playblast_calls (ok : HostCall -> bool) (prims : Prims) (Options : PlayblastOptions) :
  ok (CallPlayblast Options) = true ->
  preserves (only_calls ok) (playblast prims Options).
Proof.
  intros Hok W. unfold playblast.
  destruct (cmds_playblast prims Options (w_host W)) as [r h]. cbn [snd].
  apply (only_calls_one ok _ _ W Hok).
Qed.

Lemma execute_restore_calls (ok : HostCall -> bool) (Overscan : bool) (snap : Snapshot) :
  (forall c, viewport_call c = true -> ok c = true) ->
  preserves (only_calls ok) (execute_restore Overscan snap).
Proof.
  intros Hok. unfold execute_restore, SetViewportVisibility.
  repeat first
    [ apply SetActiveCamera_calls; exact Hok
    | apply cmds_modelEditor_edit_calls; apply Hok; reflexivity
    | apply cmds_setAttr_calls; apply Hok; reflexivity
    | calls_step ok ].
Qed.

Lemma execute_capture_calls (ok : HostCall -> bool) (prims : Prims)
    (Options : PlayblastOptions) (Overscan : bool) (snap : Snapshot) :
  (forall c, stage_call c = true -> ok c = true) ->
  preserves (only_calls ok) (execute_capture prims Options Overscan snap).
Proof.
  intros Hok.
  assert (Hview : forall c, viewport_call c = true -> ok c = true).
  { intros c Hc. apply Hok. unfold stage_call. rewrite Hc. reflexivity. }
  unfold execute_capture.
  repeat first
    [ apply playblast_calls; apply Hok; reflexivity
    | apply execute_restore_calls; exact Hview
    | calls_step ok ].
Qed.

(** [execute] keeps every relation that its stages keep: one that holds
    across the calls of the capture stage and across the encoding. *)
Lemma execute_preserves (R : World -> World -> Prop) (prims : Prims)
    (OutputDir FileName : string) (Padding : Z)
    (Overscan ShowOrnaments ShowInViewer Overwrite : bool) :
  (forall W1 W2 W3, R W1 W2 -> R W2 W3 -> R W1 W3) ->
  (forall W W', only_calls stage_call W W' -> R W W') ->
  (forall plan, preserves R (execute_encode prims plan ShowInViewer)) ->
  preserves R
    (execute prims OutputDir FileName Padding Overscan ShowOrnaments ShowInViewer Overwrite).
Proof.
  intros R_trans R_stage Hencode.
  assert (R_refl : forall W, R W W) by (intros W; apply R_stage, only_calls_refl).
  assert (R_logs : forall W W', only_logs W W' -> R W W')
    by (intros W W' H; apply R_stage, only_calls_of_logs, H).
  unfold execute.
  repeat first
    [ apply Hencode
    | apply (preserves_weaken (only_calls stage_call) R _ R_stage);
      first [ apply execute_capture_calls; auto
            | apply execute_acquire_calls; intros c Hc; unfold stage_call; rewrite Hc;
              reflexivity ]
    | apply (preserves_weaken only_logs R _ R_logs);
      first [ apply execute_checks_only_logs | apply execute_plan_only_logs ]
    | preserve_step R R_refl R_trans R_logs ].
Qed.

(** X1: whatever its arguments, the scene and the behaviour of the
    capture primitive and of the encoder, and whether it returns or
    raises, [execute] leaves every attribute of the object as it was (no
    setting is changed by a capture), removes nothing from the log and
    removes no call from the trace. *)
Theorem execute_keeps_settings (prims : Prims) (OutputDir FileName : string) (Padding : Z)
    (Overscan ShowOrnaments ShowInViewer Overwrite : bool) (W : World) :
  let W' :=
    snd (execute prims OutputDir FileName Padding Overscan ShowOrnaments ShowInViewer
           Overwrite W) in
  w_self W' = w_self W
  /\ (exists calls, w_trace W' = (w_trace W ++ calls)%list)
  /\ (exists new, w_log W' = (w_log W ++ new)%list).
Proof.
  cbv zeta.
  destruct (execute_preserves (only_calls any_call) prims OutputDir FileName Padding Overscan
              ShowOrnaments ShowInViewer Overwrite (only_calls_trans any_call)) with (W := W)
    as (Hs & (calls & Ht & _) & Hl).
  - intros W0 W'. apply only_calls_mono. reflexivity.
  - intros plan W0. eapply only_calls_mono; [|apply only_calls_of_files].
    + reflexivity.
    + apply execute_encode_only_files.
  - split; [exact Hs|]. split; [exists calls; exact Ht|exact Hl].
Qed.

(** X2: with the container [Image] no encoder is involved: whatever
    the encoder path is and whatever else happens, the only calls
    [execute] issues are those of the capture stage (camera, visibility
    flags, overscan, the capture itself); the encoder is never started,
    no frame and no directory is removed, and no viewer is started by
    the engine. *)
Theorem execute_Image_skips_encoder (prims : Prims) (OutputDir FileName : string)
    (Padding : Z) (Overscan ShowOrnaments ShowInViewer Overwrite : bool) (W : World) :
  _ContainerFormat (w_self W) = "Image" ->
  let W' :=
    snd (execute prims OutputDir FileName Padding Overscan ShowOrnaments ShowInViewer
           Overwrite W) in
  exists calls,
    w_trace W' = (w_trace W ++ calls)%list
    /\ forallb stage_call calls = true
    /\ forallb (fun c => negb (file_call c)) calls = true.
Proof.
  intros Himage. cbv zeta.
  pose (R := fun W0 W' : World =>
               _ContainerFormat (w_self W0) = "Image" -> only_calls stage_call W0 W').
  assert (H : preserves R
                (execute prims OutputDir FileName Padding Overscan ShowOrnaments ShowInViewer
                   Overwrite)).
  { apply execute_preserves.
    - intros W1 W2 W3 H12 H23 Him. specialize (H12 Him).
      eapply only_calls_trans; [exact H12|]. apply H23.
      destruct H12 as (Hs & _). rewrite Hs. exact Him.
    - intros W0 W' Hc _. exact Hc.
    - intros plan W0 Him. unfold execute_encode, RequiresFfmpeg, bind, get_self, ret.
      rewrite Him. cbn. apply only_calls_refl. }
  destruct (H W Himage) as (_ & (calls & Ht & Hc) & _).
  exists calls. split; [exact Ht|]. split; [exact Hc|].
  rewrite forallb_forall in *. intros c Hin. specialize (Hc c Hin).
  destruct c; try discriminate; reflexivity.
Qed.

Lemma execute_Image_skips_encoder_witness :
  exists calls,
    w_trace (snd (execute demo_prims "/out" "shot" 4 false true true false demo_world_image))
    = (w_trace demo_world_image ++ calls)%list
    /\ forallb stage_call calls = true
    /\ forallb (fun c => negb (file_call c)) calls = true.
Proof.
  apply (execute_Image_skips_encoder demo_prims "/out" "shot" 4 false true true false
           demo_world_image).
  vm_compute. reflexivity.
Defined.

(** ** The flag map of a visibility vector *)

Lemma fill_flags_tuple (l : list PyVal) (items : list (string * string)) :
  forall (i : nat) (m : gmap string PyVal),
    fill_flags (PTuple l) items i m = fill_flags (PList l) items i m.
Proof.
  induction items as [|Item rest IH]; intros i m; cbn [fill_flags py_getitem].
  - reflexivity.
  - destruct (l !! i); [apply IH|reflexivity].
Qed.

Lemma fill_flags_enough (l : list PyVal) (items : list (string * string)) :
  forall (i : nat) (m : gmap string PyVal),
    (i + length items <= length l)%nat ->
    exists m', fill_flags (PList l) items i m = Val m'.
Proof.
  induction items as [|Item rest IH]; intros i m Hlen; cbn [fill_flags py_getitem].
  - eexists. reflexivity.
  - cbn [length] in Hlen.
    destruct (lookup_lt_is_Some_2 l i) as [x ->]; [lia|].
    apply IH. lia.
Qed.

(** X5: from a list or tuple with at least as many entries as the
    visibility lookup has items (37), [CreateViewportVisibilityFlags]
    builds, without touching anything, the map that gives the flag of
    the item at position [j] the entry at position [j]; the map has no
    other key, so entries past the last item are ignored. *)
Theorem CreateViewportVisibilityFlags_enough (W : World) (v : PyVal) (l : list PyVal) :
  v = PList l \/ v = PTuple l ->
  (length VIEWPORT_VISIBILITY_LOOKUP <= length l)%nat ->
  exists flags,
    CreateViewportVisibilityFlags v W = (Val flags, W)
    /\ (forall j item, VIEWPORT_VISIBILITY_LOOKUP !! j = Some item ->
          flags !! snd item = l !! j /\ is_Some (l !! j))
    /\ (forall k, k ∉ map snd VIEWPORT_VISIBILITY_LOOKUP -> flags !! k = None).
Proof.
  intros Hv Hlen. unfold CreateViewportVisibilityFlags, lift.
  assert (Hlist : fill_flags v VIEWPORT_VISIBILITY_LOOKUP 0 ∅
                  = fill_flags (PList l) VIEWPORT_VISIBILITY_LOOKUP 0 ∅).
  { destruct Hv as [-> | ->]; [reflexivity|apply fill_flags_tuple]. }
  rewrite Hlist.
  destruct (fill_flags_enough l VIEWPORT_VISIBILITY_LOOKUP 0 ∅) as [flags Hfill];
    [cbn [Nat.add]; exact Hlen|].
  rewrite Hfill. exists flags. split; [reflexivity|]. split.
  - intros j item Hj.
    exact (fill_flags_lookup l VIEWPORT_VISIBILITY_LOOKUP VIEWPORT_VISIBILITY_LOOKUP_NoDup
             0 ∅ flags Hfill j item Hj).
  - intros k Hk.
    rewrite (fill_flags_other _ _ _ _ _ k Hfill Hk). apply lookup_empty.
Qed.

Lemma CreateViewportVisibilityFlags_enough_witness :
  exists flags,
    CreateViewportVisibilityFlags (PTuple (replicate 40 (PBool true))) demo_world
    = (Val flags, demo_world)
    /\ (forall j item, VIEWPORT_VISIBILITY_LOOKUP !! j = Some item ->
          flags !! snd item = replicate 40 (PBool true) !! j
          /\ is_Some (replicate 40 (PBool true) !! j))
    /\ (forall k, k ∉ map snd VIEWPORT_VISIBILITY_LOOKUP -> flags !! k = None).
Proof.
  apply (CreateViewportVisibilityFlags_enough demo_world (PTuple (replicate 40 (PBool true)))
           (replicate 40 (PBool true))).
  - right. reflexivity.
  - vm_compute. lia.
Defined.

(** ** The third part of [execute], step by step *)

(** With every flag there, the query loop comes through. *)
Lemma query_flags_complete (panel : string) (items : list (string * string)) (W : World) :
  (forall item, item ∈ items -> is_Some (flag_of (w_host W) panel (snd item))) ->
  forall acc, exists vs,
    query_flags panel items acc W = (Val (PList (acc ++ vs)), W)
    /\ length vs = length items.
Proof.
  induction items as [|Item rest IH]; intros Hall acc; cbn [query_flags].
  - exists []. rewrite app_nil_r. split; reflexivity.
  - unfold bind. rewrite cmds_modelEditor_query_run.
    destruct (Hall Item) as [v Hv]; [left|].
    unfold flag_of in Hv.
    destruct (h_editors (w_host W) !! panel) as [flags|]; [|discriminate].
    rewrite Hv.
    destruct (IH (fun item Hin => Hall item (list_elem_of_further _ _ _ Hin)) (acc ++ [v])%list)
      as (vs & Hq & Hlen).
    exists (v :: vs). rewrite Hq, <- app_assoc. split; [reflexivity|].
    cbn [length]. rewrite Hlen. reflexivity.
Qed.

Lemma GetViewportVisibility_complete (W : World) (c : string) :
  h_panels (w_host W) !! h_focus (w_host W) = Some c ->
  String.eqb (h_focus (w_host W)) "" = false ->
  flags_complete (w_host W) ->
  exists vs,
    GetViewportVisibility W = (Val (PList vs), W)
    /\ length vs = length VIEWPORT_VISIBILITY_LOOKUP.
Proof.
  intros H Hne Hall. unfold GetViewportVisibility.
  erewrite bind_val by (eapply GetViewportPanel_active; eassumption).
  cbn [opt_truthy str_of_opt]. rewrite Hne. cbn [negb]. unfold py_try.
  destruct (query_flags_complete (h_focus (w_host W)) VIEWPORT_VISIBILITY_LOOKUP W Hall [])
    as (vs & -> & Hlen).
  exists vs. split; [reflexivity|exact Hlen].
Qed.

(** The checks of [execute] passed and its plan was made: the scene,
    the object and the trace are as before. *)
Lemma execute_to_plan (prims : Prims) (OutputDir FileName : string) (Padding : Z)
    (Overscan ShowOrnaments ShowInViewer Overwrite : bool) (W : World) (plan : Plan)
    (W1 : World) :
  checks_pass (w_self W) (w_host W) OutputDir FileName = true ->
  execute_plan prims OutputDir FileName Padding ShowOrnaments ShowInViewer Overwrite W
  = (Val (Some plan), W1) ->
  execute prims OutputDir FileName Padding Overscan ShowOrnaments ShowInViewer Overwrite W
  = (let* snap := execute_acquire (h_focus (w_host W)) Overscan in
     match snap with
     | None => ret tt
     | Some snap =>
         let* PlayblastFailed := execute_capture prims (p_Options plan) Overscan snap in
         if PlayblastFailed then ret tt else execute_encode prims plan ShowInViewer
     end) W1
  /\ only_logs W W1
  /\ (exists c, h_panels (w_host W1) !! h_focus (w_host W1) = Some c
                /\ h_panels (w_host W) !! h_focus (w_host W) = Some c)
  /\ String.eqb (h_focus (w_host W1)) "" = false.
Proof.
  intros Hpass Hplan.
  destruct (execute_checks_run OutputDir FileName W) as (W0 & Hrun & _ & _ & Hsame).
  rewrite Hpass in Hrun. rewrite (Hsame Hpass) in Hrun.
  pose proof (execute_plan_only_logs prims OutputDir FileName Padding ShowOrnaments
                ShowInViewer Overwrite W) as Hlogs.
  rewrite Hplan in Hlogs. cbn [snd] in Hlogs.
  split.
  { unfold execute.
    erewrite bind_val by exact Hrun. cbv beta iota.
    erewrite bind_val by exact Hplan. reflexivity. }
  split; [exact Hlogs|].
  destruct Hlogs as (Hh & _).
  assert (Hactive : viewport_active (w_host W) = true).
  { unfold checks_pass in Hpass.
    repeat (apply andb_true_iff in Hpass; destruct Hpass as [Hpass ?]). assumption. }
  unfold viewport_active in Hactive. rewrite Hh.
  destruct (h_panels (w_host W) !! h_focus (w_host W)) as [c0|]; [|discriminate].
  apply negb_true_iff in Hactive.
  split; [exists c0; split; reflexivity|exact Hactive].
Qed.

(** X3: when the camera to capture through (the stored one, or else
    the one of the panel with focus) is not among the scene's cameras,
    as after the stored camera was deleted or renamed, [execute] reports
    an error and returns before anything is touched: no camera switch,
    no flag edit, no capture, no file change. *)
Theorem execute_missing_camera_aborts (prims : Prims) (OutputDir FileName : string)
    (Padding : Z) (Overscan ShowOrnaments ShowInViewer Overwrite : bool) (W : World)
    (plan : Plan) (W1 : World) :
  checks_pass (w_self W) (w_host W) OutputDir FileName = true ->
  execute_plan prims OutputDir FileName Padding ShowOrnaments ShowInViewer Overwrite W
  = (Val (Some plan), W1) ->
  opt_in (capture_camera (w_self W) (w_host W)) (h_cameras (w_host W)) = false ->
  aborted_untouched W
    (execute prims OutputDir FileName Padding Overscan ShowOrnaments ShowInViewer Overwrite W).
Proof.
  intros Hpass Hplan Hcam.
  destruct (execute_to_plan prims OutputDir FileName Padding Overscan ShowOrnaments
              ShowInViewer Overwrite W plan W1 Hpass Hplan)
    as (-> & Hlogs & (c0 & Hpanel1 & Hpanel) & Hne).
  pose proof Hlogs as (Hh & Hs & _).
  unfold capture_camera in Hcam. rewrite Hpanel in Hcam.
  unfold execute_acquire.
  erewrite bind_val by (erewrite bind_val by reflexivity;
                        erewrite bind_val by (eapply GetActiveCamera_active; eassumption);
                        erewrite bind_val by reflexivity;
                        rewrite Hs, Hh, Hcam; cbn [negb];
                        erewrite bind_val by apply LogError_run; reflexivity).
  cbv beta iota. unfold ret.
  apply aborted_of_only_logs.
  - eapply only_logs_trans; [exact Hlogs|apply only_logs_logged].
  - eapply error_reported_after; [exact Hlogs|apply error_reported_logged].
Qed.

Lemma execute_missing_camera_aborts_witness :
  aborted_untouched demo_world_camera_gone
    (execute demo_prims "/out" "shot" 4 false true true false demo_world_camera_gone).
Proof.
  apply (execute_missing_camera_aborts demo_prims "/out" "shot" 4 false true true false
           demo_world_camera_gone
           (acquired_plan (execute_plan demo_prims "/out" "shot" 4 true true false
                             demo_world_camera_gone))
           (snd (execute_plan demo_prims "/out" "shot" 4 true true false
                   demo_world_camera_gone))).
  - vm_compute. reflexivity.
  - vm_compute. reflexivity.
  - vm_compute. reflexivity.
Defined.

(** X4: with a stored visibility vector that is shorter than the
    visibility lookup, [execute] fails half way: the checks pass, the
    camera is switched, the viewport's own flags are read, and then
    building the flag map from the stored vector raises [IndexError].
    The exception leaves [execute] before the [try]/[finally] is
    entered: nothing is logged, nothing is captured, and the panel keeps
    looking through the capture camera, which is not switched back. *)
Theorem execute_short_visibility_leaves_camera (prims : Prims) (OutputDir FileName : string)
    (Padding : Z) (Overscan ShowOrnaments ShowInViewer Overwrite : bool) (W : World)
    (plan : Plan) (W1 : World) (l : list PyVal) :
  checks_pass (w_self W) (w_host W) OutputDir FileName = true ->
  execute_plan prims OutputDir FileName Padding ShowOrnaments ShowInViewer Overwrite W
  = (Val (Some plan), W1) ->
  opt_in (capture_camera (w_self W) (w_host W)) (h_cameras (w_host W)) = true ->
  flags_complete (w_host W) ->
  _Visibility (w_self W) = PList l \/ _Visibility (w_self W) = PTuple l ->
  l <> [] ->
  (length l < length VIEWPORT_VISIBILITY_LOOKUP)%nat ->
  let Camera := capture_camera (w_self W) (w_host W) in
  let panel := h_focus (w_host W) in
  let out :=
    execute prims OutputDir FileName Padding Overscan ShowOrnaments ShowInViewer Overwrite W in
  fst out = Raise IndexError
  /\ w_trace (snd out) = (w_trace W ++ [CallLookThrough Camera panel])%list
  /\ h_panels (w_host (snd out)) !! panel = Some (str_of_opt Camera)
  /\ w_log (snd out) = w_log W1.
Proof.
  intros Hpass Hplan Hcam Hflags Hv Hne Hlen. cbv zeta.
  destruct (execute_to_plan prims OutputDir FileName Padding Overscan ShowOrnaments
              ShowInViewer Overwrite W plan W1 Hpass Hplan)
    as (-> & Hlogs & (c0 & Hpanel1 & Hpanel) & Hne1).
  pose proof Hlogs as (Hh & Hs & Ht & _).
  unfold capture_camera in *. rewrite Hpanel in *.
  set (Camera := if negb (opt_truthy (_Camera (w_self W))) then Some c0
                 else _Camera (w_self W)) in *.
  set (W1a := mkWorld
                (with_panels (fun ps => <[h_focus (w_host W1) := str_of_opt Camera]> ps)
                   (w_host W1))
                (w_self W1) (w_log W1)
                (w_trace W1 ++ [CallLookThrough Camera (h_focus (w_host W1))])).
  assert (Hpanel_a : h_panels (w_host W1a) !! h_focus (w_host W1a) = Some (str_of_opt Camera))
    by apply lookup_insert_eq.
  assert (Hflags_a : flags_complete (w_host W1a)).
  { intros item Hitem. specialize (Hflags item Hitem). rewrite <- Hh in Hflags.
    exact Hflags. }
  destruct (GetViewportVisibility_complete W1a _ Hpanel_a Hne1 Hflags_a) as (vs & Hvis & Hvs).
  destruct (fill_flags_enough vs VIEWPORT_VISIBILITY_LOOKUP 0 ∅) as [origin Horigin];
    [cbn [Nat.add]; lia|].
  assert (Htruthy : py_truthy (_Visibility (w_self W)) = true).
  { destruct Hv as [-> | ->]; destruct l; [congruence|reflexivity|congruence|reflexivity]. }
  assert (Hwanted : GetVisibility W1a = (Val (_Visibility (w_self W)), W1a)).
  { unfold GetVisibility. erewrite bind_val by reflexivity.
    cbn [W1a w_self]. rewrite Hs, Htruthy. reflexivity. }
  assert (Hacquire : execute_acquire (h_focus (w_host W)) Overscan W1 = (Raise IndexError, W1a)).
  { unfold execute_acquire.
    erewrite bind_val by reflexivity.
    erewrite bind_val by (eapply GetActiveCamera_active; eassumption).
    erewrite bind_val by reflexivity.
    rewrite Hs, Hh. fold Camera. rewrite Hcam. cbn [negb].
    erewrite bind_val by (eapply SetActiveCamera_active; eassumption).
    fold W1a.
    erewrite bind_val by exact Hvis.
    erewrite bind_val by (unfold CreateViewportVisibilityFlags, lift; rewrite Horigin;
                          reflexivity).
    erewrite bind_val by exact Hwanted.
    erewrite bind_raise; [reflexivity|].
    unfold CreateViewportVisibilityFlags, lift.
    rewrite (fill_flags_short _ l Hv); [reflexivity|lia|cbn [Nat.add]; exact Hlen]. }
  erewrite bind_raise by exact Hacquire.
  cbn [fst snd]. unfold W1a. cbn [w_trace w_host w_log with_panels h_panels].
  rewrite Ht, Hh.
  split; [reflexivity|]. split; [reflexivity|]. split; [apply lookup_insert_eq|reflexivity].
Qed.

Lemma demo_flags_complete : flags_complete demo_host.
Proof.
  intros item Hitem. unfold flag_of.
  change (h_editors demo_host !! h_focus demo_host) with (Some demo_flags).
  apply list_elem_of_lookup in Hitem. destruct Hitem as [j Hj].
  apply (Forall_lookup_1 (fun item => is_Some (demo_flags !! snd item))
           VIEWPORT_VISIBILITY_LOOKUP j item); [|exact Hj].
  apply (bool_decide_unpack _). vm_compute. reflexivity.
Qed.

Lemma execute_short_visibility_leaves_camera_witness :
  let W := demo_world_short_visibility in
  let out := execute demo_prims "/out" "shot" 4 false true true false W in
  fst out = Raise IndexError
  /\ w_trace (snd out)
     = (w_trace W ++ [CallLookThrough (capture_camera (w_self W) (w_host W))
                        (h_focus (w_host W))])%list
  /\ h_panels (w_host (snd out)) !! h_focus (w_host W)
     = Some (str_of_opt (capture_camera (w_self W) (w_host W)))
  /\ w_log (snd out)
     = w_log (snd (execute_plan demo_prims "/out" "shot" 4 true true false W)).
Proof.
  cbv zeta.
  apply (execute_short_visibility_leaves_camera demo_prims "/out" "shot" 4 false true true
           false demo_world_short_visibility
           (acquired_plan (execute_plan demo_prims "/out" "shot" 4 true true false
                             demo_world_short_visibility))
           (snd (execute_plan demo_prims "/out" "shot" 4 true true false
                   demo_world_short_visibility))
           [PBool true; PBool false; PBool true]).
  - vm_compute. reflexivity.
  - vm_compute. reflexivity.
  - vm_compute. reflexivity.
  - exact demo_flags_complete.
  - left. vm_compute. reflexivity.
  - discriminate.
  - vm_compute. lia.
Defined.

(** ** Setters that come back *)

Lemma returns_ret {A : Type} (a : A) : returns (ret a).
Proof. intros W. eexists. eexists. reflexivity. Qed.

Lemma returns_bind {A B : Type} (m : M A) (k : A -> M B) :
  returns m -> (forall a, returns (k a)) -> returns (bind m k).
Proof.
  intros Hm Hk W. destruct (Hm W) as (a & W' & Ha).
  erewrite bind_val by exact Ha. apply Hk.
Qed.

Lemma returns_try {A : Type} (m handler : M A) : returns handler -> returns (py_try m handler).
Proof.
  intros Hh W. unfold py_try. destruct (m W) as [[a|e] W'].
  - eexists. eexists. reflexivity.
  - apply Hh.
Qed.

Lemma returns_when (b : bool) (m : M unit) : returns m -> returns (when b m).
Proof. intros Hm. destruct b; [exact Hm|apply returns_ret]. Qed.

Lemma returns_LogError (Text : list Piece) : returns (LogError Text).
Proof. intros W. rewrite LogError_run. eexists. eexists. reflexivity. Qed.

Lemma returns_get_host : returns get_host.
Proof. intros W. eexists. eexists. reflexivity. Qed.

Lemma returns_get_self : returns get_self.
Proof. intros W. eexists. eexists. reflexivity. Qed.

(** One step of a proof that a method never raises. *)
Ltac returns_step :=
  first
    [ apply returns_ret
    | apply returns_get_host
    | apply returns_get_self
    | apply returns_LogError
    | apply returns_bind; [|intros ?]
    | apply returns_try
    | apply returns_when
    | match goal with
      | |- returns (if ?b then _ else _) => destruct b
      | |- returns (match ?x with _ => _ end) => destruct x
      end
    | solve [intros ?; eexists; eexists; reflexivity] ].

Lemma SetCamera_returns (Camera : option string) : returns (SetCamera Camera).
Proof. unfold SetCamera. repeat returns_step. Qed.

(** The validation of [SetResolution], whatever the value it is given. *)
Lemma SetResolution_check_returns (WidthHeight : PyVal) :
  returns
    (let* ValidResolution :=
       py_try
         (let* w0 := lift (py_getitem WidthHeight 0) in
          if py_isinstance_int w0 then
            let* w1 := lift (py_getitem WidthHeight 1) in
            ret (py_isinstance_int w1)
          else ret false)
         (ret false) in
     if ValidResolution then
       let* w0 := lift (py_getitem WidthHeight 0) in
       let* neg0 := lift (py_le_zero w0) in
       let* bad :=
         if neg0 then ret true
         else
           let* w1 := lift (py_getitem WidthHeight 1) in
           lift (py_le_zero w1) in
       if bad then
         LogError [Txt "Invalid resolution: "; Fmt WidthHeight;
                   Txt ". Values must be greater than zero."]
       else
         let* Width := lift (py_getitem WidthHeight 0) in
         let* Height := lift (py_getitem WidthHeight 1) in
         set_WidthHeight (PTuple [Width; Height])
     else
       let presets := quoted_presets (dict_keys RESOLUTION_LOOKUP) in
       LogError [Txt "Invalid resoluton: "; Fmt WidthHeight;
                 Txt ". Expected one of [int, int], "; Fmt (PStr (join_comma presets))]).
Proof.
  intros W.
  destruct WidthHeight as [ | b | z | f | s | l | l ];
    [ | | | | destruct s as [|c s']
      | destruct l as [|a [|b l']]; [ | destruct a | destruct a; destruct b ]
      | destruct l as [|a [|b l']]; [ | destruct a | destruct a; destruct b ] ];
    repeat match goal with x : bool |- _ => destruct x end;
    run;
    repeat match goal with
      | |- context [(?z <=? 0)%Z] => destruct (Z.leb_spec z 0); run
      end;
    eexists; eexists; reflexivity.
Qed.

Lemma SetResolution_returns (Resolution : PyVal) : returns (SetResolution Resolution).
Proof.
  unfold SetResolution.
  apply returns_bind; [returns_step|intros _].
  apply returns_bind; [apply returns_try, returns_ret|intros WidthHeight].
  apply SetResolution_check_returns.
Qed.

Lemma SetFrameRange_returns (FrameRange : PyVal) : returns (SetFrameRange FrameRange).
Proof.
  unfold SetFrameRange, ResolveFrameRange.
  apply returns_bind.
  - apply returns_try. repeat returns_step.
  - intros [[StartFrame EndFrame]|]; repeat returns_step.
Qed.

Lemma dict_get_in_keys {V : Type} (d : list (string * V)) (k : string) :
  existsb (String.eqb k) (dict_keys d) = true -> exists v, dict_get d k = Some v.
Proof.
  induction d as [|[k' v] d IH]; cbn [dict_keys map existsb dict_get fst]; [discriminate|].
  rewrite (String.eqb_sym k' k).
  destruct (String.eqb k k'); [eexists; reflexivity|exact IH].
Qed.

Lemma PresetToVisibility_returns (VisibilityPreset : PyVal) :
  py_is_seq VisibilityPreset = false -> returns (PresetToVisibility VisibilityPreset).
Proof.
  intros Hseq W. unfold PresetToVisibility, bind, lift, py_in_keys.
  assert (Hhash : py_hashable VisibilityPreset = true)
    by (destruct VisibilityPreset; try reflexivity; discriminate).
  rewrite Hhash.
  destruct (existsb (py_eq_str VisibilityPreset) (dict_keys VIEWPORT_VISIBILITY_PRESETS))
    eqn:Hknown; cbn [negb].
  - destruct VisibilityPreset as [ | b | z | f | s | l | l ]; try discriminate Hknown.
    destruct (dict_get_in_keys VIEWPORT_VISIBILITY_PRESETS s Hknown) as [names Hnames].
    cbn [dict_get_val]. rewrite Hnames.
    destruct names; eexists; eexists; reflexivity.
  - rewrite LogError_run. eexists. eexists. reflexivity.
Qed.

Lemma SetVisibility_returns (VisibilityData : PyVal) : returns (SetVisibility VisibilityData).
Proof.
  unfold SetVisibility.
  destruct (py_is_seq (if negb (py_truthy VisibilityData) then PList [] else VisibilityData))
    eqn:Hseq; cbn [negb].
  - returns_step.
  - apply returns_bind; [apply PresetToVisibility_returns, Hseq|intros v].
    destruct v; returns_step.
Qed.

Lemma SetEncoding_returns (ContainerFormat Encoder : string) :
  returns (SetEncoding ContainerFormat Encoder).
Proof. unfold SetEncoding. repeat returns_step. Qed.

Lemma Seth264Settings_returns (Quality Preset : string) :
  returns (Seth264Settings Quality Preset).
Proof. unfold Seth264Settings. repeat returns_step. Qed.

Lemma SetImageSettings_returns (Quality : PyVal) :
  is_number Quality = true -> returns (SetImageSettings Quality).
Proof.
  unfold is_number. intros Hnum W.
  unfold SetImageSettings, py_gt_zero, py_le_100.
  destruct (py_num Quality) as [[z|f]|e]; [| |discriminate]; unfold bind, lift, ret.
  - destruct (0 <? z)%Z; [destruct (z <=? 100)%Z|];
      rewrite ?LogError_run; eexists; eexists; reflexivity.
  - destruct (PrimFloat.ltb 0 f); [destruct (PrimFloat.leb f 100)|];
      rewrite ?LogError_run; eexists; eexists; reflexivity.
Qed.

(** X6: no configuration setter ever raises, whatever it is given among
    the values of the model ([None], booleans, integers, floats,
    strings, and lists and tuples of these): [SetCamera],
    [SetResolution], [SetFrameRange] and [SetVisibility] return on
    every argument, [SetEncoding] and [Seth264Settings] on every pair of
    strings, and [SetImageSettings] on every number. *)
Theorem setters_never_raise (c : SetterCall) (W : World) :
  comparable_input c = true ->
  fst (call_setter c W) = Val tt.
Proof.
  intros Hc.
  assert (H : returns (call_setter c)).
  { destruct c; cbn [call_setter].
    - apply SetCamera_returns.
    - apply SetResolution_returns.
    - apply SetFrameRange_returns.
    - apply SetVisibility_returns.
    - apply SetEncoding_returns.
    - apply Seth264Settings_returns.
    - apply SetImageSettings_returns, Hc. }
  destruct (H W) as ([] & W' & ->). reflexivity.
Qed.

Lemma setters_never_raise_witness :
  fst (call_setter (Setter_Resolution (PList [PStr "wide"; PNone])) demo_world) = Val tt.
Proof.
  apply (setters_never_raise (Setter_Resolution (PList [PStr "wide"; PNone])) demo_world).
  reflexivity.
Defined.

(** X7: [SetFrameRange] stores the first two entries of any list or
    tuple as they are, and [GetStartEndFrame] hands them back: the pair
    is not checked in any way (the entries need not be integers, and the
    start need not come before the end), and nothing is logged. *)
Theorem SetFrameRange_roundtrip (W : World) (v : PyVal) (l : list PyVal) (a b : PyVal) :
  v = PList l \/ v = PTuple l ->
  l !! 0%nat = Some a ->
  l !! 1%nat = Some b ->
  let out := (SetFrameRange v >> GetStartEndFrame) W in
  fst out = Val (a, b)
  /\ w_log (snd out) = w_log W
  /\ w_host (snd out) = w_host W.
Proof.
  intros Hv Ha Hb. cbv zeta.
  destruct l as [|a' [|b' l']]; try discriminate.
  cbn in Ha, Hb. injection Ha as ->. injection Hb as ->.
  destruct Hv as [-> | ->]; run; repeat split.
Qed.

Lemma SetFrameRange_roundtrip_witness :
  let out := (SetFrameRange (PTuple [PInt 120; PStr "end"; PNone]) >> GetStartEndFrame)
               demo_world in
  fst out = Val (PInt 120, PStr "end")
  /\ w_log (snd out) = w_log demo_world
  /\ w_host (snd out) = w_host demo_world.
Proof.
  apply (SetFrameRange_roundtrip demo_world (PTuple [PInt 120; PStr "end"; PNone])
           [PInt 120; PStr "end"; PNone] (PInt 120) (PStr "end")).
  - right. reflexivity.
  - reflexivity.
  - reflexivity.
Defined.

(** ** The encoding settings under the setters *)

Lemma keeps_encoding_refl (W : World) : keeps_encoding W W.
Proof. reflexivity. Qed.

Lemma keeps_encoding_trans (W1 W2 W3 : World) :
  keeps_encoding W1 W2 -> keeps_encoding W2 W3 -> keeps_encoding W1 W3.
Proof. unfold keeps_encoding. congruence. Qed.

Lemma keeps_encoding_of_logs (W W' : World) : only_logs W W' -> keeps_encoding W W'.
Proof. intros (_ & Hs & _). unfold keeps_encoding. rewrite Hs. reflexivity. Qed.

Ltac encoding_step :=
  first
    [ preserve_step keeps_encoding keeps_encoding_refl keeps_encoding_trans
        keeps_encoding_of_logs
    | apply (preserves_weaken only_logs keeps_encoding _ keeps_encoding_of_logs);
      first [ apply PresetToResolution_only_logs | apply PresetToFrameRange_only_logs ]
    | solve [intros ?; reflexivity] ].

Lemma SetCamera_keeps_encoding (Camera : option string) :
  preserves keeps_encoding (SetCamera Camera).
Proof. unfold SetCamera. repeat encoding_step. Qed.

Lemma SetResolution_keeps_encoding (Resolution : PyVal) :
  preserves keeps_encoding (SetResolution Resolution).
Proof. unfold SetResolution. repeat encoding_step. Qed.

Lemma SetFrameRange_keeps_encoding (FrameRange : PyVal) :
  preserves keeps_encoding (SetFrameRange FrameRange).
Proof. unfold SetFrameRange, ResolveFrameRange. repeat encoding_step. Qed.

Lemma SetVisibility_keeps_encoding (VisibilityData : PyVal) :
  preserves keeps_encoding (SetVisibility VisibilityData).
Proof. unfold SetVisibility, PresetToVisibility. repeat encoding_step. Qed.

Lemma SetImageSettings_keeps_encoding (Quality : PyVal) :
  preserves keeps_encoding (SetImageSettings Quality).
Proof. unfold SetImageSettings. repeat encoding_step. Qed.

Lemma SetEncoding_consistent (ContainerFormat Encoder : string) (W : World) :
  settings_consistent (w_self W) = true ->
  settings_consistent (w_self (snd (SetEncoding ContainerFormat Encoder W))) = true.
Proof.
  intros H. unfold SetEncoding.
  destruct (dict_get VIDEO_ENCODER_LOOKUP ContainerFormat) as [encoders|] eqn:Hc.
  - destruct (existsb (String.eqb Encoder) encoders) eqn:He; cbn [negb].
    + unfold settings_consistent, encoding_of, encoding_consistent in *.
      unfold bind, set_ContainerFormat, set_Encoder, put_self.
      cbn [snd w_self _ContainerFormat _Encoder _h264Quality _h264Preset].
      rewrite Hc, He. cbn [andb].
      apply andb_true_iff in H. destruct H as [H Hp].
      apply andb_true_iff in H. destruct H as [_ Hq].
      rewrite Hq, Hp. reflexivity.
    + rewrite LogError_run. exact H.
  - rewrite LogError_run. exact H.
Qed.

Lemma Seth264Settings_consistent (Quality Preset : string) (W : World) :
  settings_consistent (w_self W) = true ->
  settings_consistent (w_self (snd (Seth264Settings Quality Preset W))) = true.
Proof.
  intros H. unfold Seth264Settings.
  destruct (existsb (String.eqb Quality) (dict_keys H264_QUALITIES)) eqn:Hq; cbn [negb].
  - destruct (existsb (String.eqb Preset) H264_PRESETS) eqn:Hp; cbn [negb].
    + unfold settings_consistent, encoding_of, encoding_consistent in *.
      unfold bind, set_h264Quality, set_h264Preset, put_self.
      cbn [snd w_self _ContainerFormat _Encoder _h264Quality _h264Preset].
      apply andb_true_iff in H. destruct H as [H _].
      apply andb_true_iff in H. destruct H as [He _].
      rewrite He, Hq, Hp. reflexivity.
    + rewrite LogError_run. exact H.
  - rewrite LogError_run. exact H.
Qed.

Lemma call_setter_consistent (c : SetterCall) (W : World) :
  settings_consistent (w_self W) = true ->
  settings_consistent (w_self (snd (call_setter c W))) = true.
Proof.
  intros H.
  assert (Hkeep : forall m : M unit, preserves keeps_encoding m ->
                    settings_consistent (w_self (snd (m W))) = true).
  { intros m Hm. unfold settings_consistent. rewrite (Hm W). exact H. }
  destruct c; cbn [call_setter].
  - apply Hkeep, SetCamera_keeps_encoding.
  - apply Hkeep, SetResolution_keeps_encoding.
  - apply Hkeep, SetFrameRange_keeps_encoding.
  - apply Hkeep, SetVisibility_keeps_encoding.
  - apply SetEncoding_consistent, H.
  - apply Seth264Settings_consistent, H.
  - apply Hkeep, SetImageSettings_keeps_encoding.
Qed.

(** X8: the encoding settings stay consistent under the setters.  If
    the stored encoder is one of the stored container's and the stored
    h264 quality and preset are known ones, then the same holds after
    any sequence of setter calls with any arguments, valid or not, and
    whether or not one of them raises. *)
Theorem setters_keep_settings_consistent (calls : list SetterCall) (W : World) :
  settings_consistent (w_self W) = true ->
  settings_consistent (w_self (snd (for_each calls call_setter W))) = true.
Proof.
  revert W. induction calls as [|c calls IH]; intros W H; cbn [for_each].
  - exact H.
  - unfold bind. pose proof (call_setter_consistent c W H) as Hc.
    destruct (call_setter c W) as [[[]|e] W1]; cbn [snd] in *.
    + apply IH, Hc.
    + exact Hc.
Qed.

Lemma setters_keep_settings_consistent_witness :
  settings_consistent
    (w_self (snd (for_each [Setter_Encoding "Image" "h264"; Setter_Encoding "mp4" "h264";
                            Setter_h264 "Best" "fast"; Setter_Image (PStr "high");
                            Setter_Encoding "Image" "tif"]
                    call_setter demo_world))) = true.
Proof.
  apply (setters_keep_settings_consistent
           [Setter_Encoding "Image" "h264"; Setter_Encoding "mp4" "h264";
            Setter_h264 "Best" "fast"; Setter_Image (PStr "high");
            Setter_Encoding "Image" "tif"] demo_world).
  vm_compute. reflexivity.
Defined.

Lemma SetFfmpegPath_returns (FfmpegPath : string) : returns (SetFfmpegPath FfmpegPath).
Proof. unfold SetFfmpegPath. repeat returns_step. Qed.

(** X9: the constructor never raises, whatever the scene it runs in and
    whatever the attributes held before, and the object it leaves has
    consistent encoding settings: the container [mov] with the encoder
    [h264], the quality [High] and the preset [fast]. *)
Theorem init_settings_consistent (FfmpegPath : string) (LogToMaya : bool) (W : World) :
  let out := __init__ FfmpegPath LogToMaya W in
  fst out = Val tt
  /\ encoding_of (w_self (snd out)) = ("mov", "h264", "High", "fast")
  /\ settings_consistent (w_self (snd out)) = true.
Proof.
  cbv zeta. unfold __init__.
  destruct (SetFfmpegPath_returns FfmpegPath W) as ([] & W1 & H1).
  erewrite bind_val by exact H1.
  erewrite bind_val by reflexivity.
  match goal with
  | |- context [bind (SetCamera ?c) _ ?W0] =>
      destruct (SetCamera_returns c W0) as ([] & W2 & H2)
  end.
  erewrite bind_val by exact H2.
  destruct (SetResolution_returns DEFAULT_RESOLUTION W2) as ([] & W3 & H3).
  erewrite bind_val by exact H3.
  destruct (SetFrameRange_returns DEFAULT_FRAME_RANGE W3) as ([] & W4 & H4).
  erewrite bind_val by exact H4.
  erewrite bind_val by reflexivity.
  erewrite bind_val by reflexivity.
  match goal with
  | |- context [bind (SetImageSettings ?q) _ ?W0] =>
      destruct (SetImageSettings_returns q eq_refl W0) as ([] & W5 & H5);
      pose proof (SetImageSettings_keeps_encoding q W0) as K5
  end.
  rewrite H5 in K5. cbn [snd] in K5.
  erewrite bind_val by exact H5.
  destruct (SetVisibility_returns DEFAULT_VISIBILITY W5) as ([] & W6 & H6).
  pose proof (SetVisibility_keeps_encoding DEFAULT_VISIBILITY W5) as K6.
  rewrite H6 in K6 |- *. cbn [fst snd] in *.
  unfold keeps_encoding in K5, K6. unfold settings_consistent.
  rewrite K6, K5.
  split; [reflexivity|]. split; reflexivity.
Qed.

(** X10: on an object whose encoding settings are consistent, as they
    are after the constructor and any use of the setters, the branch of
    [execute] for an unsupported encoder is never taken: with a
    container that needs the encoder, the encoding stage is the h264
    encoding, then the removal of the temporary directory, then the
    viewer. *)
Theorem consistent_encoder_supported (prims : Prims) (plan : Plan) (ShowInViewer : bool)
    (W : World) :
  settings_consistent (w_self W) = true ->
  requires_ffmpeg (w_self W) = true ->
  _Encoder (w_self W) = "h264"
  /\ execute_encode prims plan ShowInViewer W
     = (Encodeh264 prims (source_path plan) (p_OutputPath plan) (p_StartFrame plan) >>
        RemoveTempDir prims (p_PlayblastOutputDir plan) >>
        when ShowInViewer (OpenInViewer (p_OutputPath plan))) W.
Proof.
  intros Hcons Hneeds.
  assert (Henc : _Encoder (w_self W) = "h264").
  { unfold settings_consistent, encoding_of, encoding_consistent in Hcons.
    apply andb_true_iff in Hcons. destruct Hcons as [Hcons _].
    apply andb_true_iff in Hcons. destruct Hcons as [Hcons _].
    unfold requires_ffmpeg in Hneeds. apply negb_true_iff in Hneeds.
    unfold VIDEO_ENCODER_LOOKUP in Hcons. cbn [dict_get] in Hcons.
    destruct (String.eqb "mov" (_ContainerFormat (w_self W))).
    { cbn in Hcons. rewrite orb_false_r in Hcons. apply String.eqb_eq, Hcons. }
    destruct (String.eqb "mp4" (_ContainerFormat (w_self W))).
    { cbn in Hcons. rewrite orb_false_r in Hcons. apply String.eqb_eq, Hcons. }
    rewrite String.eqb_sym, Hneeds in Hcons. discriminate Hcons. }
  split; [exact Henc|].
  unfold execute_encode.
  erewrite bind_val by reflexivity.
  erewrite bind_val by reflexivity.
  unfold requires_ffmpeg in Hneeds. rewrite Hneeds, Henc. reflexivity.
Qed.

Lemma consistent_encoder_supported_witness :
  _Encoder (w_self demo_world_captured) = "h264"
  /\ execute_encode demo_prims demo_plan true demo_world_captured
     = (Encodeh264 demo_prims (source_path demo_plan) (p_OutputPath demo_plan)
          (p_StartFrame demo_plan) >>
        RemoveTempDir demo_prims (p_PlayblastOutputDir demo_plan) >>
        when true (OpenInViewer (p_OutputPath demo_plan))) demo_world_captured.
Proof.
  apply (consistent_encoder_supported demo_prims demo_plan true demo_world_captured).
  - vm_compute. reflexivity.
  - vm_compute. reflexivity.
Defined.

(** ** A capture that fails *)








(** ** The visibility applied for the capture *)

(** What a successful third part of [execute] did, call by call: the
    flags of the viewport were read after the camera switch, and the
    flags built from the stored vector, or from the viewport's own when
    none is stored, were laid over the editor's. *)
Lemma execute_acquire_steps (Overscan : bool) (W1 : World) (snap : Snapshot) (W2 : World)
    (c0 : string) :
  h_panels (w_host W1) !! h_focus (w_host W1) = Some c0 ->
  String.eqb (h_focus (w_host W1)) "" = false ->
  execute_acquire (h_focus (w_host W1)) Overscan W1 = (Val (Some snap), W2) ->
  exists (vs : list PyVal) (PlayFlags fl : gmap string PyVal),
    Forall2 (fun item v => flag_of (w_host W1) (h_focus (w_host W1)) (snd item) = Some v)
      VIEWPORT_VISIBILITY_LOOKUP vs
    /\ fill_flags (PList vs) VIEWPORT_VISIBILITY_LOOKUP 0 ∅
       = Val (s_OriginVisibilityFlags snap)
    /\ fill_flags (if py_truthy (_Visibility (w_self W1)) then _Visibility (w_self W1)
                   else PList vs) VIEWPORT_VISIBILITY_LOOKUP 0 ∅
       = Val PlayFlags
    /\ h_editors (w_host W1) !! h_focus (w_host W1) = Some fl
    /\ h_editors (w_host W2) !! h_focus (w_host W1) = Some (PlayFlags ∪ fl)
    /\ w_trace W2
       = (w_trace W1
            ++ [CallLookThrough (capture_camera (w_self W1) (w_host W1)) (h_focus (w_host W1));
                CallModelEditorEdit (h_focus (w_host W1)) PlayFlags]
            ++ (if Overscan then []
                else [CallSetAttr (s_OverscanAttr snap) (PFloat 1%float)]))%list.
Proof.
  intros Hpanel Hne H. unfold execute_acquire in H.
  erewrite bind_val in H by reflexivity.
  erewrite bind_val in H by (eapply GetActiveCamera_active; eassumption).
  erewrite bind_val in H by reflexivity.
  unfold capture_camera. rewrite Hpanel.
  set (Camera := if negb (opt_truthy (_Camera (w_self W1))) then Some c0
                 else _Camera (w_self W1)) in *.
  destruct (opt_in Camera (h_cameras (w_host W1))) eqn:Hcam; cbn [negb] in H.
  2: { erewrite bind_val in H by apply LogError_run. discriminate H. }
  erewrite bind_val in H by (eapply SetActiveCamera_active; eassumption).
  set (W1a := mkWorld _ _ _ _) in H.
  assert (Hpanel_a : h_panels (w_host W1a) !! h_focus (w_host W1a) = Some (str_of_opt Camera))
    by apply lookup_insert_eq.
  assert (Hne_a : String.eqb (h_focus (w_host W1a)) "" = false) by exact Hne.
  destruct (GetViewportVisibility_active W1a _ Hpanel_a Hne_a)
    as [(vs & Hvis & Hall) | (W' & Hvis)].
  2: { erewrite bind_val in H by exact Hvis.
       erewrite bind_raise in H by apply CreateViewportVisibilityFlags_None.
       discriminate H. }
  erewrite bind_val in H by exact Hvis.
  unfold CreateViewportVisibilityFlags at 1 in H. unfold lift at 1 in H.
  destruct (fill_flags (PList vs) VIEWPORT_VISIBILITY_LOOKUP 0 ∅) as [OriginFlags|e] eqn:Hfill.
  2: { erewrite bind_raise in H by reflexivity. discriminate H. }
  erewrite bind_val in H by reflexivity.
  assert (Hwanted : GetVisibility W1a
                    = (Val (if py_truthy (_Visibility (w_self W1))
                            then _Visibility (w_self W1) else PList vs), W1a)).
  { unfold GetVisibility. erewrite bind_val by reflexivity.
    change (w_self W1a) with (w_self W1).
    destruct (py_truthy (_Visibility (w_self W1))); cbn [negb]; [reflexivity|exact Hvis]. }
  erewrite bind_val in H by exact Hwanted.
  unfold CreateViewportVisibilityFlags at 1 in H. unfold lift at 1 in H.
  destruct (fill_flags (if py_truthy (_Visibility (w_self W1)) then _Visibility (w_self W1)
                        else PList vs) VIEWPORT_VISIBILITY_LOOKUP 0 ∅)
    as [PlayFlags|e] eqn:Hplay.
  2: { erewrite bind_raise in H by reflexivity. discriminate H. }
  erewrite bind_val in H by reflexivity.
  assert (Heditor : cmds_modelPanel_modelEditor (h_focus (w_host W1)) W1a
                    = (Val (h_focus (w_host W1)), W1a)).
  { unfold cmds_modelPanel_modelEditor, bind, get_host, ret.
    change (h_focus (w_host W1)) with (h_focus (w_host W1a)). rewrite Hpanel_a. reflexivity. }
  erewrite bind_val in H by exact Heditor.
  unfold SetViewportVisibility in H.
  destruct (h_editors (w_host W1a) !! h_focus (w_host W1)) as [fl|] eqn:Hfl.
  2: { erewrite bind_raise in H by (rewrite cmds_modelEditor_edit_run, Hfl; reflexivity).
       discriminate H. }
  erewrite bind_val in H by (rewrite cmds_modelEditor_edit_run, Hfl; reflexivity).
  set (W1b := mkWorld _ _ _ _) in H.
  change (h_editors (w_host W1a)) with (h_editors (w_host W1)) in Hfl.
  change (flag_of (w_host W1a) (h_focus (w_host W1a)))
    with (flag_of (w_host W1) (h_focus (w_host W1))) in Hall.
  exists vs, PlayFlags, fl.
  destruct Overscan; cbn [negb] in H.
  - erewrite bind_val in H by reflexivity. unfold ret in H.
    injection H as <- <-.
    cbn [s_OriginVisibilityFlags s_OverscanAttr w_host w_trace W1b W1a
         with_editors with_attrs with_panels h_editors].
    split; [exact Hall|]. split; [exact Hfill|]. split; [exact Hplay|].
    split; [exact Hfl|]. split; [apply lookup_insert_eq|].
    rewrite <- !app_assoc. reflexivity.
  - destruct (h_attrs (w_host W1b) !! (str_of_opt Camera +:+ ".overscan")) as [v0|] eqn:Hattr.
    2: { erewrite bind_raise in H
           by (erewrite bind_raise; [reflexivity|rewrite cmds_getAttr_run, Hattr; reflexivity]).
         discriminate H. }
    erewrite bind_val in H
      by (erewrite bind_val by (rewrite cmds_getAttr_run, Hattr; reflexivity);
          erewrite bind_val by (rewrite cmds_setAttr_run, Hattr; reflexivity);
          reflexivity).
    unfold ret in H. injection H as <- <-.
    cbn [s_OriginVisibilityFlags s_OverscanAttr w_host w_trace W1b W1a
         with_editors with_attrs with_panels h_editors].
    split; [exact Hall|]. split; [exact Hfill|]. split; [exact Hplay|].
    split; [exact Hfl|]. split; [apply lookup_insert_eq|].
    rewrite <- !app_assoc. reflexivity.
Qed.

(** X12: with no visibility vector stored (the preset [Viewport], an
    empty list or [None]), the flags [execute] applies for the capture
    are the viewport's own: the edit of the model editor carries the
    very flags that were saved for the restore, and every flag of the
    visibility lookup has after it the value it had before. *)
Theorem Viewport_preset_keeps_flags (Overscan : bool) (W1 : World) (snap : Snapshot)
    (W2 : World) (c0 : string) :
  h_panels (w_host W1) !! h_focus (w_host W1) = Some c0 ->
  String.eqb (h_focus (w_host W1)) "" = false ->
  py_truthy (_Visibility (w_self W1)) = false ->
  execute_acquire (h_focus (w_host W1)) Overscan W1 = (Val (Some snap), W2) ->
  let panel := h_focus (w_host W1) in
  In (CallModelEditorEdit panel (s_OriginVisibilityFlags snap)) (w_trace W2)
  /\ forall item, item ∈ VIEWPORT_VISIBILITY_LOOKUP ->
       flag_of (w_host W2) panel (snd item) = flag_of (w_host W1) panel (snd item).
Proof.
  intros Hpanel Hne Hfalsy H. cbv zeta.
  destruct (execute_acquire_steps Overscan W1 snap W2 c0 Hpanel Hne H)
    as (vs & PlayFlags & fl & Hall & Horigin & Hplay & Hfl & Hfl2 & Htrace).
  rewrite Hfalsy, Horigin in Hplay. injection Hplay as <-.
  split.
  - rewrite Htrace. apply in_or_app. right. right. left. reflexivity.
  - intros item Hitem. unfold flag_of. rewrite Hfl2, Hfl.
    destruct (Forall2_lookup_item _ _ _ Hall item Hitem) as (j & v & Hj & Hv & Hflag).
    destruct (fill_flags_lookup vs VIEWPORT_VISIBILITY_LOOKUP VIEWPORT_VISIBILITY_LOOKUP_NoDup
                0 ∅ _ Horigin j item Hj) as [Hlook _].
    cbn [Nat.add] in Hlook. rewrite Hv in Hlook.
    unfold flag_of in Hflag. rewrite Hfl in Hflag. rewrite Hflag.
    apply lookup_union_Some_l. exact Hlook.
Qed.

(** X13: with a list of at least 37 entries stored as the visibility,
    the flags the capture sees are the stored ones: after the third part
    of [execute] the flag of the lookup item at position [j] has the
    value of the entry at position [j], whatever it was before. *)
Theorem stored_visibility_applied (Overscan : bool) (W1 : World) (snap : Snapshot)
    (W2 : World) (c0 : string) (l : list PyVal) :
  h_panels (w_host W1) !! h_focus (w_host W1) = Some c0 ->
  String.eqb (h_focus (w_host W1)) "" = false ->
  _Visibility (w_self W1) = PList l ->
  (length VIEWPORT_VISIBILITY_LOOKUP <= length l)%nat ->
  execute_acquire (h_focus (w_host W1)) Overscan W1 = (Val (Some snap), W2) ->
  forall j item, VIEWPORT_VISIBILITY_LOOKUP !! j = Some item ->
    flag_of (w_host W2) (h_focus (w_host W1)) (snd item) = l !! j.
Proof.
  intros Hpanel Hne Hstored Hlen H j item Hj.
  destruct (execute_acquire_steps Overscan W1 snap W2 c0 Hpanel Hne H)
    as (vs & PlayFlags & fl & _ & _ & Hplay & _ & Hfl2 & _).
  rewrite Hstored in Hplay.
  assert (Htruthy : py_truthy (PList l) = true).
  { destruct l; [cbn in Hlen; lia|reflexivity]. }
  rewrite Htruthy in Hplay.
  destruct (fill_flags_lookup l VIEWPORT_VISIBILITY_LOOKUP VIEWPORT_VISIBILITY_LOOKUP_NoDup
              0 ∅ _ Hplay j item Hj) as [Hlook [x Hx]].
  cbn [Nat.add] in Hlook, Hx.
  unfold flag_of. rewrite Hfl2, Hx. rewrite Hx in Hlook.
  apply lookup_union_Some_l. exact Hlook.
Qed.

Lemma Viewport_preset_keeps_flags_witness :
  let W1 := demo_world_viewport in
  let snap := acquired (execute_acquire (h_focus (w_host W1)) false W1) in
  let W2 := snd (execute_acquire (h_focus (w_host W1)) false W1) in
  In (CallModelEditorEdit (h_focus (w_host W1)) (s_OriginVisibilityFlags snap)) (w_trace W2)
  /\ forall item, item ∈ VIEWPORT_VISIBILITY_LOOKUP ->
       flag_of (w_host W2) (h_focus (w_host W1)) (snd item)
       = flag_of (w_host W1) (h_focus (w_host W1)) (snd item).
Proof.
  cbv zeta.
  apply (Viewport_preset_keeps_flags false demo_world_viewport
           (acquired (execute_acquire (h_focus (w_host demo_world_viewport)) false
                        demo_world_viewport))
           (snd (execute_acquire (h_focus (w_host demo_world_viewport)) false
                   demo_world_viewport))
           "persp").
  - vm_compute. reflexivity.
  - vm_compute. reflexivity.
  - vm_compute. reflexivity.
  - vm_compute. reflexivity.
Defined.

Lemma stored_visibility_applied_witness :
  flag_of (w_host (snd (execute_acquire (h_focus (w_host demo_world)) true demo_world)))
    (h_focus (w_host demo_world)) (snd ("Polygons", "polymeshes"))
  = demo_geo_vector !! 5%nat.
Proof.
  apply (stored_visibility_applied true demo_world
           (acquired (execute_acquire (h_focus (w_host demo_world)) true demo_world))
           (snd (execute_acquire (h_focus (w_host demo_world)) true demo_world))
           "persp" demo_geo_vector).
  - vm_compute. reflexivity.
  - vm_compute. reflexivity.
  - vm_compute. reflexivity.
  - vm_compute. lia.
  - vm_compute. reflexivity.
  - reflexivity.
Defined.

(** ** Visibility presets *)

Lemma dict_get_keys {V : Type} (d : list (string * V)) (k : string) (v : V) :
  dict_get d k = Some v -> existsb (String.eqb k) (dict_keys d) = true.
Proof.
  induction d as [|[k' v'] d IH]; cbn [dict_keys map existsb dict_get fst]; [discriminate|].
  rewrite (String.eqb_sym k' k).
  destruct (String.eqb k k'); [reflexivity|exact IH].
Qed.

Lemma map_lookup {A B : Type} (f : A -> B) (l : list A) (j : nat) :
  map f l !! j = option_map f (l !! j).
Proof.
  revert j. induction l as [|x l IH]; intros [|j]; cbn; auto.
Qed.

(** X14: for every visibility preset of the class that names at least
    one item ([Geo], [Dynamics]), [SetVisibility] with the preset's name
    stores a vector from which the flag map can always be built: after
    it, [CreateViewportVisibilityFlags(GetVisibility())] returns a map
    in which the flag of every lookup item is [True] exactly when the
    preset names the item, and nothing is logged. *)
Theorem SetVisibility_preset_flags (W : World) (name : string) (names : list string) :
  dict_get VIEWPORT_VISIBILITY_PRESETS name = Some names ->
  names <> [] ->
  exists W' flags,
    SetVisibility (PStr name) W = (Val tt, W')
    /\ w_log W' = w_log W
    /\ (let* VisibilityData := GetVisibility in
        CreateViewportVisibilityFlags VisibilityData) W' = (Val flags, W')
    /\ forall item, item ∈ VIEWPORT_VISIBILITY_LOOKUP ->
         flags !! snd item = Some (PBool (existsb (String.eqb (fst item)) names)).
Proof.
  intros Hget Hne.
  assert (Hname : String.eqb name "" = false).
  { destruct (String.eqb name "") eqn:E; [|reflexivity].
    apply String.eqb_eq in E. subst name. discriminate Hget. }
  set (vec := map (fun lookup_item : string * string =>
                     PBool (existsb (String.eqb (fst lookup_item)) names))
                VIEWPORT_VISIBILITY_LOOKUP).
  assert (Hrun : SetVisibility (PStr name) W
                 = (Val tt, snd (set_Visibility (PList vec) W))).
  { unfold SetVisibility. cbn [py_truthy]. rewrite Hname. cbn [negb py_is_seq].
    unfold PresetToVisibility, bind, lift, py_in_keys. cbn [py_hashable].
    change (py_eq_str (PStr name)) with (String.eqb name).
    rewrite (dict_get_keys _ _ _ Hget). cbn [negb dict_get_val]. rewrite Hget.
    destruct names; [congruence|]. reflexivity. }
  rewrite Hrun.
  set (W' := snd (set_Visibility (PList vec) W)).
  assert (Hlen : length vec = length VIEWPORT_VISIBILITY_LOOKUP) by apply length_map.
  assert (Htruthy : py_truthy (PList vec) = true).
  { destruct vec; [discriminate Hlen|reflexivity]. }
  destruct (fill_flags_enough vec VIEWPORT_VISIBILITY_LOOKUP 0 ∅) as [flags Hfill];
    [cbn [Nat.add]; lia|].
  exists W', flags. split; [reflexivity|]. split; [reflexivity|]. split.
  - unfold GetVisibility.
    erewrite bind_val by (erewrite bind_val by reflexivity;
                          change (_Visibility (w_self W')) with (PList vec);
                          rewrite Htruthy; reflexivity).
    unfold CreateViewportVisibilityFlags, lift. rewrite Hfill. reflexivity.
  - intros item Hitem. apply list_elem_of_lookup in Hitem. destruct Hitem as [j Hj].
    destruct (fill_flags_lookup vec VIEWPORT_VISIBILITY_LOOKUP VIEWPORT_VISIBILITY_LOOKUP_NoDup
                0 ∅ flags Hfill j item Hj) as [Hlook _].
    rewrite Hlook. cbn [Nat.add]. unfold vec. rewrite map_lookup, Hj. reflexivity.
Qed.

Lemma SetVisibility_preset_flags_witness :
  exists W' flags,
    SetVisibility (PStr "Dynamics") demo_world = (Val tt, W')
    /\ w_log W' = w_log demo_world
    /\ (let* VisibilityData := GetVisibility in
        CreateViewportVisibilityFlags VisibilityData) W' = (Val flags, W')
    /\ forall item, item ∈ VIEWPORT_VISIBILITY_LOOKUP ->
         flags !! snd item
         = Some (PBool (existsb (String.eqb (fst item))
                          ["NURBS Surfaces"; "Polygons"; "Dynamics"; "Fluids"; "nParticles"])).
Proof.
  apply (SetVisibility_preset_flags demo_world "Dynamics"
           ["NURBS Surfaces"; "Polygons"; "Dynamics"; "Fluids"; "nParticles"]).
  - reflexivity.
  - discriminate.
Defined.

(** ** The encoder command without sound *)

Lemma output_lines_quiet (toMaya : bool) (Text : list Piece) :
  quiet (output_lines toMaya Text) = true.
Proof. destruct toMaya; reflexivity. Qed.

Lemma quiet_app (l1 l2 : list LogLine) :
  quiet l1 = true -> quiet l2 = true -> quiet (l1 ++ l2) = true.
Proof.
  unfold quiet. rewrite !existsb_app. intros H1 H2.
  apply andb_true_iff in H1, H2. destruct H1 as [H1 H1'], H2 as [H2 H2'].
  apply negb_true_iff in H1, H1', H2, H2'. rewrite H1, H1', H2, H2'. reflexivity.
Qed.

Lemma for_each_LogOutput_quiet (chunks : list string) (W : World) :
  exists new,
    for_each chunks (fun Output => LogOutput [Fmt (PStr Output)]) W = (Val tt, logged new W)
    /\ quiet new = true.
Proof.
  revert W. induction chunks as [|c rest IH]; intros W; cbn [for_each].
  - exists []. split; [|reflexivity].
    unfold ret, logged. rewrite app_nil_r. destruct W; reflexivity.
  - unfold bind. rewrite LogOutput_run.
    destruct (IH (logged (output_lines (_LogToMaya (w_self W)) [Fmt (PStr c)]) W))
      as (new & -> & Hq).
    eexists. split.
    + unfold logged. cbn [w_host w_self w_log w_trace]. rewrite <- app_assoc. reflexivity.
    + apply quiet_app; [apply output_lines_quiet|exact Hq].
Qed.

Lemma GetAudioAttributes_missing (W : World) :
  audio_missing (w_host W) ->
  GetAudioAttributes W = (Val (PNone, PNone), W).
Proof.
  intros [Hnone | (p & Hfile & Hgone)]; unfold GetAudioAttributes, bind, get_host, ret.
  - rewrite Hnone. reflexivity.
  - destruct (String.eqb (h_sound (w_host W)) ""); cbn [negb]; [reflexivity|].
    rewrite cmds_getAttr_run, Hfile, Hgone. reflexivity.
Qed.

(** X15: when no sound is on the time slider, or the file of the sound
    node is not on disk, [Encodeh264] encodes the frames alone: the
    command has one input, no [-ss] and no audio filter, whatever the
    start frame is; the missing file is passed over in silence, no error
    and no warning is logged. *)
Theorem Encodeh264_without_audio (prims : Prims) (W : World) (SourcePath OutputPath : string)
    (StartFrame : PyVal) (rate : float) (Crf : Z) :
  audio_missing (w_host W) ->
  fst (GetFrameRate prims W) = Val rate ->
  dict_get H264_QUALITIES (_h264Quality (w_self W)) = Some Crf ->
  let cmd := video_only_command (w_self W) rate Crf SourcePath OutputPath in
  exists W' new,
    Encodeh264 prims SourcePath OutputPath StartFrame W = (Val tt, W')
    /\ w_trace W' = (w_trace W ++ [CallFfmpeg cmd])%list
    /\ seek_offset cmd = None
    /\ w_log W' = (w_log W ++ new)%list
    /\ quiet new = true.
Proof.
  intros Haudio Hrate Hcrf. cbv zeta.
  unfold Encodeh264. unfold bind at 1. unfold get_self at 1. unfold bind at 1.
  pose proof (GetFrameRate_world prims W) as Hworld.
  destruct (GetFrameRate prims W) as [r W0]. cbn [fst snd] in Hrate, Hworld. subst r W0.
  unfold bind at 1. rewrite (GetAudioAttributes_missing W Haudio).
  cbn [py_truthy]. unfold bind at 1. unfold ret at 1.
  unfold bind at 1. rewrite Hcrf. unfold ret at 1.
  cbn [app]. fold (video_only_command (w_self W) rate Crf SourcePath OutputPath).
  unfold bind at 1. rewrite LogOutput_run.
  unfold ExecuteFfmpegCommand, bind at 1, get_host at 1.
  rewrite logged_host.
  destruct (qprocess_run prims (video_only_command (w_self W) rate Crf SourcePath OutputPath)
              (w_host W)) as [[chunks code] fs].
  unfold bind at 1, record at 1. unfold bind at 1, put_host at 1.
  match goal with
  | |- context [for_each chunks ?body ?W0] =>
      destruct (for_each_LogOutput_quiet chunks W0) as (new & -> & Hq)
  end.
  eexists. eexists. split; [reflexivity|].
  rewrite logged_trace, logged_log. cbn [w_trace w_log].
  rewrite logged_trace, logged_log.
  split; [reflexivity|]. split; [reflexivity|].
  cbn [w_log].
  split; [rewrite <- app_assoc; reflexivity|].
  apply quiet_app; [apply output_lines_quiet|exact Hq].
Qed.

Lemma Encodeh264_without_audio_witness :
  let cmd := video_only_command (w_self demo_world_sound_gone) 24%float 20
               "/out/playblast_temp/shot.%04d.png" "/out/shot.mov" in
  exists W' new,
    Encodeh264 demo_prims "/out/playblast_temp/shot.%04d.png" "/out/shot.mov" (PInt 1)
      demo_world_sound_gone = (Val tt, W')
    /\ w_trace W' = (w_trace demo_world_sound_gone ++ [CallFfmpeg cmd])%list
    /\ seek_offset cmd = None
    /\ w_log W' = (w_log demo_world_sound_gone ++ new)%list
    /\ quiet new = true.
Proof.
  apply (Encodeh264_without_audio demo_prims demo_world_sound_gone
           "/out/playblast_temp/shot.%04d.png" "/out/shot.mov" (PInt 1) 24%float 20).
  - right. exists "/snd/take.wav". split; vm_compute; reflexivity.
  - vm_compute. reflexivity.
  - vm_compute. reflexivity.
Defined.

(** ** The resolution preset under the setters *)

Lemma keeps_resolution_refl (W : World) : keeps_resolution_consistent W W.
Proof. intros H. exact H. Qed.

Lemma keeps_resolution_trans (W1 W2 W3 : World) :
  keeps_resolution_consistent W1 W2 -> keeps_resolution_consistent W2 W3 ->
  keeps_resolution_consistent W1 W3.
Proof. unfold keeps_resolution_consistent. auto. Qed.

Lemma keeps_resolution_of_logs (W W' : World) :
  only_logs W W' -> keeps_resolution_consistent W W'.
Proof. intros (_ & Hs & _) H. rewrite Hs. exact H. Qed.

Ltac resolution_step :=
  first
    [ preserve_step keeps_resolution_consistent keeps_resolution_refl keeps_resolution_trans
        keeps_resolution_of_logs
    | apply (preserves_weaken only_logs keeps_resolution_consistent _
               keeps_resolution_of_logs);
      first [ apply PresetToResolution_only_logs | apply PresetToFrameRange_only_logs ]
    | solve [intros ? H; exact H] ].

(** A value [PresetToResolution] resolves is a preset name. *)
Lemma PresetToResolution_known (v wh : PyVal) (W W' : World) :
  PresetToResolution v W = (Val wh, W') ->
  py_in_strs v (dict_keys RESOLUTION_LOOKUP) = true.
Proof.
  intros H. destruct (py_in_strs v (dict_keys RESOLUTION_LOOKUP)) eqn:Hname; [reflexivity|].
  destruct (PresetToResolution_unknown v W Hname) as [e He]. congruence.
Qed.

Lemma SetResolution_keeps_resolution (Resolution : PyVal) :
  preserves keeps_resolution_consistent (SetResolution Resolution).
Proof.
  unfold SetResolution.
  intros W _.
  (* from here on the preset is [None] or [Resolution], once it was resolved *)
  rewrite (bind_val _ _ W tt (snd (set_ResolutionPreset PNone W)) eq_refl).
  assert (Hstart : resolution_consistent (w_self (snd (set_ResolutionPreset PNone W))) = true)
    by reflexivity.
  revert Hstart.
  generalize (snd (set_ResolutionPreset PNone W)). intros W0 Hstart.
  assert (Htry : keeps_resolution_consistent W0
                   (snd (py_try
                           (let* wh := PresetToResolution Resolution in
                            set_ResolutionPreset Resolution >> ret wh)
                           (ret Resolution) W0))).
  { intros _. unfold py_try, bind.
    pose proof (PresetToResolution_only_logs Resolution W0) as Hlogs.
    destruct (PresetToResolution Resolution W0) as [[wh|e] W1] eqn:Hp; cbn [snd] in *.
    - unfold resolution_consistent, set_ResolutionPreset, put_self, ret.
      cbn [snd w_self _ResolutionPreset].
      rewrite (PresetToResolution_known _ _ _ _ Hp). apply orb_true_r.
    - unfold ret. cbn [snd]. destruct Hlogs as (_ & Hs & _).
      rewrite Hs. exact Hstart. }
  assert (Htail : forall WidthHeight,
             preserves keeps_resolution_consistent
               (let* ValidResolution :=
                  py_try
                    (let* w0 := lift (py_getitem WidthHeight 0) in
                     if py_isinstance_int w0 then
                       let* w1 := lift (py_getitem WidthHeight 1) in
                       ret (py_isinstance_int w1)
                     else ret false)
                    (ret false) in
                if ValidResolution then
                  let* w0 := lift (py_getitem WidthHeight 0) in
                  let* neg0 := lift (py_le_zero w0) in
                  let* bad :=
                    if neg0 then ret true
                    else
                      let* w1 := lift (py_getitem WidthHeight 1) in
                      lift (py_le_zero w1) in
                  if bad then
                    LogError [Txt "Invalid resolution: "; Fmt WidthHeight;
                              Txt ". Values must be greater than zero."]
                  else
                    let* Width := lift (py_getitem WidthHeight 0) in
                    let* Height := lift (py_getitem WidthHeight 1) in
                    set_WidthHeight (PTuple [Width; Height])
                else
                  let presets := quoted_presets (dict_keys RESOLUTION_LOOKUP) in
                  LogError [Txt "Invalid resoluton: "; Fmt WidthHeight;
                            Txt ". Expected one of [int, int], ";
                            Fmt (PStr (join_comma presets))])).
  { intros WidthHeight. repeat resolution_step. }
  unfold bind at 1.
  destruct (py_try _ _ W0) as [[WidthHeight|e] W1]; cbn [snd] in Htry.
  - exact (Htail WidthHeight W1 (Htry Hstart)).
  - cbn [snd]. exact (Htry Hstart).
Qed.

Lemma call_setter_keeps_resolution (c : SetterCall) :
  preserves keeps_resolution_consistent (call_setter c).
Proof.
  destruct c; cbn [call_setter].
  - unfold SetCamera. repeat resolution_step.
  - apply SetResolution_keeps_resolution.
  - unfold SetFrameRange, ResolveFrameRange. repeat resolution_step.
  - unfold SetVisibility, PresetToVisibility. repeat resolution_step.
  - unfold SetEncoding. repeat resolution_step.
  - unfold Seth264Settings. repeat resolution_step.
  - unfold SetImageSettings. repeat resolution_step.
Qed.

Lemma GetResolutionWidthHeight_consistent (W : World) :
  resolution_consistent (w_self W) = true ->
  exists WidthHeight, GetResolutionWidthHeight W = (Val WidthHeight, W).
Proof.
  unfold resolution_consistent, GetResolutionWidthHeight. intros H.
  erewrite bind_val by reflexivity.
  destruct (py_truthy (_ResolutionPreset (w_self W))); cbn [negb orb] in H.
  - unfold PresetToResolution.
    destruct (py_eq_str (_ResolutionPreset (w_self W)) "Render"); [eexists; reflexivity|].
    unfold bind, lift, py_in_keys.
    destruct (_ResolutionPreset (w_self W)) as [ | b | z | f | s | l | l ];
      try discriminate H.
    cbn [py_hashable]. unfold py_in_strs in H. rewrite H.
    destruct (dict_get_in_keys RESOLUTION_LOOKUP s H) as [wh Hwh].
    cbn [dict_get_val]. rewrite Hwh. eexists. reflexivity.
  - eexists. reflexivity.
Qed.

(** X16: when the stored resolution preset is a known name or absent,
    the same holds after any sequence of setter calls with any
    arguments, and [GetResolutionWidthHeight], which [execute] calls
    when it makes its plan, then returns a value without raising and
    without touching anything. *)
Theorem resolution_getter_never_raises (calls : list SetterCall) (W : World) :
  resolution_consistent (w_self W) = true ->
  let W' := snd (for_each calls call_setter W) in
  resolution_consistent (w_self W') = true
  /\ exists WidthHeight, GetResolutionWidthHeight W' = (Val WidthHeight, W').
Proof.
  intros H. cbv zeta.
  assert (Hkeep : resolution_consistent (w_self (snd (for_each calls call_setter W))) = true).
  { apply (preserves_for_each keeps_resolution_consistent keeps_resolution_refl
             keeps_resolution_trans calls call_setter call_setter_keeps_resolution W H). }
  split; [exact Hkeep|].
  apply GetResolutionWidthHeight_consistent, Hkeep.
Qed.

Lemma resolution_getter_never_raises_witness :
  let W' := snd (for_each [Setter_Resolution (PStr "4K"); Setter_Resolution (PStr "Render");
                           Setter_Resolution (PTuple [PInt 0; PInt 10])]
                   call_setter demo_world) in
  resolution_consistent (w_self W') = true
  /\ exists WidthHeight, GetResolutionWidthHeight W' = (Val WidthHeight, W').
Proof.
  apply (resolution_getter_never_raises
           [Setter_Resolution (PStr "4K"); Setter_Resolution (PStr "Render");
            Setter_Resolution (PTuple [PInt 0; PInt 10])] demo_world).
  vm_compute. reflexivity.
Defined.

(** ** Settings kept between sessions *)

(** X17: the encoder path survives a session.  What [SaveSettings]
    writes to the option variable, [LoadSettings] hands to
    [SetFfmpegPath] of the object of a later session, whatever that
    object held: its encoder path is then the one the first object had
    (an unset path comes back unset), and nothing but the option
    variable was changed by saving. *)
Theorem ffmpeg_path_survives_sessions (W : World) (later : Self) :
  let W1 := snd (GeterosisPlayblastUi.SaveSettings W) in
  let out := GeterosisPlayblastUi.LoadSettings (at_self later W1) in
  fst (GeterosisPlayblastUi.SaveSettings W) = Val tt
  /\ w_host W1
     = with_optionVars
         (fun vars => <["GeterosisPlayblastUiFFmpegPath" := _FfmpegPath (w_self W)]> vars)
         (w_host W)
  /\ w_self W1 = w_self W
  /\ fst out = Val tt
  /\ _FfmpegPath (w_self (snd out)) = _FfmpegPath (w_self W).
Proof.
  cbv zeta.
  unfold GeterosisPlayblastUi.SaveSettings, GeterosisPlayblastUi.LoadSettings,
    GetFfmpegPath, cmds_optionVar_sv, at_self, bind, get_self, get_host, put_host, ret.
  cbn [fst snd w_host w_self w_log w_trace with_optionVars h_optionVars].
  rewrite lookup_insert_eq.
  unfold SetFfmpegPath, DEFAULT_FFMPEG_PATH.
  destruct (String.eqb (_FfmpegPath (w_self W)) "") eqn:E; cbn [negb].
  - apply String.eqb_eq in E. rewrite E. repeat split.
  - repeat split.
Qed.

Lemma str_app_assoc (a b c : string) : (a +:+ b) +:+ c = a +:+ (b +:+ c).
Proof.
  induction a as [|x a IH]; [reflexivity|].
  change (String x ((a +:+ b) +:+ c) = String x (a +:+ (b +:+ c))).
  rewrite IH. reflexivity.
Qed.

Lemma save_visibility_loop_bools (int_of_str : string -> Res Z) (l : list bool)
    (VisibilityStr : string) :
  GeterosisPlayblastUi.save_visibility_loop int_of_str (map PBool l) VisibilityStr
  = Val (VisibilityStr +:+ bits l).
Proof.
  revert VisibilityStr. induction l as [|b l IH]; intros VisibilityStr;
    cbn [map GeterosisPlayblastUi.save_visibility_loop GeterosisPlayblastUi.py_int bits].
  - assert (H : VisibilityStr +:+ "" = VisibilityStr).
    { induction VisibilityStr as [|x s IHs]; [reflexivity|].
      change (String x (s +:+ "") = String x s). rewrite IHs. reflexivity. }
    rewrite H. reflexivity.
  - rewrite IH.
    assert (Hbit : pretty (Z.b2z b) = bit b) by (destruct b; reflexivity).
    rewrite Hbit, !str_app_assoc. reflexivity.
Qed.

Lemma bit_word (b : bool) (cur s : string) :
  str_split_from cur (bit b +:+ s) = str_split_from (cur +:+ bit b) s.
Proof. destruct b; reflexivity. Qed.

Lemma app_bit_nonempty (cur : string) (b : bool) : String.eqb (cur +:+ bit b) "" = false.
Proof. destruct cur; destruct b; reflexivity. Qed.

Lemma str_split_from_bits (l : list bool) (cur : string) :
  String.eqb cur "" = false ->
  str_split_from cur (bits l) = cur :: map bit l.
Proof.
  revert cur. induction l as [|b l IH]; intros cur Hcur; cbn [bits map].
  - cbn [str_split_from]. rewrite Hcur. reflexivity.
  - change (" " +:+ bit b +:+ bits l) with (String " "%char (bit b +:+ bits l)).
    cbn [str_split_from].
    change (py_isspace " "%char) with true. cbv iota. rewrite Hcur.
    rewrite bit_word. cbn [append].
    rewrite IH; [reflexivity|destruct b; reflexivity].
Qed.

Lemma str_split_bits (l : list bool) : str_split (bits l) = map bit l.
Proof.
  unfold str_split. destruct l as [|b l]; [reflexivity|].
  cbn [bits map].
  change (" " +:+ bit b +:+ bits l) with (String " "%char (bit b +:+ bits l)).
  cbn [str_split_from].
  change (py_isspace " "%char) with true. cbv iota.
  change (String.eqb "" "") with true. cbv iota.
  rewrite bit_word. cbn [append].
  apply str_split_from_bits. destruct b; reflexivity.
Qed.

Lemma load_visibility_loop_bits (int_of_str : string -> Res Z) (l : list bool)
    (VisibilityData : list PyVal) :
  int_of_str "0" = Val 0%Z ->
  int_of_str "1" = Val 1%Z ->
  GeterosisPlayblastUi.load_visibility_loop int_of_str (map bit l) VisibilityData
  = Val (VisibilityData ++ map PBool l)%list.
Proof.
  intros H0 H1. revert VisibilityData.
  induction l as [|b l IH]; intros VisibilityData;
    cbn [map GeterosisPlayblastUi.load_visibility_loop].
  - rewrite app_nil_r. reflexivity.
  - destruct b; cbn [bit]; cbn [String.eqb Ascii.eqb negb];
      [change (String.eqb "1" "") with false; cbv iota; cbn [negb]; rewrite H1
      |change (String.eqb "0" "") with false; cbv iota; cbn [negb]; rewrite H0];
      rewrite IH, <- app_assoc; reflexivity.
Qed.

(** X18: a custom visibility survives a session.  For a stored vector
    of booleans, what [save_defaults] writes to the option variable is
    read back by [LoadDefaults] (with the preset [Custom] shown) as the
    same booleans in the same order, and handed to [SetVisibility] of
    the object of a later session, whose [GetVisibility] then returns
    them as a list.  Of [int] on strings only its values on [0] and [1]
    are used. *)
Theorem custom_visibility_survives_sessions (int_of_str : string -> Res Z) (W : World)
    (l : list bool) (later : Self) :
  int_of_str "0" = Val 0%Z ->
  int_of_str "1" = Val 1%Z ->
  _Visibility (w_self W) = PList (map PBool l)
  \/ _Visibility (w_self W) = PTuple (map PBool l) ->
  l <> [] ->
  let saved := GeterosisPlayblastUi.save_defaults_visibility int_of_str W in
  let out :=
    (GeterosisPlayblastUi.LoadDefaults_visibility int_of_str >> GetVisibility)
      (at_self later (snd saved)) in
  fst saved = Val tt
  /\ h_optionVars (w_host (snd saved)) !! "GeterosisPlayblastUiVisibilityData"
     = Some (bits l)
  /\ fst out = Val (PList (map PBool l)).
Proof.
  intros H0 H1 Hv Hne. cbv zeta.
  assert (Htruthy : py_truthy (_Visibility (w_self W)) = true).
  { destruct Hv as [-> | ->]; destruct l; [congruence|reflexivity|congruence|reflexivity]. }
  assert (Hiter : py_iter (_Visibility (w_self W)) = Val (map PBool l))
    by (destruct Hv as [-> | ->]; reflexivity).
  assert (Hsaved : GeterosisPlayblastUi.save_defaults_visibility int_of_str W
                   = (Val tt,
                      mkWorld
                        (with_optionVars
                           (fun vars => <["GeterosisPlayblastUiVisibilityData" := bits l]> vars)
                           (w_host W))
                        (w_self W) (w_log W) (w_trace W))).
  { unfold GeterosisPlayblastUi.save_defaults_visibility, GetVisibility.
    erewrite bind_val by (erewrite bind_val by reflexivity; rewrite Htruthy; reflexivity).
    erewrite bind_val by (unfold lift; rewrite Hiter; reflexivity).
    erewrite bind_val
      by (unfold lift; rewrite save_visibility_loop_bools; reflexivity).
    reflexivity. }
  rewrite Hsaved. unfold at_self.
  cbn [fst snd w_host with_optionVars h_optionVars w_log w_trace].
  split; [reflexivity|]. split; [apply lookup_insert_eq|].
  assert (Hl : py_truthy (PList (map PBool l)) = true)
    by (destruct l; [congruence|reflexivity]).
  match goal with
  | |- fst (bind _ _ ?Wl) = _ =>
      assert (Hload : GeterosisPlayblastUi.LoadDefaults_visibility int_of_str Wl
                      = (Val tt, snd (set_Visibility (PList (map PBool l)) Wl)))
  end.
  { unfold GeterosisPlayblastUi.LoadDefaults_visibility.
    erewrite bind_val by reflexivity.
    cbn [w_host with_optionVars h_optionVars]. rewrite lookup_insert_eq.
    erewrite bind_val
      by (unfold lift; rewrite str_split_bits, (load_visibility_loop_bits _ _ _ H0 H1);
          reflexivity).
    cbn [app]. unfold SetVisibility. rewrite Hl. reflexivity. }
  erewrite bind_val by exact Hload.
  unfold GetVisibility. erewrite bind_val by reflexivity.
  match goal with
  | |- context [_Visibility (w_self (snd (set_Visibility ?v ?Wl)))] =>
      change (_Visibility (w_self (snd (set_Visibility v Wl)))) with v
  end.
  rewrite Hl. reflexivity.
Qed.

Lemma custom_visibility_survives_sessions_witness :
  let W := snd (SetVisibility (PTuple (map PBool [true; false; true])) demo_world) in
  let saved := GeterosisPlayblastUi.save_defaults_visibility demo_int_of_str W in
  let out :=
    (GeterosisPlayblastUi.LoadDefaults_visibility demo_int_of_str >> GetVisibility)
      (at_self blank_self (snd saved)) in
  fst saved = Val tt
  /\ h_optionVars (w_host (snd saved)) !! "GeterosisPlayblastUiVisibilityData"
     = Some (bits [true; false; true])
  /\ fst out = Val (PList (map PBool [true; false; true])).
Proof.
  cbv zeta.
  apply (custom_visibility_survives_sessions demo_int_of_str
           (snd (SetVisibility (PTuple (map PBool [true; false; true])) demo_world))
           [true; false; true] blank_self).
  - reflexivity.
  - reflexivity.
  - right. vm_compute. reflexivity.
  - discriminate.
Defined.

(** ** The visibility dialog *)

Lemma set_checkboxes_length (setChecked_arg : PyVal -> Res bool) (Data : PyVal) (count : nat) :
  forall (i : nat) (boxes : list bool),
    length (snd (GeterosisPlayblastVisibilityDialog.set_checkboxes setChecked_arg Data count i
                   boxes))
    = length boxes.
Proof.
  induction count as [|count IH]; intros i boxes;
    cbn [GeterosisPlayblastVisibilityDialog.set_checkboxes]; [reflexivity|].
  destruct (py_getitem Data i) as [v|e]; [|reflexivity].
  destruct (setChecked_arg v) as [b|e]; [|reflexivity].
  rewrite IH. apply length_insert.
Qed.

Lemma SetVisibilityData_length (setChecked_arg : PyVal -> Res bool) (Data : PyVal)
    (boxes : list bool) :
  length (snd (GeterosisPlayblastVisibilityDialog.SetVisibilityData setChecked_arg Data boxes))
  = length boxes.
Proof.
  unfold GeterosisPlayblastVisibilityDialog.SetVisibilityData.
  destruct (py_len Data) as [n|e]; [|reflexivity].
  destruct (length boxes =? n)%nat; cbn [negb]; [|reflexivity].
  apply set_checkboxes_length.
Qed.

Lemma dialog_init_length :
  length GeterosisPlayblastVisibilityDialog.__init__ = length VIEWPORT_VISIBILITY_LOOKUP.
Proof. apply length_map. Qed.

(** X19: what the visibility dialog hands to the engine is always a
    vector of the right length.  However [ShowVisibilityDialog] ends,
    the dialog has one check box for each item of the visibility lookup;
    and when the dialog is accepted, [OnVisibilityDialogModified] stores
    a vector from which the flag map can be built, the flag of the item
    at position [j] being the state of the check box at position [j]. *)
Theorem dialog_vector_builds_flags (setChecked_arg : PyVal -> Res bool)
    (dialog : option (list bool)) (W : World) :
  dialog_ok dialog ->
  exists boxes,
    snd (GeterosisPlayblastUi.ShowVisibilityDialog setChecked_arg dialog W) = Some boxes
    /\ length boxes = length VIEWPORT_VISIBILITY_LOOKUP
    /\ forall W1, exists W' flags,
         GeterosisPlayblastUi.OnVisibilityDialogModified boxes W1 = (Val tt, W')
         /\ (let* VisibilityData := GetVisibility in
             CreateViewportVisibilityFlags VisibilityData) W' = (Val flags, W')
         /\ forall j item, VIEWPORT_VISIBILITY_LOOKUP !! j = Some item ->
              flags !! snd item = option_map PBool (boxes !! j).
Proof.
  intros Hok.
  set (start := match dialog with
                | Some boxes => boxes
                | None => GeterosisPlayblastVisibilityDialog.__init__
                end).
  assert (Hstart : length start = length VIEWPORT_VISIBILITY_LOOKUP).
  { unfold start. destruct dialog as [boxes|]; [exact Hok|apply dialog_init_length]. }
  assert (Hshow : exists boxes,
             snd (GeterosisPlayblastUi.ShowVisibilityDialog setChecked_arg dialog W)
             = Some boxes
             /\ length boxes = length VIEWPORT_VISIBILITY_LOOKUP).
  { unfold GeterosisPlayblastUi.ShowVisibilityDialog. fold start.
    destruct (GetVisibility W) as [[Data|e] W'].
    - pose proof (SetVisibilityData_length setChecked_arg Data start) as Hlen.
      destruct (GeterosisPlayblastVisibilityDialog.SetVisibilityData setChecked_arg Data start)
        as [r boxes].
      cbn [snd] in *. exists boxes. split; [reflexivity|congruence].
    - exists start. split; [reflexivity|exact Hstart]. }
  destruct Hshow as (boxes & Hshow & Hlen).
  exists boxes. split; [exact Hshow|]. split; [exact Hlen|].
  intros W1.
  assert (Hvec : length (map PBool boxes) = length VIEWPORT_VISIBILITY_LOOKUP)
    by (rewrite length_map; exact Hlen).
  assert (Htruthy : py_truthy (PList (map PBool boxes)) = true).
  { destruct boxes; [discriminate Hlen|reflexivity]. }
  destruct (fill_flags_enough (map PBool boxes) VIEWPORT_VISIBILITY_LOOKUP 0 ∅)
    as [flags Hfill]; [cbn [Nat.add]; lia|].
  exists (snd (set_Visibility (PList (map PBool boxes)) W1)), flags.
  split.
  { unfold GeterosisPlayblastUi.OnVisibilityDialogModified,
      GeterosisPlayblastVisibilityDialog.GetVisibilityData, SetVisibility.
    rewrite Htruthy. reflexivity. }
  split.
  { unfold GetVisibility.
    erewrite bind_val.
    2: { erewrite bind_val by reflexivity.
         match goal with
         | |- context [_Visibility (w_self (snd (set_Visibility ?v ?Wl)))] =>
             change (_Visibility (w_self (snd (set_Visibility v Wl)))) with v
         end.
         rewrite Htruthy. reflexivity. }
    unfold CreateViewportVisibilityFlags, lift. rewrite Hfill. reflexivity. }
  intros j item Hj.
  destruct (fill_flags_lookup (map PBool boxes) VIEWPORT_VISIBILITY_LOOKUP
              VIEWPORT_VISIBILITY_LOOKUP_NoDup 0 ∅ flags Hfill j item Hj) as [Hlook _].
  rewrite Hlook. cbn [Nat.add]. apply map_lookup.
Qed.

Lemma dialog_vector_builds_flags_witness :
  exists boxes,
    snd (GeterosisPlayblastUi.ShowVisibilityDialog demo_setChecked_arg None demo_world)
    = Some boxes
    /\ length boxes = length VIEWPORT_VISIBILITY_LOOKUP
    /\ forall W1, exists W' flags,
         GeterosisPlayblastUi.OnVisibilityDialogModified boxes W1 = (Val tt, W')
         /\ (let* VisibilityData := GetVisibility in
             CreateViewportVisibilityFlags VisibilityData) W' = (Val flags, W')
         /\ forall j item, VIEWPORT_VISIBILITY_LOOKUP !! j = Some item ->
              flags !! snd item = option_map PBool (boxes !! j).
Proof.
  apply (dialog_vector_builds_flags demo_setChecked_arg None demo_world).
  exact I.
Defined.

(** X20: a stored visibility vector of the wrong length, which
    [SetVisibility] takes, keeps the dialog from opening:
    [ShowVisibilityDialog] raises
    [RuntimeError("Visibility property/data mismatch")] before any check
    box is changed, and the engine is left as it was. *)
Theorem ShowVisibilityDialog_mismatch (setChecked_arg : PyVal -> Res bool)
    (dialog : option (list bool)) (W : World) (l : list PyVal) :
  dialog_ok dialog ->
  _Visibility (w_self W) = PList l \/ _Visibility (w_self W) = PTuple l ->
  l <> [] ->
  length l <> length VIEWPORT_VISIBILITY_LOOKUP ->
  GeterosisPlayblastUi.ShowVisibilityDialog setChecked_arg dialog W
  = (Raise (RuntimeError "Visibility property/data mismatch"), W,
     Some (match dialog with
           | Some boxes => boxes
           | None => GeterosisPlayblastVisibilityDialog.__init__
           end)).
Proof.
  intros Hok Hv Hne Hlen.
  set (start := match dialog with
                | Some boxes => boxes
                | None => GeterosisPlayblastVisibilityDialog.__init__
                end).
  assert (Hstart : length start = length VIEWPORT_VISIBILITY_LOOKUP).
  { unfold start. destruct dialog as [boxes|]; [exact Hok|apply dialog_init_length]. }
  assert (Htruthy : py_truthy (_Visibility (w_self W)) = true).
  { destruct Hv as [-> | ->]; destruct l; [congruence|reflexivity|congruence|reflexivity]. }
  assert (Hget : GetVisibility W = (Val (_Visibility (w_self W)), W)).
  { unfold GetVisibility. erewrite bind_val by reflexivity. rewrite Htruthy. reflexivity. }
  assert (Hpylen : py_len (_Visibility (w_self W)) = Val (length l))
    by (destruct Hv as [-> | ->]; reflexivity).
  unfold GeterosisPlayblastUi.ShowVisibilityDialog. fold start. rewrite Hget.
  unfold GeterosisPlayblastVisibilityDialog.SetVisibilityData. rewrite Hpylen, Hstart.
  assert (Hneq : (length VIEWPORT_VISIBILITY_LOOKUP =? length l)%nat = false).
  { apply Nat.eqb_neq. congruence. }
  rewrite Hneq. reflexivity.
Qed.

Lemma ShowVisibilityDialog_mismatch_witness :
  GeterosisPlayblastUi.ShowVisibilityDialog demo_setChecked_arg None
    demo_world_short_visibility
  = (Raise (RuntimeError "Visibility property/data mismatch"), demo_world_short_visibility,
     Some GeterosisPlayblastVisibilityDialog.__init__).
Proof.
  apply (ShowVisibilityDialog_mismatch demo_setChecked_arg None demo_world_short_visibility
           [PBool true; PBool false; PBool true]).
  - exact I.
  - left. vm_compute. reflexivity.
  - discriminate.
  - vm_compute. lia.
Defined.

(** ** Exceptions of the encoding stage *)

Lemma raises_early_returns {A : Type} (m : M A) : returns m -> raises_early m.
Proof. intros Hm W e W' H. destruct (Hm W) as (a & W1 & Ha). congruence. Qed.

Lemma raises_early_bind {A B : Type} (m : M A) (k : A -> M B) :
  preserves only_logs m -> (forall a, raises_early (k a)) -> raises_early (bind m k).
Proof.
  intros Hm Hk W e W' H. unfold bind in H. specialize (Hm W).
  destruct (m W) as [[a|e1] W1]; cbn [snd] in Hm.
  - eapply only_logs_trans; [exact Hm|]. eapply Hk. exact H.
  - injection H as <- <-. exact Hm.
Qed.

Lemma ExecuteFfmpegCommand_returns (prims : Prims) (Command : list Piece) :
  returns (ExecuteFfmpegCommand prims Command).
Proof.
  intros W. destruct (ExecuteFfmpegCommand_run prims Command W) as (W' & H & _).
  eexists. eexists. exact H.
Qed.

Lemma Encodeh264_raises_early (prims : Prims) (SourcePath OutputPath : string)
    (StartFrame : PyVal) :
  raises_early (Encodeh264 prims SourcePath OutputPath StartFrame).
Proof.
  unfold Encodeh264.
  apply raises_early_bind; [logs_step|intros self].
  apply raises_early_bind; [apply GetFrameRate_only_logs|intros Framerate].
  apply raises_early_bind; [apply GetAudioAttributes_only_logs|intros [AudioFilePath Offset]].
  apply raises_early_bind;
    [unfold GetAudioOffsetInSec; repeat logs_step|intros AudioOffset].
  apply raises_early_bind; [repeat logs_step|intros Crf].
  apply raises_early_bind;
    [apply (preserves_LogOutput only_logs (fun W W' H => H))|intros _].
  apply raises_early_returns, ExecuteFfmpegCommand_returns.
Qed.

Lemma is_rmdir_refl (dir : string) : is_rmdir dir (CallQDirRmdir dir) = true.
Proof. apply String.eqb_refl. Qed.

(** X21: the encoding stage of [execute] either raises before the
    encoder is started, having changed nothing but the log (no call,
    no file, no attribute of the object), or it returns; and when it
    returns with a container that needs the encoder, the temporary
    directory has been removed on the way: [QDir.rmdir] was called on
    it. *)
Theorem execute_encode_raises_early_or_cleans_up (prims : Prims) (plan : Plan)
    (ShowInViewer : bool) (W : World) :
  requires_ffmpeg (w_self W) = true ->
  let out := execute_encode prims plan ShowInViewer W in
  match fst out with
  | Raise _ => only_logs W (snd out)
  | Val _ =>
      exists calls,
        w_trace (snd out) = (w_trace W ++ calls)%list
        /\ existsb (is_rmdir (p_PlayblastOutputDir plan)) calls = true
  end.
Proof.
  intros Hneeds. cbv zeta. unfold execute_encode.
  erewrite bind_val by reflexivity.
  erewrite bind_val by reflexivity.
  unfold requires_ffmpeg in Hneeds. rewrite Hneeds.
  assert (Hremove : forall W1,
             exists W2,
               RemoveTempDir prims (p_PlayblastOutputDir plan) W1 = (Val tt, W2)
               /\ exists calls,
                    w_trace W2 = (w_trace W1 ++ calls)%list
                    /\ existsb (is_rmdir (p_PlayblastOutputDir plan)) calls = true).
  { intros W1.
    destruct (RemoveTempDir_run prims (p_PlayblastOutputDir plan) W1)
      as (W2 & Hrm & _ & _ & Ht & _).
    exists W2. split; [exact Hrm|]. eexists. split; [exact Ht|].
    rewrite existsb_app. cbn [existsb]. rewrite is_rmdir_refl.
    rewrite orb_true_r. reflexivity. }
  destruct (String.eqb (_Encoder (w_self W)) "h264").
  - set (SourcePath := p_PlayblastOutputDir plan +:+ "/" +:+ p_FileName plan +:+ ".%0"
                         +:+ pretty (p_Padding plan) +:+ "d.png").
    pose proof (Encodeh264_raises_early prims SourcePath (p_OutputPath plan)
                  (p_StartFrame plan) W) as Hearly.
    pose proof (Encodeh264_only_files prims SourcePath (p_OutputPath plan)
                  (p_StartFrame plan) W) as Hfiles.
    destruct (Encodeh264 prims SourcePath (p_OutputPath plan) (p_StartFrame plan) W)
      as [[[]|e] W1] eqn:Henc.
    + erewrite bind_val by exact Henc.
      cbn [snd] in Hfiles. destruct Hfiles as (_ & _ & (c1 & Ht1 & _) & _).
      destruct (Hremove W1) as (W2 & Hrm & c2 & Ht2 & Hc2).
      erewrite bind_val by exact Hrm.
      destruct ShowInViewer; cbn [when].
      * destruct (OpenInViewer_run (p_OutputPath plan) W2)
          as (W3 & c3 & -> & _ & _ & Ht3 & _).
        cbn [fst snd]. exists (c1 ++ c2 ++ c3)%list. split.
        -- rewrite Ht3, Ht2, Ht1, <- !app_assoc. reflexivity.
        -- rewrite !existsb_app, Hc2, orb_true_r. reflexivity.
      * cbn [fst snd ret]. exists (c1 ++ c2)%list. split.
        -- rewrite Ht2, Ht1, <- !app_assoc. reflexivity.
        -- rewrite existsb_app, Hc2, orb_true_r. reflexivity.
    + erewrite bind_raise by exact Henc.
      cbn [fst snd]. eapply Hearly. reflexivity.
  - erewrite bind_val by apply LogError_run.
    match goal with
    | |- context [RemoveTempDir prims _ ?W1] =>
        destruct (Hremove W1) as (W2 & -> & c2 & Ht2 & Hc2)
    end.
    cbn [fst snd]. exists c2. split; [|exact Hc2].
    rewrite Ht2, logged_trace. reflexivity.
Qed.

Lemma execute_encode_raises_early_or_cleans_up_witness :
  match fst (execute_encode demo_prims demo_plan true demo_world_captured) with
  | Raise _ =>
      only_logs demo_world_captured
        (snd (execute_encode demo_prims demo_plan true demo_world_captured))
  | Val _ =>
      exists calls,
        w_trace (snd (execute_encode demo_prims demo_plan true demo_world_captured))
        = (w_trace demo_world_captured ++ calls)%list
        /\ existsb (is_rmdir (p_PlayblastOutputDir demo_plan)) calls = true
  end.
Proof.
  apply (execute_encode_raises_early_or_cleans_up demo_prims demo_plan true
           demo_world_captured).
  vm_compute. reflexivity.
Defined.

(** X22: the h264 settings survive a session.  On an object with
    consistent encoding settings, what [save_defaults] writes to the
    two option variables is accepted by [Seth264Settings] when
    [LoadDefaults] hands it to the object of a later session: nothing is
    logged, and [Geth264Settings] of that object then returns the
    quality and the preset of the first. *)
Theorem h264_settings_survive_sessions (W : World) (later : Self) :
  settings_consistent (w_self W) = true ->
  let saved := save_defaults_h264 W in
  let out := (LoadDefaults_h264 >> Geth264Settings) (at_self later (snd saved)) in
  fst saved = Val tt
  /\ fst out = Val (_h264Quality (w_self W), _h264Preset (w_self W))
  /\ w_log (snd out) = w_log W.
Proof.
  intros Hcons. cbv zeta.
  unfold settings_consistent, encoding_of, encoding_consistent in Hcons.
  apply andb_true_iff in Hcons. destruct Hcons as [Hcons Hp].
  apply andb_true_iff in Hcons. destruct Hcons as [_ Hq].
  assert (Hsaved : save_defaults_h264 W
                   = (Val tt,
                      mkWorld
                        (with_optionVars
                           (fun vars =>
                              <["GeterosisPlayblastUiH264Preset" := _h264Preset (w_self W)]>
                                (<["GeterosisPlayblastUiH264Quality" :=
                                     _h264Quality (w_self W)]> vars))
                           (w_host W))
                        (w_self W) (w_log W) (w_trace W))).
  { unfold save_defaults_h264, Geth264Settings, cmds_optionVar_sv, bind, get_self, get_host,
      put_host, ret.
    cbn [fst snd w_host w_self w_log w_trace with_optionVars h_optionVars].
    destruct (w_host W); reflexivity. }
  rewrite Hsaved. unfold at_self. cbn [fst snd w_host w_log w_trace].
  split; [reflexivity|].
  unfold LoadDefaults_h264.
  erewrite bind_val.
  2: { erewrite bind_val by reflexivity.
       cbn [w_host with_optionVars h_optionVars].
       rewrite lookup_insert_ne by discriminate.
       rewrite !lookup_insert_eq.
       unfold Seth264Settings. rewrite Hq, Hp. reflexivity. }
  split; reflexivity.
Qed.

Lemma h264_settings_survive_sessions_witness :
  let W := snd (Seth264Settings "Low" "veryslow" demo_world) in
  let saved := save_defaults_h264 W in
  let out := (LoadDefaults_h264 >> Geth264Settings) (at_self blank_self (snd saved)) in
  fst saved = Val tt
  /\ fst out = Val (_h264Quality (w_self W), _h264Preset (w_self W))
  /\ w_log (snd out) = w_log W.
Proof.
  cbv zeta.
  apply (h264_settings_survive_sessions (snd (Seth264Settings "Low" "veryslow" demo_world))
           blank_self).
  vm_compute. reflexivity.
Defined.

(** ** Exceptions on the way to the capture and after it *)

(** C1 does not hold of the code: the [try]/[finally] of [execute]
    starts after the viewport has been changed.  With the camera
    [shotCam] chosen and a visibility vector of three entries stored
    (which [SetVisibility] takes), [execute] switches the panel from
    [persp] to [shotCam] and then raises [IndexError] while it builds
    the flag map: the exception leaves [execute], no restoring call is
    issued, nothing is captured, no error is logged, and the panel still
    looks through [shotCam]. *)
Lemma execute_raises_with_viewport_changed :
  let W := demo_world_short_visibility in
  let out := execute demo_prims "/out" "shot" 4 false true true false W in
  h_panels (w_host W) !! "modelPanel4" = Some "persp"
  /\ fst (SetVisibility (PList [PBool true; PBool false; PBool true]) demo_world_shotCam)
     = Val tt
  /\ w_log W = w_log demo_world_shotCam
  /\ fst out = Raise IndexError
  /\ w_trace (snd out) = (w_trace W ++ [CallLookThrough (Some "shotCam") "modelPanel4"])%list
  /\ h_panels (w_host (snd out)) !! "modelPanel4" = Some "shotCam"
  /\ existsb is_error_line (w_log (snd out)) = false.
Proof. cbv zeta. repeat (split; [vm_compute; reflexivity|]). vm_compute. reflexivity. Qed.

(** C3 does not hold of the code: with a container that needs the
    encoder and a scene whose time unit [GetFrameRate] does not know
    ([29.97df]), the capture succeeds, the encoding stage raises before
    the encoder is started, and [execute] ends there: [RemoveTempDir] is
    never called, and the temporary directory stays on disk with its
    frame.  In the same scene with the time unit [film] the same call
    removes the frame and the directory. *)
Lemma execute_keeps_temp_dir_when_encoding_raises :
  let out := execute demo_prims "/out" "shot" 4 false true false false demo_world_drop_frame in
  let ok := execute demo_prims "/out" "shot" 4 false true false false demo_world in
  requires_ffmpeg (w_self demo_world_drop_frame) = true
  /\ existsb (fun c => match c with CallPlayblast _ => true | _ => false end)
       (w_trace (snd out)) = true
  /\ existsb is_error_line (w_log (snd out)) = false
  /\ existsb (fun c => match c with CallFfmpeg _ => true | _ => false end)
       (w_trace (snd out)) = false
  /\ existsb (is_rmdir "/out/playblast_temp") (w_trace (snd out)) = false
  /\ os_path_exists (w_host (snd out)) "/out/playblast_temp" = true
  /\ os_path_exists (w_host (snd out)) "/out/playblast_temp/shot.0000.png" = true
  /\ fst ok = Val tt
  /\ existsb (is_rmdir "/out/playblast_temp") (w_trace (snd ok)) = true
  /\ os_path_exists (w_host (snd ok)) "/out/playblast_temp" = false
  /\ os_path_exists (w_host (snd ok)) "/out/playblast_temp/shot.0000.png" = false.
Proof. cbv zeta. repeat (split; [vm_compute; reflexivity|]). vm_compute. reflexivity. Qed.

(** X24: with a container that needs the encoder, when [execute] has
    got as far as the capture, the capture has not failed and the
    encoder stage has ended (the encoder ran to its end, with whatever
    exit code, or the encoder is not supported), [execute] returns
    normally and has removed the temporary directory on the way: every
    listed frame is removed, [rmdir] is called once, and only calls to
    the viewer follow.  When [rmdir] fails, the removal adds one warning
    to the log and [execute] returns normally all the same. *)
Theorem execute_removes_temp_dir_after_encoding (prims : Prims) (OutputDir FileName : string)
    (Padding : Z) (Overscan ShowOrnaments ShowInViewer Overwrite : bool)
    (W : World) (plan : Plan) (snap : Snapshot) (W2 W3 W4 : World) :
  requires_ffmpeg (w_self W) = true ->
  reaches_capture prims OutputDir FileName Padding Overscan ShowOrnaments ShowInViewer
    Overwrite W plan snap W2 ->
  execute_capture prims (p_Options plan) Overscan snap W2 = (Val false, W3) ->
  encoder_stage_ended prims plan W3 W4 ->
  let dir := p_PlayblastOutputDir plan in
  let out :=
    execute prims OutputDir FileName Padding Overscan ShowOrnaments ShowInViewer Overwrite W in
  fst out = Val tt
  /\ exists W5 calls,
       RemoveTempDir prims dir W4 = (Val tt, W5)
       /\ w_trace W5
          = (w_trace W4
               ++ map (CallQDirRemove dir) (qdir_entryList prims (h_fs (w_host W4)) dir)
               ++ [CallQDirRmdir dir])%list
       /\ h_fs (w_host W5)
          = snd (qdir_rmdir prims (fs_after_removals prims (h_fs (w_host W4)) dir) dir)
       /\ w_log W5
          = (w_log W4 ++
             if temp_dir_removed prims (h_fs (w_host W4)) dir then []
             else warning_lines (_LogToMaya (w_self W4))
                    [Txt "Failed to remove temporary directory: "; Fmt (PStr dir)])%list
       /\ w_host (snd out) = w_host W5
       /\ w_trace (snd out) = (w_trace W5 ++ calls)%list
       /\ forallb viewer_call calls = true.
Proof.
  intros Hneeds (panel & W0 & W1 & Hchecks & Hplan & Hacquire) Hcapture Hended. cbv zeta.
  assert (Hself : w_self W3 = w_self W).
  { pose proof (execute_checks_only_logs OutputDir FileName W) as H0.
    rewrite Hchecks in H0. destruct H0 as (_ & Hs0 & _).
    pose proof (execute_plan_only_logs prims OutputDir FileName Padding ShowOrnaments
                  ShowInViewer Overwrite W0) as H1.
    rewrite Hplan in H1. destruct H1 as (_ & Hs1 & _).
    pose proof (execute_acquire_calls any_call panel Overscan (fun c _ => eq_refl) W1) as H2.
    rewrite Hacquire in H2. destruct H2 as (Hs2 & _).
    pose proof (execute_capture_calls any_call prims (p_Options plan) Overscan snap
                  (fun c _ => eq_refl) W2) as H3.
    rewrite Hcapture in H3. destruct H3 as (Hs3 & _).
    cbn [snd] in *. congruence. }
  assert (Hexec : execute prims OutputDir FileName Padding Overscan ShowOrnaments ShowInViewer
                    Overwrite W
                  = execute_encode prims plan ShowInViewer W3).
  { unfold execute.
    erewrite bind_val by exact Hchecks. cbv beta iota.
    erewrite bind_val by exact Hplan. cbv beta iota.
    erewrite bind_val by exact Hacquire. cbv beta iota.
    erewrite bind_val by exact Hcapture. reflexivity. }
  rewrite <- Hself in Hneeds.
  destruct (temp_dir_removed_after_encoder_stage prims plan ShowInViewer W3 W4 Hneeds Hended)
    as (W5 & W' & calls & Hrm & Ht5 & Hfs5 & Hl5 & Hencode & Hh' & Ht' & Hcalls).
  rewrite Hexec, Hencode. cbn [fst snd].
  split; [reflexivity|].
  exists W5, calls. repeat split; assumption.
Qed.

Lemma execute_removes_temp_dir_after_encoding_witness :
  let W := demo_world in
  let W1 := snd (execute_plan demo_prims "/out" "shot" 4 true true false W) in
  let plan := acquired_plan (execute_plan demo_prims "/out" "shot" 4 true true false W) in
  let snap := acquired (execute_acquire "modelPanel4" false W1) in
  let W2 := snd (execute_acquire "modelPanel4" false W1) in
  let W3 := snd (execute_capture demo_prims (p_Options plan) false snap W2) in
  let W4 := snd (Encodeh264 demo_prims (source_path plan) (p_OutputPath plan)
                   (p_StartFrame plan) W3) in
  let dir := p_PlayblastOutputDir plan in
  let out := execute demo_prims "/out" "shot" 4 false true true false W in
  fst out = Val tt
  /\ exists W5 calls,
       RemoveTempDir demo_prims dir W4 = (Val tt, W5)
       /\ w_trace W5
          = (w_trace W4
               ++ map (CallQDirRemove dir) (qdir_entryList demo_prims (h_fs (w_host W4)) dir)
               ++ [CallQDirRmdir dir])%list
       /\ h_fs (w_host W5)
          = snd (qdir_rmdir demo_prims (fs_after_removals demo_prims (h_fs (w_host W4)) dir)
                   dir)
       /\ w_log W5
          = (w_log W4 ++
             if temp_dir_removed demo_prims (h_fs (w_host W4)) dir then []
             else warning_lines (_LogToMaya (w_self W4))
                    [Txt "Failed to remove temporary directory: "; Fmt (PStr dir)])%list
       /\ w_host (snd out) = w_host W5
       /\ w_trace (snd out) = (w_trace W5 ++ calls)%list
       /\ forallb viewer_call calls = true.
Proof.
  cbv zeta.
  refine (execute_removes_temp_dir_after_encoding demo_prims "/out" "shot" 4 false true true
            false demo_world _ _ _ _ _ _ _ _ _).
  - vm_compute. reflexivity.
  - exists "modelPanel4", demo_world,
      (snd (execute_plan demo_prims "/out" "shot" 4 true true false demo_world)).
    split; [vm_compute; reflexivity|].
    split; vm_compute; reflexivity.
  - vm_compute. reflexivity.
  - vm_compute. reflexivity.
Defined.
